(** * mcp-typescript: configuration resolution, diagnostic normalisation and
    watch sessions

    A shallow embedding of the TypeScript sources of the server
    ([src/utils/file.ts], [src/utils/diagnostics.ts], [src/handlers/config.ts],
    [src/handlers/compiler.ts], [src/handlers/typechecker.ts]) and the
    properties checked against it.

    Conventions of the embedding:
    - a JavaScript value is a [jsval]; an object is the finite map of its
      own enumerable properties (the order of the keys is not kept); numbers
      are integers, of which the handlers use the test against zero and the
      decimal print only;
    - a settled promise is an [outcome]: [Resolved v] or [Rejected msg]; a
      synchronous [throw] is the same [Rejected msg] seen by the enclosing
      function body;
    - the file system is a finite map from absolute paths to nodes;
    - the TypeScript compiler, [chokidar] and Node's [path] module are not
      part of the repository: the compiler is an interface ([ts.Engine]), the
      watcher a record with a [closed] flag, and [path] is written out for
      POSIX paths. *)

From Stdlib Require Import ZArith Ascii String.
From stdpp Require Import base decidable option list gmap strings pretty.

Local Open Scope Z_scope.
Local Open Scope stdpp_scope.

Set Warnings "-register-all".

(* ===================================================================== *)
(** * JavaScript values and objects *)

Inductive jsval :=
| JUndefined
| JNull
| JBool (b : bool)
| JNum (n : Z)
| JStr (s : string)
| JArr (items : list jsval)
| JObj (fields : gmap string jsval).

(** An object: its own enumerable properties by key. *)
Abbreviation jsobj := (gmap string jsval).

(** [Object.assign(target, source)], which is also [{...target, ...source}]:
    the properties of [source] win. *)
Definition obj_assign (target source : jsobj) : jsobj := source ∪ target.

(** Reading a property: an absent key reads as [undefined]. *)
Definition js_prop (o : jsobj) (k : string) : jsval :=
  default JUndefined (o !! k).

(** The own enumerable properties a spread [{...v}] copies. *)
Definition own_props (v : jsval) : jsobj :=
  match v with
  | JObj fields => fields
  | JArr items => list_to_map (imap (fun i x => (pretty i, x)) items)
  | JStr s =>
      list_to_map
        (imap (fun i c => (pretty i, JStr (String c EmptyString)))
              (list_ascii_of_string s))
  | _ => ∅
  end.

Definition truthy (v : jsval) : bool :=
  match v with
  | JUndefined | JNull => false
  | JBool b => b
  | JNum n => negb (n =? 0)
  | JStr s => negb (bool_decide (s = ""))
  | JArr _ | JObj _ => true
  end.

Definition typeof (v : jsval) : string :=
  match v with
  | JUndefined => "undefined"
  | JBool _ => "boolean"
  | JNum _ => "number"
  | JStr _ => "string"
  | JNull | JArr _ | JObj _ => "object"
  end.

Definition isArray (v : jsval) : bool :=
  match v with JArr _ => true | _ => false end.

(** An optional string argument used as a condition: [if (s)]. *)
Definition truthy_str (s : option string) : option string :=
  match s with
  | Some x => if decide (x = "") then None else Some x
  | None => None
  end.

(** The line feed ['\n'] and the escape character ['\x1b']. *)
Definition LF : string := String (ascii_of_nat 10) EmptyString.
Definition ESC : string := String (ascii_of_nat 27) EmptyString.

(** A settled promise, or the completion of a function body. *)
Inductive outcome (A : Type) :=
| Resolved (a : A)
| Rejected (message : string).
Arguments Resolved {A} a.
Arguments Rejected {A} message.

(* ===================================================================== *)
(** * Node's [path] module, POSIX flavour *)

Module Path.

(** The list from its first element that fails [f] on. *)
Fixpoint drop_while {A} (f : A -> bool) (l : list A) : list A :=
  match l with
  | [] => []
  | x :: rest => if f x then drop_while f rest else l
  end.

(** The longest prefix whose elements satisfy [f]. *)
Fixpoint take_while {A} (f : A -> bool) (l : list A) : list A :=
  match l with
  | [] => []
  | x :: rest => if f x then x :: take_while f rest else []
  end.

Definition chars (s : string) : list ascii := list_ascii_of_string s.
Definition str (l : list ascii) : string := string_of_list_ascii l.

Definition slash : ascii := "/"%char.
Definition dot : ascii := "."%char.

Definition isAbsolute (p : string) : bool :=
  match p with
  | String c _ => bool_decide (c = slash)
  | EmptyString => false
  end.

Definition endsWithSlash (p : string) : bool :=
  match last (chars p) with
  | Some c => bool_decide (c = slash)
  | None => false
  end.

(** The pieces between the separators: ["a//b"] has pieces [a], [], [b]. *)
Fixpoint pieces (cs : list ascii) : list (list ascii) :=
  match cs with
  | [] => [[]]
  | c :: rest =>
      if decide (c = slash) then [] :: pieces rest
      else match pieces rest with
           | p :: ps => (c :: p) :: ps
           | [] => [[c]]
           end
  end.

(** [normalizeString]: empty and [.] pieces vanish, [..] removes the piece
    before it; above the start it is kept only when [allowAboveRoot]. [acc]
    holds the result so far, last piece first. *)
Fixpoint normalize_pieces (allowAboveRoot : bool)
    (acc : list (list ascii)) (ps : list (list ascii)) : list (list ascii) :=
  match ps with
  | [] => rev acc
  | p :: rest =>
      if decide (p = [] \/ p = [dot]) then
        normalize_pieces allowAboveRoot acc rest
      else if decide (p = [dot; dot]) then
        match acc with
        | prev :: acc' =>
            if decide (prev = [dot; dot]) then
              normalize_pieces allowAboveRoot
                (if allowAboveRoot then p :: acc else acc) rest
            else normalize_pieces allowAboveRoot acc' rest
        | [] =>
            normalize_pieces allowAboveRoot
              (if allowAboveRoot then [p] else []) rest
        end
      else normalize_pieces allowAboveRoot (p :: acc) rest
  end.

Fixpoint join_pieces (ps : list (list ascii)) : list ascii :=
  match ps with
  | [] => []
  | [p] => p
  | p :: rest => p ++ slash :: join_pieces rest
  end.

Definition normalizeString (p : string) (allowAboveRoot : bool) : string :=
  str (join_pieces (normalize_pieces allowAboveRoot [] (pieces (chars p)))).

(** [path.resolve(p)] for one argument; [cwd] is [process.cwd()]. *)
Definition resolve (cwd p : string) : string :=
  let '(resolvedPath, resolvedAbsolute) :=
    if isAbsolute p then (p +:+ "/", true)
    else
      let tail := if decide (p = "") then "" else p +:+ "/" in
      if decide (cwd = "") then (tail, false)
      else (cwd +:+ "/" +:+ tail, isAbsolute cwd) in
  let n := normalizeString resolvedPath (negb resolvedAbsolute) in
  if resolvedAbsolute then "/" +:+ n
  else if decide (n = "") then "." else n.

Definition normalize (p : string) : string :=
  if decide (p = "") then "."
  else
    let isAbs := isAbsolute p in
    let trailing := endsWithSlash p in
    let n := normalizeString p (negb isAbs) in
    if decide (n = "") then
      (if isAbs then "/" else if trailing then "./" else ".")
    else
      let n' := if trailing then n +:+ "/" else n in
      if isAbs then "/" +:+ n' else n'.

(** [path.join(a, b)]. *)
Definition join (a b : string) : string :=
  let joined :=
    if decide (a = "") then b
    else if decide (b = "") then a
    else a +:+ "/" +:+ b in
  if decide (joined = "") then "." else normalize joined.

(** [path.dirname(p)]: the scan runs from the last character down to
    index 1, skipping trailing separators, and cuts at the first separator
    met after a non-separator. *)
Definition dirname (p : string) : string :=
  match chars p with
  | [] => "."
  | c0 :: rest =>
      let hasRoot := bool_decide (c0 = slash) in
      let back := rev rest in
      let after_trailing := drop_while (fun c => bool_decide (c = slash)) back in
      let after_name :=
        drop_while (fun c => negb (bool_decide (c = slash))) after_trailing in
      match after_name with
      | [] => if hasRoot then "/" else "."
      | _ :: before =>
          if hasRoot && bool_decide (before = []) then "//"
          else str (c0 :: rev before)
      end
  end.

(** The last piece of the path, trailing separators skipped. *)
Definition last_piece (cs : list ascii) : list ascii :=
  let back := drop_while (fun c => bool_decide (c = slash)) (rev cs) in
  rev (take_while (fun c => negb (bool_decide (c = slash))) back).

(** Index of the last [.] of a piece. *)
Fixpoint last_dot (cs : list ascii) : option nat :=
  match cs with
  | [] => None
  | c :: rest =>
      match last_dot rest with
      | Some i => Some (S i)
      | None => if decide (c = dot) then Some O else None
      end
  end.

(** [path.extname(p)]: from the last [.] of the last piece; empty when there
    is no dot, when the dot opens the piece, or when the piece is [..]. *)
Definition extname (p : string) : string :=
  let base := last_piece (chars p) in
  match last_dot base with
  | None => ""
  | Some O => ""
  | Some i => if decide (base = [dot; dot]) then "" else str (drop i base)
  end.

(** State of the backwards scan of [path.basename(p, ext)]. *)
Record base_scan := {
  bs_start : nat;
  bs_end : option nat;
  bs_matchedSlash : bool;
  bs_extIdx : option nat;
  bs_firstNonSlashEnd : option nat;
}.

(** One round of the loop at index [i] with character [c]; [inr] is the
    [break]. *)
Definition base_step (ext : list ascii) (st : base_scan) (i : nat) (c : ascii)
    : base_scan + base_scan :=
  if decide (c = slash) then
    if bs_matchedSlash st then inl st
    else inr {| bs_start := S i; bs_end := bs_end st;
                bs_matchedSlash := false; bs_extIdx := bs_extIdx st;
                bs_firstNonSlashEnd := bs_firstNonSlashEnd st |}
  else
    let st1 :=
      match bs_firstNonSlashEnd st with
      | None => {| bs_start := bs_start st; bs_end := bs_end st;
                   bs_matchedSlash := false; bs_extIdx := bs_extIdx st;
                   bs_firstNonSlashEnd := Some (S i) |}
      | Some _ => st
      end in
    match bs_extIdx st1 with
    | None => inl st1
    | Some j =>
        if decide (ext !! j = Some c) then
          match j with
          | O => inl {| bs_start := bs_start st1; bs_end := Some i;
                        bs_matchedSlash := bs_matchedSlash st1;
                        bs_extIdx := None;
                        bs_firstNonSlashEnd := bs_firstNonSlashEnd st1 |}
          | S j' => inl {| bs_start := bs_start st1; bs_end := bs_end st1;
                           bs_matchedSlash := bs_matchedSlash st1;
                           bs_extIdx := Some j';
                           bs_firstNonSlashEnd := bs_firstNonSlashEnd st1 |}
          end
        else inl {| bs_start := bs_start st1;
                    bs_end := bs_firstNonSlashEnd st1;
                    bs_matchedSlash := bs_matchedSlash st1;
                    bs_extIdx := None;
                    bs_firstNonSlashEnd := bs_firstNonSlashEnd st1 |}
    end.

(** The loop over the characters [back], last first, [i] counting down. *)
Fixpoint base_loop (ext : list ascii) (st : base_scan) (back : list ascii)
    : base_scan :=
  match back with
  | [] => st
  | c :: rest =>
      match base_step ext st (length rest) c with
      | inl st' => base_loop ext st' rest
      | inr st' => st'
      end
  end.

(** [path.basename(p, ext)]. *)
Definition basename (p ext : string) : string :=
  let cs := chars p in
  let es := chars ext in
  if bool_decide (es <> []) && bool_decide (length es <= length cs)%nat then
    if decide (ext = p) then ""
    else
      let st := base_loop es
        {| bs_start := 0; bs_end := None; bs_matchedSlash := true;
           bs_extIdx := Some (length es - 1)%nat;
           bs_firstNonSlashEnd := None |} (rev cs) in
      let stop :=
        match bs_end st with
        | Some e =>
            if decide (e = bs_start st)
            then default (bs_start st) (bs_firstNonSlashEnd st) else e
        | None => length cs
        end in
      str (take (stop - bs_start st) (drop (bs_start st) cs))
  else str (last_piece cs).

End Path.


(* ===================================================================== *)
(** * The file store *)

Inductive node :=
| File (content : string)
| Dir.

(** Paths are keys as they are; [mkdir -p] of a parent directory is not
    tracked. *)
Abbreviation filesystem := (gmap string node).

(* ===================================================================== *)
(** * [src/utils/file.ts] *)

Module FileUtil.

Definition readFile (fs : filesystem) (filePath : string) : outcome string :=
  match fs !! filePath with
  | Some (File data) => Resolved data
  | Some Dir => Rejected "EISDIR: illegal operation on a directory, read"
  | None =>
      Rejected ("ENOENT: no such file or directory, open '"
                +:+ filePath +:+ "'")
  end.

(** [fs.mkdir(dir, { recursive: true })], then [fs.writeFile]. The store
    takes [filePath] as the key and keeps no directory that [mkdir] makes:
    this is the outcome of the program where [filePath] is absolute and
    [dir] is a directory of the store, which [mkdir] then leaves as it is. *)
Definition writeFile (fs : filesystem) (filePath content : string)
    : outcome filesystem :=
  match fs !! filePath with
  | Some Dir =>
      Rejected ("EISDIR: illegal operation on a directory, open '"
                +:+ filePath +:+ "'")
  | _ => Resolved (<[filePath := File content]> fs)
  end.

(** [fs.existsSync]: true of files and of directories. *)
Definition fileExists (fs : filesystem) (filePath : string) : bool :=
  bool_decide (is_Some (fs !! filePath)).

(** The [while] loop of [findTsConfig]; [None] when [fuel] rounds did not
    reach the root. *)
Fixpoint findTsConfig_loop (fuel : nat) (fs : filesystem) (currentDir : string)
    : option (option string) :=
  match fuel with
  | O => None
  | S fuel' =>
      if decide (currentDir = Path.dirname currentDir) then Some None
      else
        let tsConfigPath := Path.join currentDir "tsconfig.json" in
        if fileExists fs tsConfigPath then Some (Some tsConfigPath)
        else findTsConfig_loop fuel' fs (Path.dirname currentDir)
  end.

(** Every round but the last shortens [currentDir] or reaches ["."], so
    [length startDir + 2] rounds are enough ([findTsConfig_loop_total]). *)
Definition findTsConfig (fs : filesystem) (startDir : string) : option string :=
  default None
    (findTsConfig_loop (String.length startDir + 2) fs startDir).

Definition ends_with (suffix s : string) : bool :=
  bool_decide (Path.chars suffix `suffix_of` Path.chars s).

Definition drop_end (n : nat) (s : string) : string :=
  Path.str (take (String.length s - n) (Path.chars s)).

(** [/\.(ts|tsx)$/.test(filePath)] *)
Definition isTypeScriptFile (filePath : string) : bool :=
  ends_with ".ts" filePath || ends_with ".tsx" filePath.

(** [s.replace(/\.(ts|tsx)$/, '.js')]: the match, if any, is the last three
    or the last four characters. *)
Definition replace_ts_extension (s : string) : string :=
  if ends_with ".tsx" s then drop_end 4 s +:+ ".js"
  else if ends_with ".ts" s then drop_end 3 s +:+ ".js"
  else s.

Definition getOutputPath (inputPath : string) (outputDir : option string)
    : string :=
  match truthy_str outputDir with
  | Some dir =>
      let fileName :=
        Path.basename inputPath (Path.extname inputPath) +:+ ".js" in
      Path.join dir fileName
  | None => replace_ts_extension inputPath
  end.

End FileUtil.

(* ===================================================================== *)
(** * The [typescript] package *)

Module ts.

(** [ts.DiagnosticCategory], a numeric enum. *)
Module DiagnosticCategory.
Definition Warning : Z := 0.
Definition Error : Z := 1.
Definition Suggestion : Z := 2.
Definition Message : Z := 3.
End DiagnosticCategory.

Module ScriptTarget.
Definition ES2020 : Z := 7.
End ScriptTarget.

Module ModuleKind.
Definition CommonJS : Z := 1.
End ModuleKind.

Record SourceFile := {
  fileName : string;
  text : string;
}.

Inductive DiagnosticMessageChain :=
| MessageChain (messageText : string) (next : list DiagnosticMessageChain).

Record Diagnostic := {
  file : option SourceFile;
  start : option nat;
  messageText : string + DiagnosticMessageChain;
  code : Z;
  category : Z;
}.

Record ParsedCommandLine := {
  options : jsobj;
  fileNames : list string;
  errors : list Diagnostic;
}.

Record TranspileOutput := {
  outputText : string;
  sourceMapText : option string;
  diagnostics : option (list Diagnostic);
}.

Record EmitResult := {
  emitSkipped : bool;
  emit_diagnostics : list Diagnostic;
}.

(** What the sources call in the package. *)
Class Engine := {
  getLineAndCharacterOfPosition : SourceFile -> nat -> nat * nat;
  flattenDiagnosticMessageText :
    string + DiagnosticMessageChain -> string -> string;
  (** the parser behind [ts.readConfigFile], on a file name and its text *)
  parseConfigFileTextToJson : string -> string -> jsobj + Diagnostic;
  (** [ts.parseJsonConfigFileContent(config, ts.sys, basePath)] *)
  parseJsonConfigFileContent :
    jsobj -> filesystem -> string -> ParsedCommandLine;
  transpileModule : string -> jsobj -> string -> TranspileOutput;
  (** [ts.getPreEmitDiagnostics(ts.createProgram(rootNames, options))] *)
  getPreEmitDiagnostics :
    list string -> jsobj -> filesystem -> list Diagnostic;
  (** [ts.createProgram(rootNames, options).emit()] *)
  emit : list string -> jsobj -> filesystem -> EmitResult * filesystem;
}.

(** [ts.readConfigFile(path, ts.sys.readFile)]: an unreadable file is the
    engine's diagnostic 5083. *)
Definition readConfigFile {E : Engine} (fs : filesystem) (path : string)
    : jsobj + Diagnostic :=
  match fs !! path with
  | Some (File content) => parseConfigFileTextToJson path content
  | _ => inr {| file := None; start := None;
                messageText := inl ("Cannot read file '" +:+ path +:+ "'.");
                code := 5083;
                category := DiagnosticCategory.Error |}
  end.

(** [ts.SyntaxKind.Unknown] *)
Module SyntaxKind.
Definition Unknown : Z := 0.
End SyntaxKind.

(** A node of the syntax tree: its kind, where it starts, and its children
    in the order [ts.forEachChild] passes them. *)
Inductive Node :=
| MkNode (kind : Z) (pos : nat) (children : list Node).

(** What [validateSyntax] calls besides the functions of [Engine]. *)
Class Parser := {
  (** [ts.createSourceFile(fileName, text, ts.ScriptTarget.Latest, true)] *)
  createSourceFile : string -> string -> Node;
  (** [ts.createProgram(rootNames, {}).getSyntacticDiagnostics(sourceFile)] *)
  getSyntacticDiagnostics :
    list string -> filesystem -> SourceFile -> list Diagnostic;
}.

End ts.

(** [process.cwd()] and [JSON.stringify(value, null, 2)]. *)
Class Runtime := {
  process_cwd : string;
  JSON_stringify : jsval -> string;
}.

(** [path.resolve] in the running process. *)
Definition path_resolve {R : Runtime} (p : string) : string :=
  Path.resolve process_cwd p.

(* ===================================================================== *)
(** * [src/types/index.ts] *)

Inductive Severity := error | warning | info.

Global Instance Severity_eq_dec : EqDecision Severity.
Proof. solve_decision. Defined.

(** The element type of [errors] and [diagnostics] in the results. *)
Record NormalizedDiagnostic := {
  file : string;
  line : nat;
  column : nat;
  message : string;
  code : string;
  severity : Severity;
}.

Record DiagnosticSummary := {
  errorCount : nat;
  warningCount : nat;
  infoCount : nat;
}.

Module CompileOptions.
Record t := {
  filePath : option string;
  projectPath : option string;
  outputDir : option string;
  sourceMap : option bool;
  watch : option bool;
}.
End CompileOptions.

Module TypeCheckOptions.
Record t := {
  filePath : string;
  strict : option bool;
  includeDeclarations : option bool;
}.
End TypeCheckOptions.

Inductive Format := json | text_format | formatted.

Module DiagnosticOptions.
Record t := {
  filePath : string;
  formatOutput : option Format;
}.
End DiagnosticOptions.

Module TsConfigUpdateOptions.
Record t := {
  configPath : string;
  options : jsobj;
}.
End TsConfigUpdateOptions.

Record GeneratedFile := {
  path : string;
  content : string;
}.

(** [duration], a reading of the wall clock, is left out. *)
Module CompilationResult.
Record t := {
  success : bool;
  output : option string;
  files : option (list GeneratedFile);
  errors : option (list NormalizedDiagnostic);
}.
End CompilationResult.

Module TypeCheckResult.
Record t := {
  success : bool;
  diagnostics : list NormalizedDiagnostic;
  summary : DiagnosticSummary;
}.
End TypeCheckResult.

(* ===================================================================== *)
(** * [src/utils/diagnostics.ts] *)

Module Diagnostics.

(** [a || b] on strings. *)
Definition or_else (a : option string) (b : string) : string :=
  default b (truthy_str a).

(** The position part shared by [formatDiagnostic] and the inline mappings
    of the compiler. *)
Definition position {E : ts.Engine} (diagnostic : ts.Diagnostic) : nat * nat :=
  match ts.file diagnostic, ts.start diagnostic with
  | Some f, Some start =>
      let lineAndChar := ts.getLineAndCharacterOfPosition f start in
      ((lineAndChar.1 + 1)%nat, (lineAndChar.2 + 1)%nat)
  | _, _ => (O, O)
  end.

(** The [switch] of [formatDiagnostic]. *)
Definition severity_of_category (category : Z) : Severity :=
  if decide (category = ts.DiagnosticCategory.Warning) then warning
  else if decide (category = ts.DiagnosticCategory.Suggestion) then info
  else if decide (category = ts.DiagnosticCategory.Message) then info
  else error.

Definition formatDiagnostic {E : ts.Engine} (diagnostic : ts.Diagnostic)
    : NormalizedDiagnostic :=
  let pos := position diagnostic in
  {| file := or_else (ts.fileName <$> ts.file diagnostic) "unknown";
     line := pos.1;
     column := pos.2;
     message :=
       ts.flattenDiagnosticMessageText (ts.messageText diagnostic) LF;
     code := "TS" +:+ pretty (ts.code diagnostic);
     severity := severity_of_category (ts.category diagnostic) |}.

Definition severity_name (s : Severity) : string :=
  match s with error => "error" | warning => "warning" | info => "info" end.

Definition severity_upper (s : Severity) : string :=
  match s with error => "ERROR" | warning => "WARNING" | info => "INFO" end.

Definition getSeverityColor (s : Severity) : string :=
  match s with
  | error => ESC +:+ "[31m"
  | warning => ESC +:+ "[33m"
  | info => ESC +:+ "[36m"
  end.

Definition getSeverityIcon (s : Severity) : string :=
  match s with error => "✖" | warning => "⚠" | info => "ℹ" end.

Definition resetColor : string := ESC +:+ "[0m".

Definition diagnostic_to_json (d : NormalizedDiagnostic) : jsval :=
  JObj (list_to_map
    [("file", JStr (file d)); ("line", JNum (Z.of_nat (line d)));
     ("column", JNum (Z.of_nat (column d))); ("message", JStr (message d));
     ("code", JStr (code d));
     ("severity", JStr (severity_name (severity d)))]).

Definition render_text (d : NormalizedDiagnostic) : string :=
  file d +:+ ":" +:+ pretty (line d) +:+ ":" +:+ pretty (column d) +:+ " - "
  +:+ severity_name (severity d) +:+ ": " +:+ message d
  +:+ " (" +:+ code d +:+ ")".

Definition render_formatted (d : NormalizedDiagnostic) : string :=
  getSeverityIcon (severity d) +:+ " " +:+ getSeverityColor (severity d)
  +:+ severity_upper (severity d) +:+ resetColor +:+ " in " +:+ file d
  +:+ ":" +:+ pretty (line d) +:+ ":" +:+ pretty (column d) +:+ LF +:+ "  "
  +:+ message d +:+ LF +:+ "  Code: " +:+ code d.

(** [format] absent means ['formatted']. *)
Definition formatDiagnostics {E : ts.Engine} {R : Runtime}
    (diagnostics : list ts.Diagnostic) (format : option Format) : string :=
  let formattedDiagnostics := map formatDiagnostic diagnostics in
  match format with
  | Some json =>
      JSON_stringify (JArr (map diagnostic_to_json formattedDiagnostics))
  | Some text_format =>
      String.concat LF (map render_text formattedDiagnostics)
  | Some formatted | None =>
      String.concat (LF +:+ LF) (map render_formatted formattedDiagnostics)
  end.

(** One round of the [forEach] of [getDiagnosticSummary]: a [switch] with
    four cases and no default. *)
Definition count_diagnostic (summary : DiagnosticSummary)
    (diagnostic : ts.Diagnostic) : DiagnosticSummary :=
  let category := ts.category diagnostic in
  if decide (category = ts.DiagnosticCategory.Error) then
    {| errorCount := S (errorCount summary);
       warningCount := warningCount summary;
       infoCount := infoCount summary |}
  else if decide (category = ts.DiagnosticCategory.Warning) then
    {| errorCount := errorCount summary;
       warningCount := S (warningCount summary);
       infoCount := infoCount summary |}
  else if decide (category = ts.DiagnosticCategory.Suggestion
                  \/ category = ts.DiagnosticCategory.Message) then
    {| errorCount := errorCount summary;
       warningCount := warningCount summary;
       infoCount := S (infoCount summary) |}
  else summary.

Definition getDiagnosticSummary (diagnostics : list ts.Diagnostic)
    : DiagnosticSummary :=
  foldl count_diagnostic
    {| errorCount := 0; warningCount := 0; infoCount := 0 |} diagnostics.

End Diagnostics.

(* ===================================================================== *)
(** * [src/handlers/config.ts] *)

Module ConfigManager.

(** [v\[k\]] for the keys the validator reads. *)
Definition js_get (v : jsval) (k : string) : jsval := js_prop (own_props v) k.

(** A value inside a template literal. *)
Fixpoint js_toString (v : jsval) : string :=
  match v with
  | JUndefined => "undefined"
  | JNull => "null"
  | JBool b => if b then "true" else "false"
  | JNum n => pretty n
  | JStr s => s
  | JArr items =>
      String.concat ","
        (map (fun x => match x with
                       | JUndefined | JNull => ""
                       | _ => js_toString x
                       end) items)
  | JObj _ => "[object Object]"
  end.

(** [list.includes(v)]: strict equality with a string of the list. *)
Definition includes (l : list string) (v : jsval) : bool :=
  match v with
  | JStr s => bool_decide (s ∈ l)
  | _ => false
  end.

Definition is_undefined (v : jsval) : bool :=
  match v with JUndefined => true | _ => false end.

Definition validTargets : list string :=
  ["ES3"; "ES5"; "ES6"; "ES2015"; "ES2016"; "ES2017"; "ES2018"; "ES2019";
   "ES2020"; "ES2021"; "ES2022"; "ESNext"].

Definition validModules : list string :=
  ["None"; "CommonJS"; "AMD"; "System"; "UMD"; "ES6"; "ES2015"; "ES2020";
   "ES2022"; "ESNext"].

Definition validResolutions : list string := ["node"; "classic"].

Definition booleanOptions : list string :=
  ["strict"; "esModuleInterop"; "skipLibCheck";
   "forceConsistentCasingInFileNames"; "declaration"; "sourceMap"].

Definition stringOptions : list string := ["outDir"; "rootDir"; "baseUrl"].

Record ValidationResult := {
  isValid : bool;
  errors : list string;
}.

(** The checks on a [compilerOptions] whose [typeof] is ['object']. *)
Definition validate_compilerOptions (compilerOptions : jsval) : list string :=
  let target := js_get compilerOptions "target" in
  let module := js_get compilerOptions "module" in
  let moduleResolution := js_get compilerOptions "moduleResolution" in
  (if truthy target && negb (includes validTargets target)
   then ["Invalid target: " +:+ js_toString target
         +:+ ". Valid targets are: " +:+ String.concat ", " validTargets]
   else [])
  ++ (if truthy module && negb (includes validModules module)
      then ["Invalid module: " +:+ js_toString module
            +:+ ". Valid modules are: " +:+ String.concat ", " validModules]
      else [])
  ++ (if truthy moduleResolution
         && negb (includes validResolutions moduleResolution)
      then ["Invalid moduleResolution: " +:+ js_toString moduleResolution
            +:+ ". Valid options are: "
            +:+ String.concat ", " validResolutions]
      else [])
  ++ flat_map (fun option =>
       let v := js_get compilerOptions option in
       if negb (is_undefined v) && negb (bool_decide (typeof v = "boolean"))
       then [option +:+ " must be a boolean value"] else []) booleanOptions
  ++ flat_map (fun option =>
       let v := js_get compilerOptions option in
       if negb (is_undefined v) && negb (bool_decide (typeof v = "string"))
       then [option +:+ " must be a string value"] else []) stringOptions.

(** The checks on [include] and on [exclude]. *)
Definition validate_globs (name : string) (v : jsval) : list string :=
  if truthy v && negb (isArray v) then
    [name +:+ " must be an array of strings"]
  else if truthy v then
    match v with
    | JArr items =>
        let invalid :=
          filter (fun item => typeof item <> "string") items in
        if decide (0 < length invalid)%nat
        then ["All " +:+ name +:+ " entries must be strings"] else []
    | _ => []
    end
  else [].

Definition validateConfig (config : jsval) : ValidationResult :=
  if negb (bool_decide (typeof config = "object"))
     || match config with JNull => true | _ => false end
  then {| isValid := false; errors := ["Configuration must be an object"] |}
  else
    let compilerOptions := js_get config "compilerOptions" in
    let errors :=
      (if truthy compilerOptions then
         if negb (bool_decide (typeof compilerOptions = "object"))
         then ["compilerOptions must be an object"]
         else validate_compilerOptions compilerOptions
       else [])
      ++ validate_globs "include" (js_get config "include")
      ++ validate_globs "exclude" (js_get config "exclude") in
    {| isValid := bool_decide (length errors = 0%nat); errors := errors |}.

Record UpdateResult := {
  success : bool;
  message : string;
  updatedConfig : option jsval;
}.

(** The merge of [updateTsConfig]:
    [{...config, compilerOptions: {...config.compilerOptions, ...options}}]. *)
Definition mergeConfig (config options : jsobj) : jsobj :=
  <["compilerOptions" :=
      JObj (obj_assign (own_props (js_prop config "compilerOptions")) options)]>
    config.

(** The result and the file store after the call. The parsed [config] of
    [ts.readConfigFile] is an object. *)
Definition updateTsConfig {E : ts.Engine} {R : Runtime}
    (options : TsConfigUpdateOptions.t) (fs : filesystem)
    : outcome UpdateResult * filesystem :=
  let configPath := path_resolve (TsConfigUpdateOptions.configPath options) in
  if negb (FileUtil.fileExists fs configPath) then
    (Rejected ("tsconfig.json not found at: " +:+ configPath), fs)
  else
    match ts.readConfigFile fs configPath with
    | inr configError =>
        (Resolved {| success := false;
                     message := "Error reading tsconfig.json: "
                       +:+ ts.flattenDiagnosticMessageText
                             (ts.messageText configError) LF;
                     updatedConfig := None |}, fs)
    | inl config =>
        let updatedConfig :=
          mergeConfig config (TsConfigUpdateOptions.options options) in
        let validationResult := validateConfig (JObj updatedConfig) in
        if negb (isValid validationResult) then
          (Resolved {| success := false;
                       message := "Configuration validation failed: "
                         +:+ String.concat ", " (errors validationResult);
                       updatedConfig := None |}, fs)
        else
          match FileUtil.writeFile fs configPath
                  (JSON_stringify (JObj updatedConfig)) with
          | Resolved fs' =>
              (Resolved {| success := true;
                           message :=
                             "TypeScript configuration updated successfully";
                           updatedConfig := Some (JObj updatedConfig) |}, fs')
          | Rejected e =>
              (Resolved {| success := false; message := e;
                           updatedConfig := None |}, fs)
          end
    end.

Module CreateResult.
Record t := {
  success : bool;
  message : string;
  configPath : option string;
}.
End CreateResult.

(** The object [defaultConfig] of [createTsConfig]: the literal, with the
    [options] of the caller spread last into [compilerOptions]. *)
Definition defaultConfig (options : jsobj) : jsobj :=
  list_to_map
    [("compilerOptions",
      JObj (obj_assign
              (list_to_map
                 [("target", JStr "ES2020");
                  ("module", JStr "commonjs");
                  ("moduleResolution", JStr "node");
                  ("lib", JArr [JStr "ES2020"]);
                  ("outDir", JStr "./dist");
                  ("rootDir", JStr "./src");
                  ("strict", JBool true);
                  ("esModuleInterop", JBool true);
                  ("skipLibCheck", JBool true);
                  ("forceConsistentCasingInFileNames", JBool true);
                  ("declaration", JBool true);
                  ("declarationMap", JBool true);
                  ("sourceMap", JBool true)])
              options));
     ("include", JArr [JStr "src/**/*"]);
     ("exclude", JArr [JStr "node_modules"; JStr "dist"])].

(** [options] absent means [{}]. *)
Definition createTsConfig {R : Runtime} (projectPath : string)
    (options : option jsobj) (fs : filesystem)
    : outcome CreateResult.t * filesystem :=
  let configPath := Path.join (path_resolve projectPath) "tsconfig.json" in
  if FileUtil.fileExists fs configPath then
    (Resolved {| CreateResult.success := false;
                 CreateResult.message :=
                   "tsconfig.json already exists at this location";
                 CreateResult.configPath := None |}, fs)
  else
    match FileUtil.writeFile fs configPath
            (JSON_stringify (JObj (defaultConfig (default ∅ options)))) with
    | Resolved fs' =>
        (Resolved {| CreateResult.success := true;
                     CreateResult.message :=
                       "TypeScript configuration created successfully";
                     CreateResult.configPath := Some configPath |}, fs')
    | Rejected e =>
        (Resolved {| CreateResult.success := false;
                     CreateResult.message := e;
                     CreateResult.configPath := None |}, fs)
    end.

Module GetResult.
Record t := {
  success : bool;
  config : option jsobj;
  parsedConfig : option ts.ParsedCommandLine;
  message : option string;
}.
End GetResult.


End ConfigManager.

(* ===================================================================== *)
(** * The configuration lookup the handlers repeat *)

(** [findTsConfig], [ts.readConfigFile] and, when the file was read without
    error, [ts.parseJsonConfigFileContent] based at the directory of the
    file found: the block under "Find and merge with tsconfig.json" in
    [compileSingleFile], and under "Find tsconfig.json" in [checkSingleFile]
    and [getDiagnostics]. *)
Definition ambientConfig {E : ts.Engine} (fs : filesystem) (startDir : string)
    : option ts.ParsedCommandLine :=
  match FileUtil.findTsConfig fs startDir with
  | Some tsConfigPath =>
      match ts.readConfigFile fs tsConfigPath with
      | inl config =>
          Some (ts.parseJsonConfigFileContent config fs
                  (Path.dirname tsConfigPath))
      | inr _ => None
      end
  | None => None
  end.

Definition has_error (errors : list NormalizedDiagnostic) : bool :=
  bool_decide
    (length (filter (fun e => severity e = error) errors) <> 0%nat).

(** A string-or-chain message inside a template literal. *)
Definition messageText_toString (m : string + ts.DiagnosticMessageChain)
    : string :=
  match m with
  | inl s => s
  | inr _ => "[object Object]"
  end.

(* ===================================================================== *)
(** * [src/handlers/compiler.ts] *)

Module Compiler.

(** A [chokidar.FSWatcher]: the path it watches, the request its [change]
    listener captured, and whether [close()] was called on it. *)
Record FSWatcher := {
  watched : string;
  listener : CompileOptions.t;
  closed : bool;
}.

(** A [TypeScriptCompiler] instance: [watcherMap] holds handles into
    [watchers], the watchers [chokidar.watch] has returned so far. *)
Record TypeScriptCompiler := {
  watcherMap : gmap string nat;
  watchers : list FSWatcher;
}.

Definition new_compiler : TypeScriptCompiler :=
  {| watcherMap := ∅; watchers := [] |}.

(** [watcher.close()] *)
Definition close_watcher (w : FSWatcher) : FSWatcher :=
  {| watched := watched w; listener := listener w; closed := true |}.

Definition close (handle : nat) (ws : list FSWatcher) : list FSWatcher :=
  alter close_watcher handle ws.

(** The severity of the inline mappings of [compileSingleFile] and
    [compileProject]. *)
Definition inline_severity (category : Z) : Severity :=
  if decide (category = ts.DiagnosticCategory.Error) then error else warning.

(** The [map] callback of both; [fallback] is the name used when the
    diagnostic has no file. *)
Definition inlineDiagnostic {E : ts.Engine} (fallback : string)
    (diagnostic : ts.Diagnostic) : NormalizedDiagnostic :=
  let pos := Diagnostics.position diagnostic in
  {| file := Diagnostics.or_else (ts.fileName <$> ts.file diagnostic) fallback;
     line := pos.1;
     column := pos.2;
     message :=
       ts.flattenDiagnosticMessageText (ts.messageText diagnostic) LF;
     code := "TS" +:+ pretty (ts.code diagnostic);
     severity := inline_severity (ts.category diagnostic) |}.

(** The literal [compilerOptions] of [compileSingleFile]. *)
Definition requestOptions (options : CompileOptions.t) : jsobj :=
  list_to_map
    [("target", JNum ts.ScriptTarget.ES2020);
     ("module", JNum ts.ModuleKind.CommonJS);
     ("sourceMap", JBool (default false (CompileOptions.sourceMap options)));
     ("outDir", match CompileOptions.outputDir options with
                | Some dir => JStr dir
                | None => JUndefined
                end)].

(** The options [compileSingleFile] hands to [ts.transpileModule]:
    [Object.assign(compilerOptions, parsedConfig.options)] when a
    configuration was found and read. *)
Definition effectiveOptions {E : ts.Engine} (options : CompileOptions.t)
    (fs : filesystem) (filePath : string) : jsobj :=
  let compilerOptions := requestOptions options in
  match ambientConfig fs (Path.dirname filePath) with
  | Some parsedConfig => obj_assign compilerOptions (ts.options parsedConfig)
  | None => compilerOptions
  end.

(** The loop "Write output files": a failed write ends it. *)
Fixpoint writeFiles (fs : filesystem) (files : list GeneratedFile)
    : outcome unit * filesystem :=
  match files with
  | [] => (Resolved tt, fs)
  | f :: rest =>
      match FileUtil.writeFile fs (path f) (content f) with
      | Resolved fs' => writeFiles fs' rest
      | Rejected e => (Rejected e, fs)
      end
  end.

Definition nonempty_or_undefined {A} (l : list A) : option (list A) :=
  match l with [] => None | _ => Some l end.

Definition compileSingleFile {E : ts.Engine} {R : Runtime}
    (options : CompileOptions.t) (fs : filesystem)
    : outcome CompilationResult.t * filesystem :=
  match CompileOptions.filePath options with
  | None =>
      (Rejected "The path argument must be of type string. Received undefined",
       fs)
  | Some requested =>
      let filePath := path_resolve requested in
      if negb (FileUtil.fileExists fs filePath) then
        (Rejected ("File not found: " +:+ filePath), fs)
      else
        match FileUtil.readFile fs filePath with
        | Rejected e => (Rejected e, fs)
        | Resolved sourceCode =>
            let compilerOptions := effectiveOptions options fs filePath in
            let result :=
              ts.transpileModule sourceCode compilerOptions filePath in
            let errors :=
              match ts.diagnostics result with
              | Some ds => map (inlineDiagnostic filePath) ds
              | None => []
              end in
            let outputPath :=
              FileUtil.getOutputPath filePath
                (CompileOptions.outputDir options) in
            let files :=
              {| path := outputPath; content := ts.outputText result |}
              :: match truthy_str (ts.sourceMapText result),
                       CompileOptions.sourceMap options with
                 | Some sourceMapText, Some true =>
                     [{| path := outputPath +:+ ".map";
                         content := sourceMapText |}]
                 | _, _ => []
                 end in
            match writeFiles fs files with
            | (Rejected e, fs') => (Rejected e, fs')
            | (Resolved _, fs') =>
                (Resolved
                   {| CompilationResult.success := negb (has_error errors);
                      CompilationResult.output := Some (ts.outputText result);
                      CompilationResult.files := Some files;
                      CompilationResult.errors :=
                        nonempty_or_undefined errors |}, fs')
            end
        end
  end.

(** The two request fields [compileProject] lets override the project's
    configuration. *)
Definition projectOptions {R : Runtime} (options : CompileOptions.t)
    (parsed : jsobj) : jsobj :=
  let withOutDir :=
    match truthy_str (CompileOptions.outputDir options) with
    | Some dir => <["outDir" := JStr (path_resolve dir)]> parsed
    | None => parsed
    end in
  match CompileOptions.sourceMap options with
  | Some b => <["sourceMap" := JBool b]> withOutDir
  | None => withOutDir
  end.

Definition compileProject {E : ts.Engine} {R : Runtime}
    (options : CompileOptions.t) (fs : filesystem)
    : outcome CompilationResult.t * filesystem :=
  match CompileOptions.projectPath options with
  | None =>
      (Rejected "The path argument must be of type string. Received undefined",
       fs)
  | Some requested =>
      let projectPath := path_resolve requested in
      let tsConfigPath := Path.join projectPath "tsconfig.json" in
      if negb (FileUtil.fileExists fs tsConfigPath) then
        (Rejected ("tsconfig.json not found in " +:+ projectPath), fs)
      else
        match ts.readConfigFile fs tsConfigPath with
        | inr configError =>
            (Rejected ("Error reading tsconfig.json: "
                       +:+ messageText_toString (ts.messageText configError)),
             fs)
        | inl config =>
            let parsedConfig :=
              ts.parseJsonConfigFileContent config fs projectPath in
            match ts.errors parsedConfig with
            | _ :: _ =>
                let errors :=
                  map (fun diagnostic =>
                         {| file := tsConfigPath; line := 0; column := 0;
                            message :=
                              ts.flattenDiagnosticMessageText
                                (ts.messageText diagnostic) LF;
                            code := "TS" +:+ pretty (ts.code diagnostic);
                            severity := error |})
                      (ts.errors parsedConfig) in
                (Resolved
                   {| CompilationResult.success := false;
                      CompilationResult.output := None;
                      CompilationResult.files := None;
                      CompilationResult.errors := Some errors |}, fs)
            | [] =>
                let compilerOptions :=
                  projectOptions options (ts.options parsedConfig) in
                let '(emitResult, fs') :=
                  ts.emit (ts.fileNames parsedConfig) compilerOptions fs in
                let allDiagnostics :=
                  ts.getPreEmitDiagnostics (ts.fileNames parsedConfig)
                    compilerOptions fs
                  ++ ts.emit_diagnostics emitResult in
                let errors := map (inlineDiagnostic "unknown") allDiagnostics in
                (Resolved
                   {| CompilationResult.success :=
                        negb (ts.emitSkipped emitResult)
                        && negb (has_error errors);
                      CompilationResult.output := None;
                      CompilationResult.files := None;
                      CompilationResult.errors :=
                        nonempty_or_undefined errors |}, fs')
            end
        end
  end.

(** [setupWatchMode]: the new watcher takes the next handle. Without a
    [filePath], [path.resolve] throws before anything is touched. *)
Definition setupWatchMode {R : Runtime} (options : CompileOptions.t)
    (self : TypeScriptCompiler)
    : outcome CompilationResult.t * TypeScriptCompiler :=
  match CompileOptions.filePath options with
  | None =>
      (Rejected "The path argument must be of type string. Received undefined",
       self)
  | Some requested =>
      let filePath := path_resolve requested in
      let watchKey := filePath in
      let ws :=
        match watcherMap self !! watchKey with
        | Some old => close old (watchers self)
        | None => watchers self
        end in
      let watcher :=
        {| watched := filePath; listener := options; closed := false |} in
      (Resolved
         {| CompilationResult.success := true;
            CompilationResult.output :=
              Some ("Watch mode started for " +:+ filePath
                    +:+ ". Press Ctrl+C to stop.");
            CompilationResult.files := None;
            CompilationResult.errors := None |},
       {| watcherMap := <[watchKey := length ws]> (watcherMap self);
          watchers := ws ++ [watcher] |})
  end.

(** [stopWatching(filePath?)]: [if (filePath)] sends the empty string to
    the branch that stops every watcher. *)
Definition stopWatching {R : Runtime} (filePath : option string)
    (self : TypeScriptCompiler) : TypeScriptCompiler :=
  match truthy_str filePath with
  | Some requested =>
      let watchKey := path_resolve requested in
      match watcherMap self !! watchKey with
      | Some watcher =>
          {| watcherMap := delete watchKey (watcherMap self);
             watchers := close watcher (watchers self) |}
      | None => self
      end
  | None =>
      {| watcherMap := ∅;
         watchers :=
           foldr close (watchers self) (map_to_list (watcherMap self)).*2 |}
  end.

(** What the [change] listener of a watcher logs and writes. *)
Definition onChange {E : ts.Engine} {R : Runtime} (w : FSWatcher) (fs : filesystem)
    : list string * filesystem :=
  let options := listener w in
  let changed :=
    "File changed: " +:+ watched w +:+ ", recompiling..." in
  match compileSingleFile
          {| CompileOptions.filePath := CompileOptions.filePath options;
             CompileOptions.projectPath := CompileOptions.projectPath options;
             CompileOptions.outputDir := CompileOptions.outputDir options;
             CompileOptions.sourceMap := CompileOptions.sourceMap options;
             CompileOptions.watch := Some false |} fs with
  | (Resolved result, fs') =>
      if CompilationResult.success result then
        ([changed; "✓ Compilation successful"], fs')
      else
        (changed :: "✖ Compilation failed:"
         :: map (fun e =>
                   "  " +:+ file e +:+ ":" +:+ pretty (line e) +:+ ":"
                   +:+ pretty (column e) +:+ " - " +:+ message e)
                (default [] (CompilationResult.errors result)), fs')
  | (Rejected e, fs') => ([changed; "✖ Compilation error: " +:+ e], fs')
  end.

(** The result the [catch] of [compileFile] builds. *)
Definition compileError (options : CompileOptions.t) (msg : string)
    : CompilationResult.t :=
  {| CompilationResult.success := false;
     CompilationResult.output := None;
     CompilationResult.files := None;
     CompilationResult.errors :=
       Some [{| file :=
                  Diagnostics.or_else (CompileOptions.filePath options)
                    (Diagnostics.or_else (CompileOptions.projectPath options)
                       "unknown");
                line := 0; column := 0;
                message := msg;
                code := "COMPILE_ERROR";
                severity := error |}] |}.

(** [try { body } catch (e) { return handler(e) }] in an [async] function
    whose [body] ends in [return promise] without [await]: a [throw] of the
    body reaches the handler, the returned promise settles the call as it
    is, rejected or not. *)
Definition try_return {A} (body : outcome (outcome A)) (handler : string -> A)
    : outcome A :=
  match body with
  | Resolved promise => promise
  | Rejected thrown => Resolved (handler thrown)
  end.

Definition compileFile {E : ts.Engine} {R : Runtime} (options : CompileOptions.t)
    (self : TypeScriptCompiler) (fs : filesystem)
    : outcome CompilationResult.t * TypeScriptCompiler * filesystem :=
  match CompileOptions.watch options,
        truthy_str (CompileOptions.filePath options),
        truthy_str (CompileOptions.projectPath options) with
  | Some true, Some _, _ =>
      let '(result, self') := setupWatchMode options self in
      (try_return
         match result with
         | Resolved r => Resolved (Resolved r)
         | Rejected thrown => Rejected thrown
         end (compileError options), self', fs)
  | _, _, Some _ =>
      let '(promise, fs') := compileProject options fs in
      (try_return (Resolved promise) (compileError options), self, fs')
  | _, Some _, None =>
      let '(promise, fs') := compileSingleFile options fs in
      (try_return (Resolved promise) (compileError options), self, fs')
  | _, None, None =>
      (try_return
         (Rejected "Either filePath or projectPath must be provided")
         (compileError options), self, fs)
  end.

End Compiler.

(* ===================================================================== *)
(** * [src/handlers/typechecker.ts] *)

Module TypeChecker.

Definition typeCheckResult {E : ts.Engine} (diagnostics : list ts.Diagnostic)
    : TypeCheckResult.t :=
  let formattedDiagnostics := map Diagnostics.formatDiagnostic diagnostics in
  let summary := Diagnostics.getDiagnosticSummary diagnostics in
  {| TypeCheckResult.success := bool_decide (errorCount summary = 0%nat);
     TypeCheckResult.diagnostics := formattedDiagnostics;
     TypeCheckResult.summary := summary |}.

(** The literal [compilerOptions] of [checkSingleFile]. *)
Definition requestOptions (options : TypeCheckOptions.t) : jsobj :=
  list_to_map
    [("target", JNum ts.ScriptTarget.ES2020);
     ("module", JNum ts.ModuleKind.CommonJS);
     ("strict", JBool (default false (TypeCheckOptions.strict options)));
     ("skipLibCheck",
      JBool (negb (default false
                     (TypeCheckOptions.includeDeclarations options))))].

(** The options [checkSingleFile] hands to [ts.createProgram]:
    [{ ...parsedConfig.options, ...compilerOptions }] when a configuration
    was found and read. *)
Definition effectiveOptions {E : ts.Engine} (options : TypeCheckOptions.t)
    (fs : filesystem) (filePath : string) : jsobj :=
  let compilerOptions := requestOptions options in
  match ambientConfig fs (Path.dirname filePath) with
  | Some parsedConfig => obj_assign (ts.options parsedConfig) compilerOptions
  | None => compilerOptions
  end.

Definition checkSingleFile {E : ts.Engine} {R : Runtime}
    (options : TypeCheckOptions.t) (fs : filesystem)
    : outcome TypeCheckResult.t :=
  let filePath := path_resolve (TypeCheckOptions.filePath options) in
  let compilerOptions := effectiveOptions options fs filePath in
  let diagnostics := ts.getPreEmitDiagnostics [filePath] compilerOptions fs in
  Resolved (typeCheckResult diagnostics).

(** The two request fields [checkProject] lets override the project's
    configuration. *)
Definition projectOptions (options : TypeCheckOptions.t) (parsed : jsobj)
    : jsobj :=
  let withStrict :=
    match TypeCheckOptions.strict options with
    | Some b => <["strict" := JBool b]> parsed
    | None => parsed
    end in
  match TypeCheckOptions.includeDeclarations options with
  | Some b => <["skipLibCheck" := JBool (negb b)]> withStrict
  | None => withStrict
  end.

Definition checkProject {E : ts.Engine} {R : Runtime}
    (options : TypeCheckOptions.t) (fs : filesystem)
    : outcome TypeCheckResult.t :=
  let projectPath := path_resolve (TypeCheckOptions.filePath options) in
  let tsConfigPath := Path.join projectPath "tsconfig.json" in
  if negb (FileUtil.fileExists fs tsConfigPath) then
    Rejected ("tsconfig.json not found in " +:+ projectPath)
  else
    match ts.readConfigFile fs tsConfigPath with
    | inr configError =>
        Rejected ("Error reading tsconfig.json: "
                  +:+ messageText_toString (ts.messageText configError))
    | inl config =>
        let parsedConfig :=
          ts.parseJsonConfigFileContent config fs projectPath in
        match ts.errors parsedConfig with
        | _ :: _ =>
            Resolved
              {| TypeCheckResult.success := false;
                 TypeCheckResult.diagnostics :=
                   map Diagnostics.formatDiagnostic (ts.errors parsedConfig);
                 TypeCheckResult.summary :=
                   Diagnostics.getDiagnosticSummary (ts.errors parsedConfig) |}
        | [] =>
            let compilerOptions :=
              projectOptions options (ts.options parsedConfig) in
            let diagnostics :=
              ts.getPreEmitDiagnostics (ts.fileNames parsedConfig)
                compilerOptions fs in
            Resolved (typeCheckResult diagnostics)
        end
    end.

(** [const isFile = !filePath.endsWith('/') && fileExists(filePath)] *)
Definition isFile (fs : filesystem) (filePath : string) : bool :=
  negb (Path.endsWithSlash filePath) && FileUtil.fileExists fs filePath.

Definition checkTypes {E : ts.Engine} {R : Runtime}
    (options : TypeCheckOptions.t) (fs : filesystem)
    : outcome TypeCheckResult.t :=
  let filePath := path_resolve (TypeCheckOptions.filePath options) in
  if negb (FileUtil.fileExists fs filePath) then
    Rejected ("File not found: " +:+ filePath)
  else if isFile fs filePath then checkSingleFile options fs
  else checkProject options fs.

(** The options [getDiagnostics] hands to [ts.createProgram]. *)
Definition diagnosticsOptions {E : ts.Engine} (fs : filesystem)
    (filePath : string) : jsobj :=
  let compilerOptions : jsobj :=
    list_to_map
      [("target", JNum ts.ScriptTarget.ES2020);
       ("module", JNum ts.ModuleKind.CommonJS)] in
  match ambientConfig fs (Path.dirname filePath) with
  | Some parsedConfig => obj_assign (ts.options parsedConfig) compilerOptions
  | None => compilerOptions
  end.

Definition getDiagnostics {E : ts.Engine} {R : Runtime}
    (options : DiagnosticOptions.t) (fs : filesystem) : outcome string :=
  let filePath := path_resolve (DiagnosticOptions.filePath options) in
  if negb (FileUtil.fileExists fs filePath) then
    Rejected ("File not found: " +:+ filePath)
  else
    let compilerOptions := diagnosticsOptions fs filePath in
    let diagnostics :=
      ts.getPreEmitDiagnostics [filePath] compilerOptions fs in
    Resolved
      (Diagnostics.formatDiagnostics diagnostics
         (DiagnosticOptions.formatOutput options)).

Module SyntaxError.
Record t := {
  line : nat;
  column : nat;
  message : string;
}.
End SyntaxError.

Module SyntaxResult.
Record t := {
  isValid : bool;
  errors : list SyntaxError.t;
}.
End SyntaxResult.

(** The function [visit] of [validateSyntax]: what it pushes on [errors]
    for [node] and, through [ts.forEachChild], for its descendants. *)
Fixpoint visit {E : ts.Engine} (sourceFile : ts.SourceFile) (node : ts.Node)
    : list SyntaxError.t :=
  match node with
  | ts.MkNode kind pos children =>
      (if decide (kind = ts.SyntaxKind.Unknown) then
         let lc := ts.getLineAndCharacterOfPosition sourceFile pos in
         [{| SyntaxError.line := (lc.1 + 1)%nat;
             SyntaxError.column := (lc.2 + 1)%nat;
             SyntaxError.message := "Syntax error: Unknown token" |}]
       else [])
      ++ flat_map (visit sourceFile) children
  end.

(** The [forEach] over the syntactic diagnostics: one without a file or
    without a start is passed over. *)
Definition parserErrors {E : ts.Engine} (syntacticDiagnostics : list ts.Diagnostic)
    : list SyntaxError.t :=
  flat_map (fun diagnostic =>
    match ts.file diagnostic, ts.start diagnostic with
    | Some f, Some start =>
        let lc := ts.getLineAndCharacterOfPosition f start in
        [{| SyntaxError.line := (lc.1 + 1)%nat;
            SyntaxError.column := (lc.2 + 1)%nat;
            SyntaxError.message :=
              ts.flattenDiagnosticMessageText (ts.messageText diagnostic) LF |}]
    | _, _ => []
    end) syntacticDiagnostics.

Definition validateSyntax {E : ts.Engine} {P : ts.Parser} {R : Runtime}
    (filePath : string) (fs : filesystem) : outcome SyntaxResult.t :=
  let resolvedPath := path_resolve filePath in
  if negb (FileUtil.fileExists fs resolvedPath) then
    Rejected ("File not found: " +:+ resolvedPath)
  else
    match FileUtil.readFile fs resolvedPath with
    | Rejected e => Rejected e
    | Resolved sourceCode =>
        let sourceFile :=
          {| ts.fileName := resolvedPath; ts.text := sourceCode |} in
        let tree := ts.createSourceFile resolvedPath sourceCode in
        let errors :=
          visit sourceFile tree
          ++ parserErrors
               (ts.getSyntacticDiagnostics [resolvedPath] fs sourceFile) in
        Resolved {| SyntaxResult.isValid := bool_decide (length errors = 0%nat);
                    SyntaxResult.errors := errors |}
    end.

End TypeChecker.

(* ===================================================================== *)
(** * A small engine and file store to run the handlers on *)

Module Sample.

Definition configText : string :=
  "{compilerOptions:{target:ES5,strict:true,sourceMap:false},include:[src]}".

Definition config : jsobj :=
  list_to_map
    [("compilerOptions",
      JObj (list_to_map [("target", JStr "ES5"); ("strict", JBool true);
                         ("sourceMap", JBool false)]));
     ("include", JArr [JStr "src"])].

Definition unreadable : ts.Diagnostic :=
  {| ts.file := None; ts.start := None;
     ts.messageText := inl "'{' expected.";
     ts.code := 1005;
     ts.category := ts.DiagnosticCategory.Error |}.

(** The engine reads [configText] as [config], the empty text as a syntax
    error and any other text as the empty object; the parsed options are
    the [compilerOptions] as they stand; transpiling prefixes the source;
    programs have no diagnostics. *)
Definition engine : ts.Engine := {|
  ts.getLineAndCharacterOfPosition := fun _ pos => (O, pos);
  ts.flattenDiagnosticMessageText := fun m _ => messageText_toString m;
  ts.parseConfigFileTextToJson := fun _ content =>
    if decide (content = configText) then inl config
    else if decide (content = "") then inr unreadable
    else inl ∅;
  ts.parseJsonConfigFileContent := fun config _ _ =>
    {| ts.options := own_props (js_prop config "compilerOptions");
       ts.fileNames := []; ts.errors := [] |};
  ts.transpileModule := fun sourceCode _ _ =>
    {| ts.outputText := "// js" +:+ LF +:+ sourceCode;
       ts.sourceMapText := Some "{version:3}";
       ts.diagnostics := Some [] |};
  ts.getPreEmitDiagnostics := fun _ _ _ => [];
  ts.emit := fun _ _ fs => ({| ts.emitSkipped := false;
                               ts.emit_diagnostics := [] |}, fs);
|}.

Definition runtime : Runtime := {|
  process_cwd := "/home/user";
  JSON_stringify := ConfigManager.js_toString;
|}.

(** A project [/p] with a configuration, a source file and a script. *)
Definition project : filesystem :=
  list_to_map
    [("/p", Dir);
     ("/p/tsconfig.json", File configText);
     ("/p/a.ts", File "let x: number = 1;");
     ("/p/run.js", File "run();")].

(** A directory [/d] without a configuration. *)
Definition bare : filesystem :=
  list_to_map [("/d", Dir); ("/d/b.ts", File "export {};")].

Definition diagnostic_of (category : Z) : ts.Diagnostic :=
  {| ts.file := None; ts.start := None;
     ts.messageText := inl "message";
     ts.code := 1000;
     ts.category := category |}.

Definition compileRequest (filePath : string) (sourceMap : option bool)
    : CompileOptions.t :=
  {| CompileOptions.filePath := Some filePath;
     CompileOptions.projectPath := None;
     CompileOptions.outputDir := None;
     CompileOptions.sourceMap := sourceMap;
     CompileOptions.watch := None |}.

Definition watchRequest (filePath : string) : CompileOptions.t :=
  {| CompileOptions.filePath := Some filePath;
     CompileOptions.projectPath := None;
     CompileOptions.outputDir := None;
     CompileOptions.sourceMap := None;
     CompileOptions.watch := Some true |}.

Definition emptyRequest : CompileOptions.t :=
  {| CompileOptions.filePath := None;
     CompileOptions.projectPath := None;
     CompileOptions.outputDir := None;
     CompileOptions.sourceMap := None;
     CompileOptions.watch := None |}.

Definition checkRequest (filePath : string) (strict : option bool)
    : TypeCheckOptions.t :=
  {| TypeCheckOptions.filePath := filePath;
     TypeCheckOptions.strict := strict;
     TypeCheckOptions.includeDeclarations := None |}.

End Sample.

(* ===================================================================== *)
(** * More engines for the sample stores *)

Module Scenario.

(** An engine that reports: a program has one error per root file and one
    warning; transpiling gives a message and an error; a configuration with
    the key [broken] parses with one warning as its error list; the project
    has the one file [/p/a.ts], and emitting writes [/p/dist/a.js] and
    reports a message. Configuration files read as in [Sample.engine]. *)
Definition noisy : ts.Engine := {|
  ts.getLineAndCharacterOfPosition := fun _ pos => (O, pos);
  ts.flattenDiagnosticMessageText := fun m _ => messageText_toString m;
  ts.parseConfigFileTextToJson := fun _ content =>
    if decide (content = Sample.configText) then inl Sample.config
    else if decide (content = "") then inr Sample.unreadable
    else inl {["broken" := JBool true]};
  ts.parseJsonConfigFileContent := fun config _ _ =>
    {| ts.options := own_props (js_prop config "compilerOptions");
       ts.fileNames := ["/p/a.ts"];
       ts.errors :=
         match config !! "broken" with
         | Some _ => [Sample.diagnostic_of ts.DiagnosticCategory.Warning]
         | None => []
         end |};
  ts.transpileModule := fun sourceCode _ _ =>
    {| ts.outputText := "// js" +:+ LF +:+ sourceCode;
       ts.sourceMapText := Some "{version:3}";
       ts.diagnostics :=
         Some [Sample.diagnostic_of ts.DiagnosticCategory.Message;
               Sample.diagnostic_of ts.DiagnosticCategory.Error] |};
  ts.getPreEmitDiagnostics := fun rootNames _ _ =>
    map (fun _ => Sample.diagnostic_of ts.DiagnosticCategory.Error) rootNames
    ++ [Sample.diagnostic_of ts.DiagnosticCategory.Warning];
  ts.emit := fun _ _ fs =>
    ({| ts.emitSkipped := false;
        ts.emit_diagnostics :=
          [Sample.diagnostic_of ts.DiagnosticCategory.Message] |},
     <["/p/dist/a.js" := File "// js"]> fs);
|}.

(** An engine that reads back what [createTsConfig] writes under
    [Sample.runtime] for the default options. *)
Definition rereading : ts.Engine := {|
  ts.getLineAndCharacterOfPosition := fun _ pos => (O, pos);
  ts.flattenDiagnosticMessageText := fun m _ => messageText_toString m;
  ts.parseConfigFileTextToJson := fun _ content =>
    if decide (content
               = ConfigManager.js_toString
                   (JObj (ConfigManager.defaultConfig ∅)))
    then inl (ConfigManager.defaultConfig ∅)
    else inr Sample.unreadable;
  ts.parseJsonConfigFileContent := fun config _ _ =>
    {| ts.options := own_props (js_prop config "compilerOptions");
       ts.fileNames := []; ts.errors := [] |};
  ts.transpileModule := fun sourceCode _ _ =>
    {| ts.outputText := sourceCode; ts.sourceMapText := None;
       ts.diagnostics := None |};
  ts.getPreEmitDiagnostics := fun _ _ _ => [];
  ts.emit := fun _ _ fs => ({| ts.emitSkipped := false;
                               ts.emit_diagnostics := [] |}, fs);
|}.

(** An engine that reads a configuration text as the table [texts] says,
    and a text that is not in it as a syntax error. *)
Definition stored (texts : list (string * jsobj)) : ts.Engine := {|
  ts.getLineAndCharacterOfPosition := fun _ pos => (O, pos);
  ts.flattenDiagnosticMessageText := fun m _ => messageText_toString m;
  ts.parseConfigFileTextToJson := fun _ content =>
    match list_find (fun entry => entry.1 = content) texts with
    | Some (_, (_, config)) => inl config
    | None => inr Sample.unreadable
    end;
  ts.parseJsonConfigFileContent := fun config _ _ =>
    {| ts.options := own_props (js_prop config "compilerOptions");
       ts.fileNames := []; ts.errors := [] |};
  ts.transpileModule := fun sourceCode _ _ =>
    {| ts.outputText := sourceCode; ts.sourceMapText := None;
       ts.diagnostics := None |};
  ts.getPreEmitDiagnostics := fun _ _ _ => [];
  ts.emit := fun _ _ fs => ({| ts.emitSkipped := false;
                               ts.emit_diagnostics := [] |}, fs);
|}.

(** An engine that transpiles without diagnostics and gives a source map
    exactly when the options it is handed have [sourceMap] true.
    Configuration files read as in [Sample.engine]. *)
Definition mapping : ts.Engine := {|
  ts.getLineAndCharacterOfPosition := fun _ pos => (O, pos);
  ts.flattenDiagnosticMessageText := fun m _ => messageText_toString m;
  ts.parseConfigFileTextToJson := fun _ content =>
    if decide (content = Sample.configText) then inl Sample.config
    else if decide (content = "") then inr Sample.unreadable
    else inl ∅;
  ts.parseJsonConfigFileContent := fun config _ _ =>
    {| ts.options := own_props (js_prop config "compilerOptions");
       ts.fileNames := []; ts.errors := [] |};
  ts.transpileModule := fun sourceCode compilerOptions _ =>
    {| ts.outputText := "// js" +:+ LF +:+ sourceCode;
       ts.sourceMapText :=
         match compilerOptions !! "sourceMap" with
         | Some (JBool true) => Some "{version:3}"
         | _ => None
         end;
       ts.diagnostics := Some [] |};
  ts.getPreEmitDiagnostics := fun _ _ _ => [];
  ts.emit := fun _ _ fs => ({| ts.emitSkipped := false;
                               ts.emit_diagnostics := [] |}, fs);
|}.

(** A tree with an unknown token at 4 and one at 9, below ordinary nodes. *)
Definition tree : ts.Node :=
  ts.MkNode 308 0
    [ts.MkNode 244 0 [ts.MkNode ts.SyntaxKind.Unknown 4 []];
     ts.MkNode 80 6 [];
     ts.MkNode 244 7 [ts.MkNode 80 7 [];
                      ts.MkNode ts.SyntaxKind.Unknown 9 []]].

(** A parser that gives [tree] for the text ["let # = @;"] and a tree of one
    node otherwise, and reports one diagnostic with a position and one
    without for the former. *)
Definition parser : ts.Parser := {|
  ts.createSourceFile := fun _ content =>
    if decide (content = "let # = @;") then tree else ts.MkNode 308 0 [];
  ts.getSyntacticDiagnostics := fun _ _ sourceFile =>
    if decide (ts.text sourceFile = "let # = @;") then
      [{| ts.file := Some sourceFile; ts.start := Some 4%nat;
          ts.messageText := inl "Invalid character.";
          ts.code := 1127;
          ts.category := ts.DiagnosticCategory.Error |};
       {| ts.file := None; ts.start := None;
          ts.messageText := inl "Unpositioned.";
          ts.code := 1000;
          ts.category := ts.DiagnosticCategory.Error |}]
    else [];
|}.

(** The sample project with a source that does not parse. *)
Definition broken : filesystem :=
  <["/p/bad.ts" := File "let # = @;"]> Sample.project.

End Scenario.

(* ===================================================================== *)
(** * Vocabulary of the properties *)

(** How many diagnostics of [ds] [formatDiagnostic] gives severity [s]. *)
Definition normalized_count {E : ts.Engine} (s : Severity)
    (ds : list ts.Diagnostic) : nat :=
  length (filter (fun d => severity (Diagnostics.formatDiagnostic d) = s) ds).

(** How many diagnostics of [ds] have category [c]. *)
Definition category_count (c : Z) (ds : list ts.Diagnostic) : nat :=
  length (filter (fun d => ts.category d = c) ds).

(** A category of the enum [ts.DiagnosticCategory]. *)
Definition known_category (c : Z) : Prop :=
  c = ts.DiagnosticCategory.Warning \/ c = ts.DiagnosticCategory.Error
  \/ c = ts.DiagnosticCategory.Suggestion \/ c = ts.DiagnosticCategory.Message.

Global Instance known_category_dec c : Decision (known_category c).
Proof. unfold known_category. apply _. Defined.

(** The mapping in the words of the specification: Error to error, Warning
    to warning, Suggestion or Message to info, any other category to
    error. *)
Definition specified_severity (category : Z) : Severity :=
  if decide (category = ts.DiagnosticCategory.Error) then error
  else if decide (category = ts.DiagnosticCategory.Warning) then warning
  else if decide (category = ts.DiagnosticCategory.Suggestion
                  \/ category = ts.DiagnosticCategory.Message) then info
  else error.

(** How many diagnostics of [ds] have a category outside the enum. *)
Definition foreign_count (ds : list ts.Diagnostic) : nat :=
  length (filter (fun d => ~ known_category (ts.category d)) ds).

(** A call on a [TypeScriptCompiler] instance that touches its watchers. *)
Inductive call :=
| Watch (options : CompileOptions.t)
| Stop (filePath : option string).

Definition run_call {R : Runtime} (self : Compiler.TypeScriptCompiler)
    (c : call) : Compiler.TypeScriptCompiler :=
  match c with
  | Watch options => (Compiler.setupWatchMode options self).2
  | Stop filePath => Compiler.stopWatching filePath self
  end.

Definition run_calls {R : Runtime} (cs : list call)
    : Compiler.TypeScriptCompiler :=
  foldl run_call Compiler.new_compiler cs.

(** The watchers on [key] that were not closed. *)
Definition live_on (key : string) (self : Compiler.TypeScriptCompiler)
    : list Compiler.FSWatcher :=
  filter (fun w => Compiler.watched w = key /\ Compiler.closed w = false)
         (Compiler.watchers self).

(** Every watcher that was not closed is the one [watcherMap] holds for the
    path it watches. *)
Definition registry_ok (self : Compiler.TypeScriptCompiler) : Prop :=
  forall handle w,
    Compiler.watchers self !! handle = Some w ->
    Compiler.closed w = false ->
    Compiler.watcherMap self !! Compiler.watched w = Some handle.

(** The directory [n] steps of [path.dirname] above [dir]. *)
Definition ancestor (n : nat) (dir : string) : string :=
  Nat.iter n Path.dirname dir.

(** The [n] nearest directories from [dir] upwards are below the top and
    hold no [tsconfig.json]. *)
Definition searched (fs : filesystem) (dir : string) (n : nat) : Prop :=
  forall m, (m < n)%nat ->
    ancestor m dir <> Path.dirname (ancestor m dir)
    /\ FileUtil.fileExists fs (Path.join (ancestor m dir) "tsconfig.json")
       = false.

(** The options of [compilerOptions] the validator looks at. *)
Definition recognizedOptions : list string :=
  ["target"; "module"; "moduleResolution"]
  ++ ConfigManager.booleanOptions ++ ConfigManager.stringOptions.

(** How many nodes of a tree have the kind [Unknown]. *)
Fixpoint unknown_nodes (node : ts.Node) : nat :=
  match node with
  | ts.MkNode kind pos children =>
      ((if decide (kind = ts.SyntaxKind.Unknown) then 1 else 0)
       + list_sum (map unknown_nodes children))%nat
  end.

(** A diagnostic that carries its position. *)
Definition positioned (d : ts.Diagnostic) : Prop :=
  is_Some (ts.file d) /\ is_Some (ts.start d).

Global Instance positioned_dec d : Decision (positioned d).
Proof. unfold positioned. apply _. Defined.

(** Every handle of [watcherMap] is a watcher on its key that was not
    closed. *)
Definition registry_sound (self : Compiler.TypeScriptCompiler) : Prop :=
  forall key handle,
    Compiler.watcherMap self !! key = Some handle ->
    exists w,
      Compiler.watchers self !! handle = Some w
      /\ Compiler.watched w = key /\ Compiler.closed w = false.

(** A path that [writeFile] writes in place: it is its own [path.resolve],
    and its directory is in the store, so that the [fs.mkdir] of [writeFile]
    has nothing to make. *)
Definition writes_in_place {R : Runtime} (fs : filesystem) (filePath : string)
    : Prop :=
  path_resolve filePath = filePath /\ fs !! Path.dirname filePath = Some Dir.

(** A piece that stays in a normalized path: not empty, no separator. *)
Definition kept_piece (p : list ascii) : Prop := p <> [] /\ Path.slash ∉ p.

(* ===================================================================== *)
(** * Properties *)

(** ** Diagnostics *)

Section diagnostics.
Context {E : ts.Engine}.

Lemma formatDiagnostic_severity d :
  severity (Diagnostics.formatDiagnostic d)
  = Diagnostics.severity_of_category (ts.category d).
Proof. reflexivity. Qed.

(** The [switch] of [formatDiagnostic], case by case. *)
Lemma severity_of_category_spec c :
  (c = ts.DiagnosticCategory.Error ->
     Diagnostics.severity_of_category c = error)
  /\ (c = ts.DiagnosticCategory.Warning ->
        Diagnostics.severity_of_category c = warning)
  /\ (c = ts.DiagnosticCategory.Suggestion \/ c = ts.DiagnosticCategory.Message ->
        Diagnostics.severity_of_category c = info)
  /\ (~ known_category c -> Diagnostics.severity_of_category c = error).
Proof.
  unfold known_category, Diagnostics.severity_of_category,
    ts.DiagnosticCategory.Warning, ts.DiagnosticCategory.Suggestion,
    ts.DiagnosticCategory.Message, ts.DiagnosticCategory.Error.
  repeat split; intros; repeat case_decide; try reflexivity; lia.
Qed.

(** The inline mapping of the compiler knows two severities. *)
Lemma inlineDiagnostic_severity fallback d :
  severity (Compiler.inlineDiagnostic fallback d)
  = if decide (ts.category d = ts.DiagnosticCategory.Error)
    then error else warning.
Proof. reflexivity. Qed.

Lemma count_diagnostic_foldl ds s0 :
  let s := foldl Diagnostics.count_diagnostic s0 ds in
  errorCount s
    = (errorCount s0 + category_count ts.DiagnosticCategory.Error ds)%nat
  /\ warningCount s
    = (warningCount s0 + category_count ts.DiagnosticCategory.Warning ds)%nat
  /\ infoCount s
    = (infoCount s0 + category_count ts.DiagnosticCategory.Suggestion ds
       + category_count ts.DiagnosticCategory.Message ds)%nat.
Proof.
  revert s0. induction ds as [|d ds IH]; intros s0; simpl.
  - unfold category_count. simpl. lia.
  - destruct (IH (Diagnostics.count_diagnostic s0 d)) as (He & Hw & Hi).
    rewrite He, Hw, Hi. clear IH He Hw Hi.
    unfold category_count. rewrite !filter_cons.
    unfold Diagnostics.count_diagnostic, ts.DiagnosticCategory.Error,
      ts.DiagnosticCategory.Warning, ts.DiagnosticCategory.Suggestion,
      ts.DiagnosticCategory.Message.
    repeat case_decide; simpl; lia.
Qed.

(** The counters of [getDiagnosticSummary] count categories. *)
Lemma getDiagnosticSummary_categories ds :
  let summary := Diagnostics.getDiagnosticSummary ds in
  errorCount summary = category_count ts.DiagnosticCategory.Error ds
  /\ warningCount summary = category_count ts.DiagnosticCategory.Warning ds
  /\ infoCount summary
     = (category_count ts.DiagnosticCategory.Suggestion ds
        + category_count ts.DiagnosticCategory.Message ds)%nat.
Proof.
  unfold Diagnostics.getDiagnosticSummary.
  destruct (count_diagnostic_foldl ds
              {| errorCount := 0; warningCount := 0; infoCount := 0 |})
    as (He & Hw & Hi).
  simpl in *. rewrite He, Hw, Hi. lia.
Qed.

(** The severities of [formatDiagnostic] count categories too, with the
    categories outside the enum on the side of [error]. *)
Lemma normalized_count_categories ds :
  normalized_count error ds
  = (category_count ts.DiagnosticCategory.Error ds + foreign_count ds)%nat
  /\ normalized_count warning ds
     = category_count ts.DiagnosticCategory.Warning ds
  /\ normalized_count info ds
     = (category_count ts.DiagnosticCategory.Suggestion ds
        + category_count ts.DiagnosticCategory.Message ds)%nat.
Proof.
  unfold normalized_count, category_count, foreign_count.
  induction ds as [|d ds (IHe & IHw & IHi)]; [done|].
  rewrite !filter_cons.
  cbn [severity Diagnostics.formatDiagnostic] in *.
  unfold known_category, Diagnostics.severity_of_category,
    ts.DiagnosticCategory.Error, ts.DiagnosticCategory.Warning,
    ts.DiagnosticCategory.Suggestion, ts.DiagnosticCategory.Message in *.
  repeat case_decide; simpl; try lia; try congruence.
Qed.

(** Every diagnostic is in one counter or has a category outside the enum. *)
Lemma getDiagnosticSummary_total ds :
  let summary := Diagnostics.getDiagnosticSummary ds in
  (errorCount summary + warningCount summary + infoCount summary
   + foreign_count ds)%nat = length ds.
Proof.
  destruct (getDiagnosticSummary_categories ds) as (He & Hw & Hi).
  simpl in *. rewrite He, Hw, Hi. clear.
  unfold category_count, foreign_count.
  induction ds as [|d ds IH]; [done|].
  rewrite !filter_cons.
  unfold known_category, ts.DiagnosticCategory.Error,
    ts.DiagnosticCategory.Warning, ts.DiagnosticCategory.Suggestion,
    ts.DiagnosticCategory.Message in *.
  repeat case_decide; simpl; lia.
Qed.

Lemma foreign_count_known ds :
  Forall (fun d => known_category (ts.category d)) ds -> foreign_count ds = 0%nat.
Proof.
  unfold foreign_count. induction 1 as [|d ds Hd _ IH]; [done|].
  rewrite filter_cons. case_decide; [contradiction|done].
Qed.

Lemma severity_of_category_specified category :
  Diagnostics.severity_of_category category = specified_severity category.
Proof.
  unfold Diagnostics.severity_of_category, specified_severity,
    ts.DiagnosticCategory.Error, ts.DiagnosticCategory.Warning,
    ts.DiagnosticCategory.Suggestion, ts.DiagnosticCategory.Message.
  repeat case_decide; try reflexivity; lia.
Qed.

(** C2. [formatDiagnostic] follows the specified mapping on every
    category: Error to error, Warning to warning, Suggestion and Message to
    info, anything else to error. The inline mapping of [compileSingleFile]
    and [compileProject] does not: a diagnostic of category Message or
    Suggestion, and one of a category outside the enum, gets severity
    warning there, where the mapping says info, and error. *)
Theorem C2_inline_severity_departs_from_mapping
    (fallback : string) (f : option ts.SourceFile) (s : option nat)
    (m : string + ts.DiagnosticMessageChain) (c : Z) :
  let d category :=
    {| ts.file := f; ts.start := s; ts.messageText := m; ts.code := c;
       ts.category := category |} in
  (forall category,
     severity (Diagnostics.formatDiagnostic (d category))
     = specified_severity category)
  /\ (forall category,
        severity (Compiler.inlineDiagnostic fallback (d category))
        = if decide (category = ts.DiagnosticCategory.Error)
          then error else warning)
  /\ (severity (Compiler.inlineDiagnostic fallback
                  (d ts.DiagnosticCategory.Message)) = warning
      /\ specified_severity ts.DiagnosticCategory.Message = info)
  /\ (severity (Compiler.inlineDiagnostic fallback
                  (d ts.DiagnosticCategory.Suggestion)) = warning
      /\ specified_severity ts.DiagnosticCategory.Suggestion = info)
  /\ (severity (Compiler.inlineDiagnostic fallback (d 7)) = warning
      /\ specified_severity 7 = error).
Proof.
  intros d. split; [|by repeat split].
  intros category. apply severity_of_category_specified.
Qed.

(** On a sequence whose categories are all of the enum (Error, Warning,
    Suggestion, Message), the three counters of [getDiagnosticSummary] are
    the numbers of diagnostics that [formatDiagnostic] gives severity error,
    warning and info, and every diagnostic is counted once. *)
Lemma getDiagnosticSummary_on_enum_categories (ds : list ts.Diagnostic) :
  Forall (fun d => known_category (ts.category d)) ds ->
  let summary := Diagnostics.getDiagnosticSummary ds in
  errorCount summary = normalized_count error ds
  /\ warningCount summary = normalized_count warning ds
  /\ infoCount summary = normalized_count info ds
  /\ (errorCount summary + warningCount summary + infoCount summary)%nat
     = length ds.
Proof.
  intros Hknown summary.
  destruct (getDiagnosticSummary_categories ds) as (He & Hw & Hi).
  destruct (normalized_count_categories ds) as (Ne & Nw & Ni).
  pose proof (getDiagnosticSummary_total ds) as Ht.
  pose proof (foreign_count_known ds Hknown) as H0.
  simpl in *. subst summary. rewrite Ne, Nw, Ni, H0. lia.
Qed.


End diagnostics.

(** ** Precedence of the compiler options *)

Section precedence.
Context {E : ts.Engine} {R : Runtime}.

Lemma obj_assign_lookup (target source : jsobj) k :
  obj_assign target source !! k
  = match source !! k with
    | Some v => Some v
    | None => target !! k
    end.
Proof.
  unfold obj_assign. destruct (source !! k) as [v|] eqn:Hk.
  - by apply lookup_union_Some_l.
  - by rewrite lookup_union_r.
Qed.

(** [compileSingleFile]: a key of the configuration file wins over the
    request and over the defaults. *)
Lemma compile_config_wins options fs filePath parsedConfig k v :
  ambientConfig fs (Path.dirname filePath) = Some parsedConfig ->
  ts.options parsedConfig !! k = Some v ->
  Compiler.effectiveOptions options fs filePath !! k = Some v.
Proof.
  intros Hc Hk. unfold Compiler.effectiveOptions. rewrite Hc.
  by rewrite obj_assign_lookup, Hk.
Qed.

(** [checkSingleFile]: the literal of the handler, request fields and
    defaults alike, wins over the configuration file. *)
Lemma check_literal_wins options fs filePath k v :
  TypeChecker.requestOptions options !! k = Some v ->
  TypeChecker.effectiveOptions options fs filePath !! k = Some v.
Proof.
  intros Hk. unfold TypeChecker.effectiveOptions.
  destruct (ambientConfig _ _); [|done].
  by rewrite obj_assign_lookup, Hk.
Qed.

Lemma check_target_is_default options fs filePath :
  TypeChecker.effectiveOptions options fs filePath !! "target"
  = Some (JNum ts.ScriptTarget.ES2020).
Proof. by apply check_literal_wins. Qed.

Lemma check_strict_ignores_config options fs filePath :
  TypeChecker.effectiveOptions options fs filePath !! "strict"
  = Some (JBool (default false (TypeCheckOptions.strict options))).
Proof. by apply check_literal_wins. Qed.

Lemma diagnostics_target_is_default fs filePath :
  TypeChecker.diagnosticsOptions fs filePath !! "target"
  = Some (JNum ts.ScriptTarget.ES2020).
Proof.
  unfold TypeChecker.diagnosticsOptions.
  destruct (ambientConfig _ _); [|done].
  by rewrite obj_assign_lookup.
Qed.

(** The project paths do follow request over configuration: a field of the
    request overrides the parsed option when it is given, and only then. *)
Lemma compileProject_sourceMap options parsed :
  Compiler.projectOptions options parsed !! "sourceMap"
  = match CompileOptions.sourceMap options with
    | Some b => Some (JBool b)
    | None => parsed !! "sourceMap"
    end.
Proof.
  unfold Compiler.projectOptions.
  destruct (CompileOptions.sourceMap options);
    destruct (truthy_str _); by simplify_map_eq.
Qed.

Lemma checkProject_strict options parsed :
  TypeChecker.projectOptions options parsed !! "strict"
  = match TypeCheckOptions.strict options with
    | Some b => Some (JBool b)
    | None => parsed !! "strict"
    end.
Proof.
  unfold TypeChecker.projectOptions.
  destruct (TypeCheckOptions.strict options);
    destruct (TypeCheckOptions.includeDeclarations options);
    by simplify_map_eq.
Qed.

(** C1. The single-file paths do not keep the order request, file,
    default. In [compileSingleFile] every option the configuration file
    sets reaches the engine with the value of the file, whatever the
    request says. In [checkSingleFile] the options [strict] and [target]
    reach the engine with the value of the request or, when the request
    omits it, of the built-in default, whatever the file says, and in
    [getDiagnostics] so does [target]. *)
Theorem C1_single_file_paths_break_precedence
    (compile : CompileOptions.t) (check : TypeCheckOptions.t)
    (fs : filesystem) (filePath : string)
    (parsedConfig : ts.ParsedCommandLine) (k : string) (v : jsval) :
  ambientConfig fs (Path.dirname filePath) = Some parsedConfig ->
  ts.options parsedConfig !! k = Some v ->
  Compiler.effectiveOptions compile fs filePath !! k = Some v
  /\ TypeChecker.effectiveOptions check fs filePath !! "strict"
     = Some (JBool (default false (TypeCheckOptions.strict check)))
  /\ TypeChecker.effectiveOptions check fs filePath !! "target"
     = Some (JNum ts.ScriptTarget.ES2020)
  /\ TypeChecker.diagnosticsOptions fs filePath !! "target"
     = Some (JNum ts.ScriptTarget.ES2020).
Proof.
  intros Hconfig Hk. split; [by eapply compile_config_wins|].
  split; [apply check_strict_ignores_config|].
  split; [apply check_target_is_default|apply diagnostics_target_is_default].
Qed.

End precedence.

(** The sample project [/p]: its [tsconfig.json] sets [target] to ES5,
    [strict] to true and [sourceMap] to false. *)
Lemma sample_ambientConfig :
  ambientConfig (E:=Sample.engine) Sample.project (Path.dirname "/p/a.ts")
  = Some {| ts.options :=
              list_to_map [("target", JStr "ES5"); ("strict", JBool true);
                           ("sourceMap", JBool false)];
            ts.fileNames := []; ts.errors := [] |}.
Proof. by vm_compute. Qed.

(** On that project the paths for a project keep the specified order:
    the request wins when it names the option. *)
Example sample_project_paths :
  Compiler.projectOptions (R:=Sample.runtime)
    (Sample.compileRequest "/p/a.ts" (Some true))
    (own_props (js_prop Sample.config "compilerOptions")) !! "sourceMap"
  = Some (JBool true)
  /\ TypeChecker.projectOptions (Sample.checkRequest "/p" (Some false))
       (own_props (js_prop Sample.config "compilerOptions")) !! "strict"
     = Some (JBool false)
  /\ TypeChecker.projectOptions (Sample.checkRequest "/p" None)
       (own_props (js_prop Sample.config "compilerOptions")) !! "strict"
     = Some (JBool true).
Proof. by vm_compute. Qed.

Lemma C1_single_file_paths_witness :
  let E := Sample.engine in
  let parsedConfig :=
    {| ts.options :=
         list_to_map [("target", JStr "ES5"); ("strict", JBool true);
                      ("sourceMap", JBool false)];
       ts.fileNames := []; ts.errors := [] |} in
  (ambientConfig Sample.project (Path.dirname "/p/a.ts") = Some parsedConfig
   /\ ts.options parsedConfig !! "sourceMap" = Some (JBool false))
  /\ Compiler.effectiveOptions
       (Sample.compileRequest "/p/a.ts" (Some true)) Sample.project "/p/a.ts"
     !! "sourceMap" = Some (JBool false)
  /\ TypeChecker.effectiveOptions
       (Sample.checkRequest "/p/a.ts" None) Sample.project "/p/a.ts"
     !! "strict" = Some (JBool false)
  /\ TypeChecker.effectiveOptions
       (Sample.checkRequest "/p/a.ts" None) Sample.project "/p/a.ts"
     !! "target" = Some (JNum ts.ScriptTarget.ES2020)
  /\ TypeChecker.diagnosticsOptions Sample.project "/p/a.ts" !! "target"
     = Some (JNum ts.ScriptTarget.ES2020).
Proof.
  split; [split; vm_compute; reflexivity|].
  exact (C1_single_file_paths_break_precedence (E:=Sample.engine)
           (Sample.compileRequest "/p/a.ts" (Some true))
           (Sample.checkRequest "/p/a.ts" None) Sample.project "/p/a.ts"
           _ "sourceMap" (JBool false)
           sample_ambientConfig ltac:(vm_compute; reflexivity)).
Defined.

(** ** Paths *)

Section paths.

Lemma chars_str l : Path.chars (Path.str l) = l.
Proof. apply list_ascii_of_string_of_list_ascii. Qed.

Lemma str_chars s : Path.str (Path.chars s) = s.
Proof. apply string_of_list_ascii_of_string. Qed.

Lemma chars_app a b : Path.chars (a +:+ b) = Path.chars a ++ Path.chars b.
Proof.
  unfold Path.chars. induction a as [|c a IH]; [done|].
  simpl. by f_equal.
Qed.

Lemma chars_length s : length (Path.chars s) = String.length s.
Proof.
  unfold Path.chars. induction s as [|c s IH]; [done|].
  simpl. by f_equal.
Qed.

Lemma chars_inj a b : Path.chars a = Path.chars b -> a = b.
Proof. intros H. by rewrite <- (str_chars a), <- (str_chars b), H. Qed.

Lemma pieces_no_slash cs : Forall (fun p => Path.slash ∉ p) (Path.pieces cs).
Proof.
  induction cs as [|c cs IH]; simpl.
  - repeat constructor. apply not_elem_of_nil.
  - case_decide as Hc.
    + constructor; [apply not_elem_of_nil|done].
    + destruct (Path.pieces cs) as [|p ps].
      * repeat constructor. by rewrite list_elem_of_singleton.
      * inversion IH as [|? ? Hp Hps]; subst. constructor; [|done].
        rewrite elem_of_cons. intros [Heq|?]; [congruence|contradiction].
Qed.

Lemma normalize_pieces_kept allowAboveRoot ps acc :
  Forall kept_piece acc ->
  Forall (fun p => Path.slash ∉ p) ps ->
  Forall kept_piece (Path.normalize_pieces allowAboveRoot acc ps).
Proof.
  assert (kept_piece [Path.dot; Path.dot]) as Hdots.
  { split; [done|]. rewrite !elem_of_cons, elem_of_nil.
    intros [H|[H|[]]]; discriminate H. }
  revert acc. induction ps as [|p ps IH]; intros acc Hacc Hps; simpl.
  - by apply Forall_rev.
  - inversion Hps as [|? ? Hp Hps']; subst.
    case_decide as Hskip; [by apply IH|].
    case_decide as Hup.
    + subst p. destruct acc as [|prev acc'].
      * apply IH; [|done]. destruct allowAboveRoot; by repeat constructor.
      * inversion Hacc; subst. case_decide.
        -- apply IH; [|done]. destruct allowAboveRoot; [by constructor|done].
        -- by apply IH.
    + apply IH; [|done]. constructor; [|done].
      split; [|done]. intros ->. apply Hskip. by left.
Qed.

Lemma join_pieces_last ps :
  Forall kept_piece ps -> ps <> [] ->
  exists c, last (Path.join_pieces ps) = Some c /\ c <> Path.slash.
Proof.
  induction ps as [|p ps IH]; intros Hall Hne; [done|].
  inversion Hall as [|? ? [Hp Hs] Hps]; subst.
  destruct ps as [|q ps].
  - simpl. destruct (last p) as [c|] eqn:Hl.
    + exists c. split; [done|]. intros ->. apply Hs.
      apply last_Some in Hl as [l' ->]. set_solver.
    + apply last_None in Hl. contradiction.
  - destruct IH as (c & Hc & Hcs); [done|done|].
    exists c. split; [|done].
    change (Path.join_pieces (p :: q :: ps))
      with (p ++ Path.slash :: Path.join_pieces (q :: ps)).
    rewrite last_app. rewrite last_cons, Hc. done.
Qed.

Lemma normalizeString_last p allowAboveRoot :
  Path.normalizeString p allowAboveRoot = ""
  \/ exists c, last (Path.chars (Path.normalizeString p allowAboveRoot)) = Some c
               /\ c <> Path.slash.
Proof.
  unfold Path.normalizeString. rewrite chars_str.
  pose proof (normalize_pieces_kept allowAboveRoot (Path.pieces (Path.chars p))
                [] (List.Forall_nil _) (pieces_no_slash _)) as Hk.
  destruct (Path.normalize_pieces allowAboveRoot [] (Path.pieces (Path.chars p)))
    as [|q qs] eqn:Hn.
  - by left.
  - right. by apply join_pieces_last.
Qed.

(** [path.resolve] leaves no trailing separator: only the root ends in
    one. *)
Lemma resolve_endsWithSlash cwd p :
  Path.endsWithSlash (Path.resolve cwd p) = true -> Path.resolve cwd p = "/".
Proof.
  unfold Path.resolve.
  destruct (if Path.isAbsolute p then _ else _) as [resolvedPath resolvedAbsolute].
  destruct (normalizeString_last resolvedPath (negb resolvedAbsolute))
    as [->|(c & Hc & Hs)].
  - destruct resolvedAbsolute; [done|]. simpl. discriminate.
  - unfold Path.endsWithSlash. destruct resolvedAbsolute.
    + rewrite chars_app. rewrite last_app, Hc.
      intros H. apply bool_decide_eq_true in H. contradiction.
    + case_decide as Hn.
      * simpl. discriminate.
      * rewrite Hc. intros H. apply bool_decide_eq_true in H. contradiction.
Qed.

End paths.

(** The behaviour of [path] on the shapes the handlers meet. *)
Example resolve_relative : Path.resolve "/home/u" "src/../a.ts" = "/home/u/a.ts".
Proof. reflexivity. Qed.
Example resolve_trailing : Path.resolve "/home/u" "/proj/" = "/proj".
Proof. reflexivity. Qed.
Example resolve_empty : Path.resolve "/home/u" "" = "/home/u".
Proof. reflexivity. Qed.
Example resolve_root : Path.resolve "/home/u" "/" = "/".
Proof. reflexivity. Qed.
Example resolve_dots : Path.resolve "/home/u" "/a/../../b//c/." = "/b/c".
Proof. reflexivity. Qed.
Example dirname_file : Path.dirname "/a/b/c.ts" = "/a/b".
Proof. reflexivity. Qed.
Example dirname_top : Path.dirname "/a" = "/".
Proof. reflexivity. Qed.
Example dirname_root : Path.dirname "/" = "/".
Proof. reflexivity. Qed.
Example dirname_double : Path.dirname "a//b" = "a/".
Proof. reflexivity. Qed.
Example join_config : Path.join "/a/b" "tsconfig.json" = "/a/b/tsconfig.json".
Proof. reflexivity. Qed.
Example join_root : Path.join "/" "tsconfig.json" = "/tsconfig.json".
Proof. reflexivity. Qed.
Example join_relative : Path.join "./dist" "a.js" = "dist/a.js".
Proof. reflexivity. Qed.
Example join_above : Path.join "../x/" "a.js" = "../x/a.js".
Proof. reflexivity. Qed.
Example extname_last_dot : Path.extname "/a/b.test.ts" = ".ts".
Proof. reflexivity. Qed.
Example extname_dotfile : Path.extname "/a/.ts" = "".
Proof. reflexivity. Qed.
Example extname_dots : Path.extname "/a/.." = "".
Proof. reflexivity. Qed.
Example extname_directory : Path.extname "/a.b/c" = "".
Proof. reflexivity. Qed.
Example basename_strip : Path.basename "/a/b.test.ts" ".ts" = "b.test".
Proof. reflexivity. Qed.
Example basename_trailing : Path.basename "/a/b.ts/" ".ts" = "b".
Proof. reflexivity. Qed.
Example basename_whole : Path.basename "/a/.ts" ".ts" = ".ts".
Proof. reflexivity. Qed.
Example basename_plain : Path.basename "/a/b.ts" "" = "b.ts".
Proof. reflexivity. Qed.
Example getOutputPath_ts : FileUtil.getOutputPath "/a/b.ts" None = "/a/b.js".
Proof. reflexivity. Qed.
Example getOutputPath_tsx : FileUtil.getOutputPath "/a/b.tsx" None = "/a/b.js".
Proof. reflexivity. Qed.
Example getOutputPath_js : FileUtil.getOutputPath "/a/b.js" None = "/a/b.js".
Proof. reflexivity. Qed.
Example getOutputPath_empty_dir :
  FileUtil.getOutputPath "/a/b.ts" (Some "") = "/a/b.js".
Proof. reflexivity. Qed.

(** ** The search for [tsconfig.json] ends *)

Section find_config.

Lemma drop_while_length {A} (f : A -> bool) l :
  (length (Path.drop_while f l) <= length l)%nat.
Proof. induction l as [|x l IH]; simpl; [lia|]. destruct (f x); simpl; lia. Qed.

Lemma drop_while_head {A} (f : A -> bool) l x rest :
  Path.drop_while f l = x :: rest -> f x = false.
Proof.
  induction l as [|y l IH]; simpl; [done|].
  destruct (f y) eqn:Hy; [done|]. intros H. by simplify_eq.
Qed.

Lemma str_length l : String.length (Path.str l) = length l.
Proof. by rewrite <- chars_length, chars_str. Qed.

(** [path.dirname] gives ["."], ["/"] or a shorter path. *)
Lemma dirname_shorter p :
  Path.dirname p = "." \/ Path.dirname p = "/"
  \/ (String.length (Path.dirname p) < String.length p)%nat.
Proof.
  unfold Path.dirname. rewrite <- (chars_length p).
  destruct (Path.chars p) as [|c0 rest]; [by left|].
  set (after_trailing := Path.drop_while _ (rev rest)).
  destruct (Path.drop_while _ after_trailing) as [|s before] eqn:Hname.
  - destruct (bool_decide (c0 = Path.slash)); auto.
  - right; right.
    assert (length before + 2 <= length rest)%nat as Hlen.
    { pose proof (drop_while_length
                    (fun c => bool_decide (c = Path.slash)) (rev rest)) as H1.
      fold after_trailing in H1. rewrite length_rev in H1.
      destruct after_trailing as [|x t] eqn:Ht; [done|].
      apply drop_while_head in Ht. simpl in Hname. rewrite Ht in Hname.
      simpl in Hname.
      pose proof (drop_while_length
                    (fun c => negb (bool_decide (c = Path.slash))) t) as H2.
      rewrite Hname in H2. simpl in *. lia. }
    destruct (_ && _).
    + simpl. lia.
    + rewrite str_length. simpl. rewrite length_rev. lia.
Qed.

Lemma findTsConfig_loop_total fs fuel currentDir :
  (String.length currentDir + 2 <= fuel)%nat ->
  is_Some (FileUtil.findTsConfig_loop fuel fs currentDir).
Proof.
  revert currentDir. induction fuel as [|fuel IH]; intros d Hfuel; [lia|].
  simpl. case_decide; [by eauto|].
  destruct (FileUtil.fileExists _ _); [by eauto|].
  destruct (dirname_shorter d) as [->|[->|Hlt]].
  - destruct fuel; [lia|]. simpl. by eauto.
  - destruct fuel; [lia|]. simpl. by eauto.
  - apply IH. lia.
Qed.

(** [findTsConfig] is the result of the loop: the rounds never run out. *)
Lemma findTsConfig_loop_result fs startDir :
  FileUtil.findTsConfig_loop (String.length startDir + 2) fs startDir
  = Some (FileUtil.findTsConfig fs startDir).
Proof.
  unfold FileUtil.findTsConfig.
  destruct (findTsConfig_loop_total fs (String.length startDir + 2) startDir)
    as [r ->]; [lia|done].
Qed.

End find_config.

(** ** Dispatch and failures of the entry points *)

Section entry_points.
Context {E : ts.Engine} {R : Runtime}.

(** Whatever exists under a resolved path other than the root passes for a
    file: the test on the trailing separator never fires. *)
Lemma isFile_of_existing fs requested :
  path_resolve requested <> "/" ->
  TypeChecker.isFile fs (path_resolve requested)
  = FileUtil.fileExists fs (path_resolve requested).
Proof.
  intros Hroot. unfold TypeChecker.isFile, path_resolve in *.
  destruct (Path.endsWithSlash (Path.resolve process_cwd requested)) eqn:Hs.
  - by apply resolve_endsWithSlash in Hs.
  - done.
Qed.

(** [checkTypes] reaches [checkProject] for no target but the root. *)
Lemma checkTypes_existing_target options fs :
  let filePath := path_resolve (TypeCheckOptions.filePath options) in
  filePath <> "/" ->
  TypeChecker.checkTypes options fs
  = if FileUtil.fileExists fs filePath
    then TypeChecker.checkSingleFile options fs
    else Rejected ("File not found: " +:+ filePath).
Proof.
  intros filePath Hroot. unfold TypeChecker.checkTypes. fold filePath.
  subst filePath. rewrite isFile_of_existing by done.
  by destruct (FileUtil.fileExists _ _).
Qed.

(** [compileFile] hands on the promise of [compileSingleFile] as it is:
    the [catch] does not see its rejection. *)
Lemma compileFile_single_file options self fs requested :
  CompileOptions.watch options <> Some true ->
  truthy_str (CompileOptions.projectPath options) = None ->
  truthy_str (CompileOptions.filePath options) = Some requested ->
  Compiler.compileFile options self fs
  = ((Compiler.compileSingleFile options fs).1, self,
     (Compiler.compileSingleFile options fs).2).
Proof.
  intros Hw Hp Hf. unfold Compiler.compileFile. rewrite Hp, Hf.
  destruct (Compiler.compileSingleFile options fs) as [promise fs'].
  destruct (CompileOptions.watch options) as [[]|]; done.
Qed.

(** C8, as amended. [compileFile] turns the error it throws itself, when
    the request has neither [filePath] nor [projectPath], into a result with
    [success: false] and one error diagnostic [COMPILE_ERROR] that carries
    the message; nothing else changes. [checkTypes] has no handler: for a
    target that does not exist its promise is rejected with
    [File not found]. *)
Theorem C8_boundary_of_the_entry_points
    (request : CompileOptions.t) (self : Compiler.TypeScriptCompiler)
    (fs : filesystem) (check : TypeCheckOptions.t) :
  truthy_str (CompileOptions.filePath request) = None ->
  truthy_str (CompileOptions.projectPath request) = None ->
  FileUtil.fileExists fs (path_resolve (TypeCheckOptions.filePath check))
  = false ->
  Compiler.compileFile request self fs
  = (Resolved
       {| CompilationResult.success := false;
          CompilationResult.output := None;
          CompilationResult.files := None;
          CompilationResult.errors :=
            Some [{| file := "unknown"; line := 0; column := 0;
                     message :=
                       "Either filePath or projectPath must be provided";
                     code := "COMPILE_ERROR";
                     severity := error |}] |}, self, fs)
  /\ TypeChecker.checkTypes check fs
     = Rejected ("File not found: "
                 +:+ path_resolve (TypeCheckOptions.filePath check)).
Proof.
  intros Hf Hp Hmissing. split.
  - unfold Compiler.compileFile. rewrite Hf, Hp.
    unfold Compiler.try_return, Compiler.compileError, Diagnostics.or_else.
    rewrite Hf, Hp. by destruct (CompileOptions.watch request) as [[]|].
  - unfold TypeChecker.checkTypes. by rewrite Hmissing.
Qed.

(** C4. When the target is a directory, any but the root, [checkTypes]
    takes it for a file: it runs [checkSingleFile] on it and resolves, with
    or without a [tsconfig.json] in the directory; [checkProject] is not
    called. *)
Theorem C4_directory_is_checked_as_a_single_file
    (options : TypeCheckOptions.t) (fs : filesystem) :
  fs !! path_resolve (TypeCheckOptions.filePath options) = Some Dir ->
  path_resolve (TypeCheckOptions.filePath options) <> "/" ->
  TypeChecker.isFile fs (path_resolve (TypeCheckOptions.filePath options))
  = true
  /\ TypeChecker.checkTypes options fs
     = TypeChecker.checkSingleFile options fs
  /\ exists result, TypeChecker.checkTypes options fs = Resolved result.
Proof.
  intros Hdir Hroot.
  assert (FileUtil.fileExists fs
            (path_resolve (TypeCheckOptions.filePath options)) = true) as Hex.
  { unfold FileUtil.fileExists. apply bool_decide_eq_true_2. by eauto. }
  split; [by rewrite isFile_of_existing|].
  rewrite checkTypes_existing_target, Hex by done.
  split; [done|]. unfold TypeChecker.checkSingleFile. by eauto.
Qed.

End entry_points.

(** [/d] is a directory without [tsconfig.json]: [checkProject] on it is
    rejected, [checkTypes] resolves. *)
Example sample_directory :
  let E := Sample.engine in
  let R := Sample.runtime in
  FileUtil.fileExists Sample.bare (Path.join "/d" "tsconfig.json") = false
  /\ TypeChecker.checkProject (Sample.checkRequest "/d" None) Sample.bare
     = Rejected "tsconfig.json not found in /d"
  /\ TypeChecker.checkTypes (Sample.checkRequest "/d" None) Sample.bare
     = Resolved
         {| TypeCheckResult.success := true;
            TypeCheckResult.diagnostics := [];
            TypeCheckResult.summary :=
              {| errorCount := 0; warningCount := 0; infoCount := 0 |} |}.
Proof. by vm_compute. Qed.

Lemma C4_directory_witness :
  let E := Sample.engine in
  let R := Sample.runtime in
  let options := Sample.checkRequest "/d/" None in
  (Sample.bare !! path_resolve (TypeCheckOptions.filePath options) = Some Dir
   /\ path_resolve (TypeCheckOptions.filePath options) <> "/")
  /\ TypeChecker.isFile Sample.bare
       (path_resolve (TypeCheckOptions.filePath options)) = true
  /\ TypeChecker.checkTypes options Sample.bare
     = TypeChecker.checkSingleFile options Sample.bare
  /\ exists result, TypeChecker.checkTypes options Sample.bare = Resolved result.
Proof.
  split; [split; [vm_compute; reflexivity|vm_compute; discriminate]|].
  apply (C4_directory_is_checked_as_a_single_file (E:=Sample.engine)
           (R:=Sample.runtime) (Sample.checkRequest "/d/" None) Sample.bare);
    [vm_compute; reflexivity|vm_compute; discriminate].
Defined.

(** A missing target: the promise of [checkTypes] is rejected, no result
    is returned. *)
Lemma C8_counterexample :
  let E := Sample.engine in
  let R := Sample.runtime in
  TypeChecker.checkTypes (Sample.checkRequest "/p/missing.ts" None)
    Sample.project
  = Rejected "File not found: /p/missing.ts"
  /\ ~ exists result,
         TypeChecker.checkTypes (Sample.checkRequest "/p/missing.ts" None)
           Sample.project
         = Resolved result.
Proof.
  split; [by vm_compute|]. intros [result H]. vm_compute in H. discriminate H.
Qed.

Lemma C8_boundary_witness :
  let E := Sample.engine in
  let R := Sample.runtime in
  (truthy_str (CompileOptions.filePath Sample.emptyRequest) = None
   /\ truthy_str (CompileOptions.projectPath Sample.emptyRequest) = None
   /\ FileUtil.fileExists Sample.project
        (path_resolve
           (TypeCheckOptions.filePath
              (Sample.checkRequest "/p/missing.ts" None))) = false)
  /\ (Compiler.compileFile Sample.emptyRequest Compiler.new_compiler
        Sample.project
      = (Resolved
           {| CompilationResult.success := false;
              CompilationResult.output := None;
              CompilationResult.files := None;
              CompilationResult.errors :=
                Some [{| file := "unknown"; line := 0; column := 0;
                         message :=
                           "Either filePath or projectPath must be provided";
                         code := "COMPILE_ERROR";
                         severity := error |}] |},
         Compiler.new_compiler, Sample.project)
      /\ TypeChecker.checkTypes (Sample.checkRequest "/p/missing.ts" None)
           Sample.project
         = Rejected ("File not found: "
                     +:+ path_resolve
                           (TypeCheckOptions.filePath
                              (Sample.checkRequest "/p/missing.ts" None)))).
Proof.
  split; [repeat split; vm_compute; reflexivity|].
  apply (C8_boundary_of_the_entry_points (E:=Sample.engine)
           (R:=Sample.runtime) Sample.emptyRequest Compiler.new_compiler
           Sample.project (Sample.checkRequest "/p/missing.ts" None));
    vm_compute; reflexivity.
Defined.

(** The test "should handle non-existent files" of the repository expects a
    result here; the call is rejected. *)
Lemma compileFile_missing_source_is_rejected :
  let E := Sample.engine in
  let R := Sample.runtime in
  (Compiler.compileFile (Sample.compileRequest "/p/non-existent.ts" None)
     Compiler.new_compiler Sample.project).1.1
  = Rejected "File not found: /p/non-existent.ts".
Proof. by vm_compute. Qed.

(** ** Output paths *)

Section output_paths.
Context {E : ts.Engine} {R : Runtime}.

Lemma replace_ts_extension_other s :
  FileUtil.isTypeScriptFile s = false -> FileUtil.replace_ts_extension s = s.
Proof.
  unfold FileUtil.isTypeScriptFile, FileUtil.replace_ts_extension.
  intros [H1 H2]%orb_false_elim. by rewrite H1, H2.
Qed.

Lemma getOutputPath_in_place inputPath outputDir :
  FileUtil.isTypeScriptFile inputPath = false ->
  truthy_str outputDir = None ->
  FileUtil.getOutputPath inputPath outputDir = inputPath.
Proof.
  intros Hts Hdir. unfold FileUtil.getOutputPath. rewrite Hdir.
  by apply replace_ts_extension_other.
Qed.

Lemma getOutputPath_flat inputPath dir :
  dir <> "" ->
  FileUtil.getOutputPath inputPath (Some dir)
  = Path.join dir
      (Path.basename inputPath (Path.extname inputPath) +:+ ".js").
Proof.
  intros Hdir. unfold FileUtil.getOutputPath, truthy_str.
  by rewrite decide_False.
Qed.

Lemma append_map_ne s : s +:+ ".map" <> s.
Proof.
  intros H. apply (f_equal String.length) in H.
  rewrite <- !chars_length, chars_app, length_app in H. simpl in H. lia.
Qed.

(** The first write of [compileSingleFile] stays in the store whatever
    happens to the second. *)
Lemma writeFiles_first fs outputPath old text rest :
  fs !! outputPath = Some (File old) ->
  Forall (fun f => path f <> outputPath) rest ->
  exists res fs',
    Compiler.writeFiles fs
      ({| path := outputPath; content := text |} :: rest) = (res, fs')
    /\ fs' !! outputPath = Some (File text).
Proof.
  intros Hold Hrest. simpl. unfold FileUtil.writeFile at 1. rewrite Hold.
  assert (<[outputPath := File text]> fs !! outputPath = Some (File text))
    as Hnew by apply lookup_insert_eq.
  revert Hnew. generalize (<[outputPath := File text]> fs). clear Hold.
  induction Hrest as [|f rest Hf _ IH]; intros fs1 Hnew; simpl.
  - by eauto.
  - unfold FileUtil.writeFile.
    destruct (fs1 !! path f) as [[|]|] eqn:Hp; eauto;
      apply IH; by rewrite lookup_insert_ne.
Qed.

(** The [errors] of a result of [compileSingleFile] are the diagnostics of
    [ts.transpileModule] under the inline mapping. *)
Lemma compileSingleFile_errors options fs requested source result fs' :
  CompileOptions.filePath options = Some requested ->
  fs !! path_resolve requested = Some (File source) ->
  Compiler.compileSingleFile options fs = (Resolved result, fs') ->
  CompilationResult.errors result
  = Compiler.nonempty_or_undefined
      (map (Compiler.inlineDiagnostic (path_resolve requested))
         (default []
            (ts.diagnostics
               (ts.transpileModule source
                  (Compiler.effectiveOptions options fs
                     (path_resolve requested))
                  (path_resolve requested))))).
Proof.
  intros Hfile Hsource. unfold Compiler.compileSingleFile. rewrite Hfile.
  unfold FileUtil.fileExists, FileUtil.readFile. rewrite Hsource.
  rewrite bool_decide_eq_true_2 by eauto.
  change (negb true) with false. cbv iota.
  destruct (Compiler.writeFiles _ _) as [[[]|e] fs1]; [|discriminate].
  intros [= <- <-]. simpl.
  by destruct (ts.diagnostics _).
Qed.

(** C9. An input that does not end in [.ts] or [.tsx], with no output
    directory: [getOutputPath] returns the input as it is, so that
    [compileSingleFile] leaves the transpiled text under the path of the
    source itself. With an output directory the output goes to the
    directory joined with the base name, its extension replaced by [.js]:
    the directories of the input are dropped. *)
Theorem C9_output_path_of_a_non_typescript_input
    (options : CompileOptions.t) (fs : filesystem)
    (requested source : string) :
  CompileOptions.filePath options = Some requested ->
  fs !! path_resolve requested = Some (File source) ->
  FileUtil.isTypeScriptFile (path_resolve requested) = false ->
  truthy_str (CompileOptions.outputDir options) = None ->
  (forall inputPath outputDir,
     FileUtil.isTypeScriptFile inputPath = false ->
     truthy_str outputDir = None ->
     FileUtil.getOutputPath inputPath outputDir = inputPath)
  /\ (exists res fs',
        Compiler.compileSingleFile options fs = (res, fs')
        /\ fs' !! path_resolve requested
           = Some (File (ts.outputText
                           (ts.transpileModule source
                              (Compiler.effectiveOptions options fs
                                 (path_resolve requested))
                              (path_resolve requested)))))
  /\ (forall inputPath dir,
        dir <> "" ->
        FileUtil.getOutputPath inputPath (Some dir)
        = Path.join dir
            (Path.basename inputPath (Path.extname inputPath) +:+ ".js"))
  /\ FileUtil.getOutputPath "/src/deep/sub/a.ts" (Some "out") = "out/a.js".
Proof.
  intros Hfile Hsource Hts Hdir.
  split; [apply getOutputPath_in_place|].
  split; [|split; [apply getOutputPath_flat|by vm_compute]].
  unfold Compiler.compileSingleFile. rewrite Hfile.
  unfold FileUtil.fileExists, FileUtil.readFile. rewrite Hsource.
  rewrite bool_decide_eq_true_2 by eauto. simpl negb. cbv iota.
  rewrite (getOutputPath_in_place _ _ Hts Hdir).
  set (result := ts.transpileModule source _ _).
  set (rest := match truthy_str (ts.sourceMapText result) with
               | Some _ => _ | None => _ end).
  destruct (writeFiles_first fs (path_resolve requested) source
              (ts.outputText result) rest Hsource) as (res & fs' & Hw & Hl).
  { subst rest.
    destruct (truthy_str (ts.sourceMapText result)),
      (CompileOptions.sourceMap options) as [[]|]; repeat constructor.
    simpl. apply append_map_ne. }
  rewrite Hw. destruct res; eauto.
Qed.

End output_paths.

Lemma C9_output_path_witness :
  let E := Sample.engine in
  let R := Sample.runtime in
  let options := Sample.compileRequest "/p/run.js" (Some true) in
  (CompileOptions.filePath options = Some "/p/run.js"
   /\ Sample.project !! path_resolve "/p/run.js" = Some (File "run();")
   /\ FileUtil.isTypeScriptFile (path_resolve "/p/run.js") = false
   /\ truthy_str (CompileOptions.outputDir options) = None)
  /\ exists res fs',
       Compiler.compileSingleFile options Sample.project = (res, fs')
       /\ fs' !! path_resolve "/p/run.js"
          = Some (File (ts.outputText
                          (ts.transpileModule "run();"
                             (Compiler.effectiveOptions options Sample.project
                                (path_resolve "/p/run.js"))
                             (path_resolve "/p/run.js")))).
Proof.
  split; [repeat split; vm_compute; reflexivity|].
  refine (proj1 (proj2 (C9_output_path_of_a_non_typescript_input
            (E:=Sample.engine) (R:=Sample.runtime)
            (Sample.compileRequest "/p/run.js" (Some true)) Sample.project
            "/p/run.js" "run();" _ _ _ _)));
    vm_compute; reflexivity.
Defined.

(** ** Updates of the configuration file *)

Section config.
Context {E : ts.Engine} {R : Runtime}.

Lemma readConfigFile_inl fs path config :
  ts.readConfigFile fs path = inl config ->
  exists content, fs !! path = Some (File content).
Proof.
  unfold ts.readConfigFile. destruct (fs !! path) as [[content|]|]; eauto;
    discriminate.
Qed.

(** The merge touches the key [compilerOptions] only. *)
Lemma mergeConfig_top_level config options k :
  k <> "compilerOptions" ->
  ConfigManager.mergeConfig config options !! k = config !! k.
Proof. intros Hk. unfold ConfigManager.mergeConfig. by rewrite lookup_insert_ne. Qed.

Lemma mergeConfig_compilerOptions config options :
  ConfigManager.mergeConfig config options !! "compilerOptions"
  = Some (JObj (obj_assign (own_props (js_prop config "compilerOptions"))
                  options)).
Proof. unfold ConfigManager.mergeConfig. by rewrite lookup_insert_eq. Qed.

Lemma js_get_merged_compilerOptions config options :
  ConfigManager.js_get (JObj (ConfigManager.mergeConfig config options))
    "compilerOptions"
  = JObj (obj_assign (own_props (js_prop config "compilerOptions")) options).
Proof.
  unfold ConfigManager.js_get, js_prop. simpl own_props.
  by rewrite mergeConfig_compilerOptions.
Qed.

(** A [target] outside the list, e.g. ["ES1999"], fails the validation of
    any merged configuration. *)
Lemma validateConfig_invalid_target config options t :
  options !! "target" = Some (JStr t) ->
  t <> "" ->
  t ∉ ConfigManager.validTargets ->
  ConfigManager.isValid
    (ConfigManager.validateConfig
       (JObj (ConfigManager.mergeConfig config options))) = false.
Proof.
  intros Ht Hne Hnot. unfold ConfigManager.validateConfig.
  rewrite js_get_merged_compilerOptions.
  set (co := obj_assign _ _).
  assert (ConfigManager.js_get (JObj co) "target" = JStr t) as Htarget.
  { unfold ConfigManager.js_get, js_prop. simpl own_props.
    subst co. by rewrite obj_assign_lookup, Ht. }
  simpl. unfold ConfigManager.validate_compilerOptions.
  rewrite Htarget. simpl.
  rewrite (bool_decide_eq_false_2 (t = "")) by done.
  rewrite (bool_decide_eq_false_2 (t ∈ ConfigManager.validTargets)) by done.
  done.
Qed.

(** A merged configuration that fails the validation: nothing is written. *)
Lemma updateTsConfig_invalid options fs config :
  let configPath := path_resolve (TsConfigUpdateOptions.configPath options) in
  let merged :=
    ConfigManager.mergeConfig config (TsConfigUpdateOptions.options options) in
  ts.readConfigFile fs configPath = inl config ->
  ConfigManager.isValid (ConfigManager.validateConfig (JObj merged)) = false ->
  ConfigManager.updateTsConfig options fs
  = (Resolved {| ConfigManager.success := false;
                 ConfigManager.message :=
                   "Configuration validation failed: "
                   +:+ String.concat ", "
                         (ConfigManager.errors
                            (ConfigManager.validateConfig (JObj merged)));
                 ConfigManager.updatedConfig := None |}, fs).
Proof.
  intros configPath merged Hread Hvalid.
  destruct (readConfigFile_inl _ _ _ Hread) as [content Hcontent].
  unfold ConfigManager.updateTsConfig. fold configPath.
  unfold FileUtil.fileExists. rewrite bool_decide_eq_true_2 by eauto.
  change (negb true) with false. cbv iota. rewrite Hread. cbv zeta.
  fold merged. by rewrite Hvalid.
Qed.

(** A merged configuration that passes: the file holds all of it. *)
Lemma updateTsConfig_valid options fs config :
  let configPath := path_resolve (TsConfigUpdateOptions.configPath options) in
  let merged :=
    ConfigManager.mergeConfig config (TsConfigUpdateOptions.options options) in
  ts.readConfigFile fs configPath = inl config ->
  ConfigManager.isValid (ConfigManager.validateConfig (JObj merged)) = true ->
  ConfigManager.updateTsConfig options fs
  = (Resolved {| ConfigManager.success := true;
                 ConfigManager.message :=
                   "TypeScript configuration updated successfully";
                 ConfigManager.updatedConfig := Some (JObj merged) |},
     <[configPath := File (JSON_stringify (JObj merged))]> fs).
Proof.
  intros configPath merged Hread Hvalid.
  destruct (readConfigFile_inl _ _ _ Hread) as [content Hcontent].
  unfold ConfigManager.updateTsConfig. fold configPath.
  unfold FileUtil.fileExists. rewrite bool_decide_eq_true_2 by eauto.
  change (negb true) with false. cbv iota. rewrite Hread. cbv zeta.
  fold merged. rewrite Hvalid. simpl.
  unfold FileUtil.writeFile. by rewrite Hcontent.
Qed.

(** C7. Once the configuration file is read: if the merged configuration
    fails [validateConfig], the call returns [success: false] and the store
    is the one before the call; if it passes, the file holds the whole
    merged configuration and nothing else in the store has changed. *)
Theorem C7_update_is_all_or_nothing
    (options : TsConfigUpdateOptions.t) (fs : filesystem) (config : jsobj) :
  let configPath := path_resolve (TsConfigUpdateOptions.configPath options) in
  let merged :=
    ConfigManager.mergeConfig config (TsConfigUpdateOptions.options options) in
  ts.readConfigFile fs configPath = inl config ->
  (ConfigManager.isValid (ConfigManager.validateConfig (JObj merged)) = false ->
   exists msg,
     ConfigManager.updateTsConfig options fs
     = (Resolved {| ConfigManager.success := false;
                    ConfigManager.message := msg;
                    ConfigManager.updatedConfig := None |}, fs))
  /\ (ConfigManager.isValid (ConfigManager.validateConfig (JObj merged)) = true ->
      ConfigManager.updateTsConfig options fs
      = (Resolved {| ConfigManager.success := true;
                     ConfigManager.message :=
                       "TypeScript configuration updated successfully";
                     ConfigManager.updatedConfig := Some (JObj merged) |},
         <[configPath := File (JSON_stringify (JObj merged))]> fs)).
Proof.
  intros configPath merged Hread. split; intros Hvalid.
  - eexists. by apply updateTsConfig_invalid.
  - by apply updateTsConfig_valid.
Qed.

(** Whatever the request, the store changes only with [success: true]. *)
Lemma updateTsConfig_no_partial_write options fs :
  match ConfigManager.updateTsConfig options fs with
  | (Resolved result, fs') =>
      ConfigManager.success result = true \/ fs' = fs
  | (Rejected _, fs') => fs' = fs
  end.
Proof.
  unfold ConfigManager.updateTsConfig.
  destruct (negb _); [done|].
  destruct (ts.readConfigFile _ _); [|by right].
  destruct (negb _); [by right|].
  destruct (FileUtil.writeFile _ _ _); [by left|by right].
Qed.

(** C10. A successful update writes the merged configuration, in which
    every top-level key other than [compilerOptions] has the value it had,
    and [compilerOptions] is an object where every key the update does not
    mention has the value it had. *)
Theorem C10_update_preserves_other_keys
    (options : TsConfigUpdateOptions.t) (fs : filesystem) (config : jsobj) :
  let configPath := path_resolve (TsConfigUpdateOptions.configPath options) in
  ts.readConfigFile fs configPath = inl config ->
  ConfigManager.isValid
    (ConfigManager.validateConfig
       (JObj (ConfigManager.mergeConfig config
                (TsConfigUpdateOptions.options options)))) = true ->
  exists (written compilerOptions : jsobj) (msg : string),
    ConfigManager.updateTsConfig options fs
    = (Resolved {| ConfigManager.success := true;
                   ConfigManager.message := msg;
                   ConfigManager.updatedConfig := Some (JObj written) |},
       <[configPath := File (JSON_stringify (JObj written))]> fs)
    /\ (forall k, k <> "compilerOptions" -> written !! k = config !! k)
    /\ written !! "compilerOptions" = Some (JObj compilerOptions)
    /\ (forall k,
          TsConfigUpdateOptions.options options !! k = None ->
          compilerOptions !! k
          = own_props (js_prop config "compilerOptions") !! k)
    /\ (forall k v,
          TsConfigUpdateOptions.options options !! k = Some v ->
          compilerOptions !! k = Some v).
Proof.
  intros configPath Hread Hvalid.
  eexists _, _, _. split; [exact (updateTsConfig_valid _ _ _ Hread Hvalid)|].
  split; [intros k Hk; by apply mergeConfig_top_level|].
  split; [apply mergeConfig_compilerOptions|].
  split.
  - intros k Hk. by rewrite obj_assign_lookup, Hk.
  - intros k v Hk. by rewrite obj_assign_lookup, Hk.
Qed.

End config.

(** ** Watch sessions *)

Section watchers.
Context {R : Runtime}.

Lemma close_lookup handle ws i :
  Compiler.close handle ws !! i
  = if decide (handle = i) then Compiler.close_watcher <$> ws !! i
    else ws !! i.
Proof.
  unfold Compiler.close. case_decide as Hi.
  - subst. apply list_lookup_alter_eq.
  - by apply list_lookup_alter_ne.
Qed.

Lemma close_all_lookup handles ws i :
  foldr Compiler.close ws handles !! i
  = if decide (i ∈ handles) then Compiler.close_watcher <$> ws !! i
    else ws !! i.
Proof.
  induction handles as [|h handles IH]; cbn [foldr].
  - by rewrite decide_False by apply not_elem_of_nil.
  - rewrite close_lookup, IH.
    destruct (decide (h = i)) as [->|Hne],
      (decide (i ∈ handles)) as [Hin|Hnot],
      (decide (i ∈ _ :: handles)) as [Hin'|Hnot'];
      try done; try (by destruct (ws !! i)).
    + exfalso. apply Hnot'. by right.
    + exfalso. apply Hnot'. by left.
    + exfalso. apply Hnot'. by right.
    + exfalso. apply elem_of_cons in Hin' as [->|?]; done.
Qed.

Lemma registered_handles (m : gmap string nat) h :
  h ∈ (map_to_list m).*2 <-> exists k, m !! k = Some h.
Proof.
  rewrite list_elem_of_fmap. split.
  - intros ([k h'] & -> & Hin). exists k. by apply elem_of_map_to_list.
  - intros [k Hk]. exists (k, h). split; [done|].
    by apply elem_of_map_to_list.
Qed.

Lemma registry_ok_new : registry_ok Compiler.new_compiler.
Proof. intros handle w H. by destruct handle. Qed.

Lemma registry_ok_setup options self :
  registry_ok self ->
  registry_ok (Compiler.setupWatchMode options self).2.
Proof.
  intros Hok. unfold Compiler.setupWatchMode.
  destruct (CompileOptions.filePath options) as [requested|]; [|done].
  set (key := path_resolve requested).
  set (ws := match Compiler.watcherMap self !! key with
             | Some old => _ | None => _ end).
  assert (forall handle w,
            ws !! handle = Some w -> Compiler.closed w = false ->
            Compiler.watched w <> key
            /\ Compiler.watcherMap self !! Compiler.watched w = Some handle)
    as Hws.
  { intros handle w Hw Hlive. subst ws.
    destruct (Compiler.watcherMap self !! key) as [old|] eqn:Hkey.
    - rewrite close_lookup in Hw. case_decide as Hh.
      + destruct (Compiler.watchers self !! handle); [|done].
        simpl in Hw. by simplify_eq.
      + pose proof (Hok _ _ Hw Hlive) as Hm. split; [|done].
        intros Heq. rewrite Heq, Hkey in Hm. congruence.
    - pose proof (Hok _ _ Hw Hlive) as Hm. split; [|done].
      intros Heq. rewrite Heq, Hkey in Hm. congruence. }
  intros handle w Hw Hlive. simpl in *.
  apply lookup_app_Some in Hw as [Hw|[Hlen Hw]].
  - destruct (Hws _ _ Hw Hlive) as [Hne Hm].
    by rewrite lookup_insert_ne.
  - apply list_lookup_singleton_Some in Hw as [Hz <-]. simpl.
    rewrite lookup_insert_eq. f_equal. lia.
Qed.

Lemma registry_ok_stop filePath self :
  registry_ok self -> registry_ok (Compiler.stopWatching filePath self).
Proof.
  intros Hok. unfold Compiler.stopWatching.
  destruct (truthy_str filePath) as [requested|].
  - destruct (Compiler.watcherMap self !! path_resolve requested)
      as [watcher|] eqn:Hkey; [|done].
    intros handle w Hw Hlive. simpl in *.
    rewrite close_lookup in Hw. case_decide as Hh.
    + destruct (Compiler.watchers self !! handle); [|done].
      simpl in Hw. by simplify_eq.
    + pose proof (Hok _ _ Hw Hlive) as Hm.
      rewrite lookup_delete_ne; [done|].
      intros Heq. rewrite <- Heq, Hkey in Hm. congruence.
  - intros handle w Hw Hlive. simpl in *. exfalso.
    rewrite close_all_lookup in Hw. case_decide as Hin.
    + destruct (Compiler.watchers self !! handle); [|done].
      simpl in Hw. by simplify_eq.
    + apply Hin, registered_handles. eauto.
Qed.

Lemma registry_ok_run cs : registry_ok (run_calls cs).
Proof.
  unfold run_calls. induction cs as [|c cs IH] using rev_ind.
  - apply registry_ok_new.
  - rewrite foldl_app. simpl. destruct c; simpl.
    + by apply registry_ok_setup.
    + by apply registry_ok_stop.
Qed.

Lemma filter_none {A} (P : A -> Prop) `{!forall x, Decision (P x)}
    (l : list A) :
  (forall x, x ∈ l -> ~ P x) -> filter P l = [].
Proof.
  induction l as [|a l IH]; intros Hnone; [done|].
  rewrite filter_cons, decide_False by (apply Hnone; left).
  apply IH. intros x Hx. apply Hnone. by right.
Qed.

(** A registration on a key that has a session closes the watcher of that
    session. *)
Lemma setupWatchMode_closes_old options requested self old w :
  CompileOptions.filePath options = Some requested ->
  Compiler.watcherMap self !! path_resolve requested = Some old ->
  Compiler.watchers self !! old = Some w ->
  Compiler.watchers (Compiler.setupWatchMode options self).2 !! old
  = Some (Compiler.close_watcher w).
Proof.
  intros Hfile Hkey Hold. unfold Compiler.setupWatchMode.
  rewrite Hfile, Hkey. simpl.
  rewrite lookup_app_l.
  - by rewrite close_lookup, decide_True, Hold by done.
  - unfold Compiler.close. rewrite length_alter. by eapply lookup_lt_Some.
Qed.

(** A list where any two elements with [P] sit at the same index has at
    most one element with [P]. *)
Lemma filter_at_most_one {A} (P : A -> Prop) `{!forall x, Decision (P x)}
    (l : list A) :
  (forall i j x y,
     l !! i = Some x -> l !! j = Some y -> P x -> P y -> i = j) ->
  (length (filter P l) <= 1)%nat.
Proof.
  induction l as [|a l IH]; intros Huniq; [simpl; lia|].
  rewrite filter_cons. case_decide as Ha.
  - assert (filter P l = []) as ->; [|simpl; lia].
    apply filter_none.
    intros y [j Hj]%list_elem_of_lookup Hy.
    by pose proof (Huniq 0%nat (S j) a y eq_refl Hj Ha Hy).
  - apply IH. intros i j x y Hi Hj Hx Hy.
    pose proof (Huniq (S i) (S j) x y Hi Hj Hx Hy). lia.
Qed.

Lemma live_on_at_most_one key self :
  registry_ok self -> (length (live_on key self) <= 1)%nat.
Proof.
  intros Hok. apply filter_at_most_one.
  intros i j x y Hi Hj [Hx Hlx] [Hy Hly].
  pose proof (Hok _ _ Hi Hlx) as Hmi. pose proof (Hok _ _ Hj Hly) as Hmj.
  rewrite Hx in Hmi. rewrite Hy in Hmj. congruence.
Qed.

Lemma live_on_after_setup options requested self :
  CompileOptions.filePath options = Some requested ->
  registry_ok self ->
  length (live_on (path_resolve requested)
            (Compiler.setupWatchMode options self).2) = 1%nat.
Proof.
  intros Hfile Hok.
  pose proof (live_on_at_most_one (path_resolve requested) _
                (registry_ok_setup options self Hok)) as Hle.
  assert (0 < length (live_on (path_resolve requested)
                        (Compiler.setupWatchMode options self).2))%nat;
    [|lia].
  unfold Compiler.setupWatchMode in *. rewrite Hfile in *. simpl in *.
  unfold live_on. simpl. rewrite filter_app, length_app, filter_cons.
  rewrite decide_True by done. simpl. lia.
Qed.

(** After [stopWatching()] no watcher is left open. *)
Lemma live_on_after_stop_all key self :
  registry_ok self ->
  live_on key (Compiler.stopWatching None self) = [].
Proof.
  intros Hok. unfold live_on.
  apply filter_none.
  intros w [i Hi]%list_elem_of_lookup [_ Hlive].
  pose proof (registry_ok_stop None self Hok _ _ Hi Hlive) as Hm.
  simpl in Hm. by rewrite lookup_empty in Hm.
Qed.

(** C5. After any sequence of [setupWatchMode] and [stopWatching] calls on
    a new instance, no key has more than one watcher that was not closed;
    right after a [setupWatchMode] for a file, and so after any number of
    registrations of it in a row, its key has exactly one. *)
Theorem C5_at_most_one_live_watcher_per_key
    (cs : list call) (key requested : string)
    (projectPath outputDir : option string) (sourceMap watch : option bool)
    (n : nat) :
  let options :=
    {| CompileOptions.filePath := Some requested;
       CompileOptions.projectPath := projectPath;
       CompileOptions.outputDir := outputDir;
       CompileOptions.sourceMap := sourceMap;
       CompileOptions.watch := watch |} in
  (length (live_on key (run_calls cs)) <= 1)%nat
  /\ length (live_on (path_resolve requested)
               (run_calls (cs ++ replicate (S n) (Watch options)))) = 1%nat.
Proof.
  intros options. split.
  - apply live_on_at_most_one, registry_ok_run.
  - rewrite replicate_S_end, app_assoc. unfold run_calls.
    rewrite foldl_app. simpl.
    apply (live_on_after_setup options requested); [done|].
    apply registry_ok_run.
Qed.

(** C6. [stopWatching()] a second time changes nothing, and the empty
    string is the same call; [stopWatching(filePath)] for a key without a
    session leaves the instance as it is. No call can fail. *)
Theorem C6_stopWatching_is_idempotent
    (self : Compiler.TypeScriptCompiler) (requested : string) :
  requested <> "" ->
  Compiler.watcherMap self !! path_resolve requested = None ->
  Compiler.stopWatching None (Compiler.stopWatching None self)
  = Compiler.stopWatching None self
  /\ Compiler.stopWatching (Some "") self = Compiler.stopWatching None self
  /\ Compiler.stopWatching (Some requested) self = self.
Proof.
  intros Hne Hkey. split; [|split].
  - unfold Compiler.stopWatching. simpl. by rewrite map_to_list_empty.
  - done.
  - unfold Compiler.stopWatching, truthy_str.
    rewrite decide_False by done. by rewrite Hkey.
Qed.

End watchers.

(** ** The theorems on the sample project *)

Lemma C6_stopWatching_witness :
  let R := Sample.runtime in
  let self :=
    (Compiler.setupWatchMode (Sample.watchRequest "/p/a.ts")
       Compiler.new_compiler).2 in
  ("/p/other.ts" <> ""
   /\ Compiler.watcherMap self !! path_resolve "/p/other.ts" = None)
  /\ Compiler.stopWatching None (Compiler.stopWatching None self)
     = Compiler.stopWatching None self
  /\ Compiler.stopWatching (Some "") self = Compiler.stopWatching None self
  /\ Compiler.stopWatching (Some "/p/other.ts") self = self.
Proof.
  split; [split; [discriminate|vm_compute; reflexivity]|].
  apply (C6_stopWatching_is_idempotent (R:=Sample.runtime));
    [discriminate|vm_compute; reflexivity].
Defined.

(** An update with the target [ES1999] on the sample project, and one that
    only turns [strict] off. *)
Lemma C7_update_witness :
  let E := Sample.engine in
  let R := Sample.runtime in
  let invalid :=
    {| TsConfigUpdateOptions.configPath := "/p/tsconfig.json";
       TsConfigUpdateOptions.options := {["target" := JStr "ES1999"]} |} in
  let valid :=
    {| TsConfigUpdateOptions.configPath := "/p/tsconfig.json";
       TsConfigUpdateOptions.options := {["strict" := JBool false]} |} in
  let merged :=
    ConfigManager.mergeConfig Sample.config
      (TsConfigUpdateOptions.options valid) in
  (ts.readConfigFile Sample.project (path_resolve "/p/tsconfig.json")
   = inl Sample.config
   /\ ConfigManager.isValid
        (ConfigManager.validateConfig
           (JObj (ConfigManager.mergeConfig Sample.config
                    (TsConfigUpdateOptions.options invalid)))) = false
   /\ ConfigManager.isValid (ConfigManager.validateConfig (JObj merged))
      = true)
  /\ (exists msg,
        ConfigManager.updateTsConfig invalid Sample.project
        = (Resolved {| ConfigManager.success := false;
                       ConfigManager.message := msg;
                       ConfigManager.updatedConfig := None |},
           Sample.project))
  /\ ConfigManager.updateTsConfig valid Sample.project
     = (Resolved {| ConfigManager.success := true;
                    ConfigManager.message :=
                      "TypeScript configuration updated successfully";
                    ConfigManager.updatedConfig := Some (JObj merged) |},
        <[path_resolve "/p/tsconfig.json"
            := File (JSON_stringify (JObj merged))]> Sample.project).
Proof.
  split; [repeat split; vm_compute; reflexivity|].
  split.
  - apply (proj1 (C7_update_is_all_or_nothing (E:=Sample.engine)
                    (R:=Sample.runtime)
                    {| TsConfigUpdateOptions.configPath := "/p/tsconfig.json";
                       TsConfigUpdateOptions.options :=
                         {["target" := JStr "ES1999"]} |}
                    Sample.project Sample.config
                    ltac:(vm_compute; reflexivity)));
      vm_compute; reflexivity.
  - apply (proj2 (C7_update_is_all_or_nothing (E:=Sample.engine)
                    (R:=Sample.runtime)
                    {| TsConfigUpdateOptions.configPath := "/p/tsconfig.json";
                       TsConfigUpdateOptions.options :=
                         {["strict" := JBool false]} |}
                    Sample.project Sample.config
                    ltac:(vm_compute; reflexivity)));
      vm_compute; reflexivity.
Defined.

Lemma C10_update_witness :
  let E := Sample.engine in
  let R := Sample.runtime in
  let update :=
    {| TsConfigUpdateOptions.configPath := "/p/tsconfig.json";
       TsConfigUpdateOptions.options := {["strict" := JBool false]} |} in
  (ts.readConfigFile Sample.project (path_resolve "/p/tsconfig.json")
   = inl Sample.config
   /\ ConfigManager.isValid
        (ConfigManager.validateConfig
           (JObj (ConfigManager.mergeConfig Sample.config
                    (TsConfigUpdateOptions.options update)))) = true)
  /\ exists (written compilerOptions : jsobj) (msg : string),
       ConfigManager.updateTsConfig update Sample.project
       = (Resolved {| ConfigManager.success := true;
                      ConfigManager.message := msg;
                      ConfigManager.updatedConfig := Some (JObj written) |},
          <[path_resolve "/p/tsconfig.json"
              := File (JSON_stringify (JObj written))]> Sample.project)
       /\ (forall k, k <> "compilerOptions" ->
                     written !! k = Sample.config !! k)
       /\ written !! "compilerOptions" = Some (JObj compilerOptions)
       /\ (forall k,
             TsConfigUpdateOptions.options update !! k = None ->
             compilerOptions !! k
             = own_props (js_prop Sample.config "compilerOptions") !! k)
       /\ (forall k v,
             TsConfigUpdateOptions.options update !! k = Some v ->
             compilerOptions !! k = Some v).
Proof.
  split; [split; vm_compute; reflexivity|].
  apply (C10_update_preserves_other_keys (E:=Sample.engine)
           (R:=Sample.runtime)
           {| TsConfigUpdateOptions.configPath := "/p/tsconfig.json";
              TsConfigUpdateOptions.options := {["strict" := JBool false]} |}
           Sample.project Sample.config);
    vm_compute; reflexivity.
Defined.

(* ===================================================================== *)
(** * Further properties of the handlers *)

(** ** [findTsConfig] *)

Section find_config_spec.

Lemma ancestor_S n dir : ancestor (S n) dir = ancestor n (Path.dirname dir).
Proof. unfold ancestor. apply Nat.iter_succ_r. Qed.

Lemma findTsConfig_loop_spec fuel fs dir r :
  FileUtil.findTsConfig_loop fuel fs dir = Some r ->
  exists n,
    searched fs dir n
    /\ match r with
       | Some found =>
           ancestor n dir <> Path.dirname (ancestor n dir)
           /\ found = Path.join (ancestor n dir) "tsconfig.json"
           /\ FileUtil.fileExists fs found = true
       | None => ancestor n dir = Path.dirname (ancestor n dir)
       end.
Proof.
  revert dir. induction fuel as [|fuel IH]; intros dir; [done|].
  simpl. case_decide as Htop.
  - intros [= <-]. exists 0%nat. split; [intros m Hm; lia|done].
  - destruct (FileUtil.fileExists fs (Path.join dir "tsconfig.json")) eqn:Hex.
    + intros [= <-]. exists 0%nat. split; [intros m Hm; lia|done].
    + intros Hloop. destruct (IH _ Hloop) as (n & Hsearched & Hr).
      exists (S n). split.
      * intros [|m] Hm; [done|]. rewrite ancestor_S. apply Hsearched. lia.
      * rewrite ancestor_S. exact Hr.
Qed.

Lemma findTsConfig_loop_more fuel fuel' fs dir r :
  FileUtil.findTsConfig_loop fuel fs dir = Some r ->
  (fuel <= fuel')%nat ->
  FileUtil.findTsConfig_loop fuel' fs dir = Some r.
Proof.
  revert fuel' dir. induction fuel as [|fuel IH]; intros fuel' dir; [done|].
  intros Hloop Hle. destruct fuel' as [|fuel']; [lia|].
  simpl in *. case_decide; [done|].
  destruct (FileUtil.fileExists _ _); [done|]. apply IH; [done|lia].
Qed.

(** X1. A configuration file that [findTsConfig] returns is there, it is
    the [tsconfig.json] of the start directory or of one of its ancestors,
    and no directory nearer to the start has one. *)
Theorem X1_findTsConfig_returns_the_nearest
    (fs : filesystem) (startDir found : string) :
  FileUtil.findTsConfig fs startDir = Some found ->
  FileUtil.fileExists fs found = true
  /\ exists n,
       found = Path.join (ancestor n startDir) "tsconfig.json"
       /\ forall m, (m < n)%nat ->
            FileUtil.fileExists fs
              (Path.join (ancestor m startDir) "tsconfig.json") = false.
Proof.
  intros Hfound.
  pose proof (findTsConfig_loop_result fs startDir) as Hloop.
  rewrite Hfound in Hloop.
  destruct (findTsConfig_loop_spec _ _ _ _ Hloop) as (n & Hs & _ & -> & Hex).
  split; [done|]. exists n. split; [done|]. intros m Hm. by apply Hs.
Qed.

(** X2. The search stops before the top: started in a directory that is its
    own [path.dirname] (the root [/], or [.]), [findTsConfig] finds
    nothing, whatever the store holds. *)
Theorem X2_findTsConfig_skips_the_top (fs : filesystem) (startDir : string) :
  startDir = Path.dirname startDir ->
  FileUtil.findTsConfig fs startDir = None.
Proof.
  intros Htop. unfold FileUtil.findTsConfig.
  replace (String.length startDir + 2)%nat
    with (S (S (String.length startDir))) by lia.
  simpl. by rewrite decide_True.
Qed.

(** X3. When [findTsConfig] finds nothing, every directory from the start
    up to the first one that is its own [path.dirname] was searched, and
    none of them holds a [tsconfig.json]. *)
Theorem X3_findTsConfig_none_means_none
    (fs : filesystem) (startDir : string) :
  FileUtil.findTsConfig fs startDir = None ->
  exists n,
    ancestor n startDir = Path.dirname (ancestor n startDir)
    /\ forall m, (m < n)%nat ->
         ancestor m startDir <> Path.dirname (ancestor m startDir)
         /\ FileUtil.fileExists fs
              (Path.join (ancestor m startDir) "tsconfig.json") = false.
Proof.
  intros Hnone.
  pose proof (findTsConfig_loop_result fs startDir) as Hloop.
  rewrite Hnone in Hloop.
  destruct (findTsConfig_loop_spec _ _ _ _ Hloop) as (n & Hs & Htop).
  by exists n.
Qed.

(** X4. The loop of [findTsConfig] ends: after [length startDir + 2]
    rounds at the latest it has its result, and further rounds do not
    change it. *)
Theorem X4_findTsConfig_loop_ends
    (fs : filesystem) (startDir : string) (rounds : nat) :
  (String.length startDir + 2 <= rounds)%nat ->
  FileUtil.findTsConfig_loop rounds fs startDir
  = Some (FileUtil.findTsConfig fs startDir).
Proof.
  intros Hrounds.
  by apply (findTsConfig_loop_more _ _ _ _ _ (findTsConfig_loop_result _ _)).
Qed.

End find_config_spec.

Lemma X1_findTsConfig_witness :
  FileUtil.findTsConfig Sample.project "/p/src/deep" = Some "/p/tsconfig.json"
  /\ FileUtil.fileExists Sample.project "/p/tsconfig.json" = true
  /\ exists n,
       "/p/tsconfig.json"
       = Path.join (ancestor n "/p/src/deep") "tsconfig.json"
       /\ forall m, (m < n)%nat ->
            FileUtil.fileExists Sample.project
              (Path.join (ancestor m "/p/src/deep") "tsconfig.json") = false.
Proof.
  split; [vm_compute; reflexivity|].
  apply (X1_findTsConfig_returns_the_nearest Sample.project "/p/src/deep").
  vm_compute; reflexivity.
Defined.

Lemma X2_findTsConfig_witness :
  let fs : filesystem := {["/tsconfig.json" := File "{}"]} in
  ("/" = Path.dirname "/"
   /\ FileUtil.fileExists fs (Path.join "/" "tsconfig.json") = true)
  /\ FileUtil.findTsConfig fs "/" = None.
Proof.
  split; [split; vm_compute; reflexivity|].
  apply X2_findTsConfig_skips_the_top. vm_compute; reflexivity.
Defined.

Lemma X3_findTsConfig_witness :
  FileUtil.findTsConfig Sample.bare "/d" = None
  /\ exists n,
       ancestor n "/d" = Path.dirname (ancestor n "/d")
       /\ forall m, (m < n)%nat ->
            ancestor m "/d" <> Path.dirname (ancestor m "/d")
            /\ FileUtil.fileExists Sample.bare
                 (Path.join (ancestor m "/d") "tsconfig.json") = false.
Proof.
  split; [vm_compute; reflexivity|].
  apply (X3_findTsConfig_none_means_none Sample.bare "/d").
  vm_compute; reflexivity.
Defined.

Lemma X4_findTsConfig_witness :
  (String.length "/p/src" + 2 <= 100)%nat
  /\ FileUtil.findTsConfig_loop 100 Sample.project "/p/src"
     = Some (FileUtil.findTsConfig Sample.project "/p/src").
Proof.
  split; [vm_compute; lia|].
  apply X4_findTsConfig_loop_ends. vm_compute; lia.
Defined.

(** ** Output paths of TypeScript sources *)

Section output_of_sources.

Lemma ends_with_split suffix s :
  FileUtil.ends_with suffix s = true ->
  exists l, Path.chars s = l ++ Path.chars suffix.
Proof.
  unfold FileUtil.ends_with. intros H. apply bool_decide_eq_true in H.
  destruct H as [l Hl]. by exists l.
Qed.

Lemma drop_end_split n s l t :
  Path.chars s = l ++ t -> length t = n -> FileUtil.drop_end n s = Path.str l.
Proof.
  intros Hs Ht. unfold FileUtil.drop_end.
  rewrite <- chars_length, Hs, length_app.
  f_equal. apply take_app_length'. lia.
Qed.

(** What the replacement of the extension gives on the characters. *)
Lemma replace_ts_extension_chars s :
  FileUtil.isTypeScriptFile s = true ->
  exists l,
    Path.chars (FileUtil.replace_ts_extension s) = l ++ Path.chars ".js"
    /\ (Path.chars s = l ++ Path.chars ".ts"
        \/ Path.chars s = l ++ Path.chars ".tsx").
Proof.
  unfold FileUtil.isTypeScriptFile, FileUtil.replace_ts_extension.
  intros Hts.
  destruct (FileUtil.ends_with ".tsx" s) eqn:Hx.
  - destruct (ends_with_split _ _ Hx) as [l Hl]. exists l.
    rewrite chars_app, (drop_end_split 4 s l _ Hl eq_refl), chars_str. auto.
  - rewrite orb_false_r in Hts. rewrite Hts.
    destruct (ends_with_split _ _ Hts) as [l Hl]. exists l.
    rewrite chars_app, (drop_end_split 3 s l _ Hl eq_refl), chars_str. auto.
Qed.

Lemma js_is_not_typescript l :
  FileUtil.isTypeScriptFile (Path.str (l ++ Path.chars ".js")) = false.
Proof.
  unfold FileUtil.isTypeScriptFile, FileUtil.ends_with.
  rewrite chars_str. apply orb_false_intro; apply bool_decide_eq_false.
  - intros [k Hk].
    apply app_inj_2 in Hk as [_ Hk]; [discriminate Hk|done].
  - intros [k Hk].
    destruct l as [|c l _] using rev_ind.
    + apply (f_equal length) in Hk. rewrite !length_app in Hk.
      simpl in Hk. lia.
    + rewrite <- app_assoc in Hk.
      apply app_inj_2 in Hk as [_ Hk]; [|done].
      simpl in Hk. discriminate Hk.
Qed.

(** X5. For a source that ends in [.ts] or [.tsx], with no output
    directory, [getOutputPath] gives a path that is not the input, ends in
    [.js] and is not a TypeScript file any more: the source is not written
    over, and a second application changes nothing. *)
Theorem X5_getOutputPath_of_a_source (inputPath : string) :
  FileUtil.isTypeScriptFile inputPath = true ->
  let outputPath := FileUtil.getOutputPath inputPath None in
  outputPath <> inputPath
  /\ FileUtil.ends_with ".js" outputPath = true
  /\ FileUtil.isTypeScriptFile outputPath = false
  /\ FileUtil.getOutputPath outputPath None = outputPath.
Proof.
  intros Hts. cbn zeta. unfold FileUtil.getOutputPath. simpl.
  destruct (replace_ts_extension_chars _ Hts) as (l & Hout & Hin).
  assert (FileUtil.replace_ts_extension inputPath
          = Path.str (l ++ Path.chars ".js")) as Heq.
  { by rewrite <- Hout, str_chars. }
  assert (FileUtil.isTypeScriptFile (FileUtil.replace_ts_extension inputPath)
          = false) as Hjs.
  { rewrite Heq. apply js_is_not_typescript. }
  split; [|split; [|split; [done|]]].
  - intros Hsame. rewrite Hsame in Hout. destruct Hin as [Hin|Hin].
    + rewrite Hin in Hout. apply app_inv_head in Hout. discriminate Hout.
    + rewrite Hin in Hout. apply (f_equal length) in Hout.
      rewrite !length_app in Hout. simpl in Hout. lia.
  - unfold FileUtil.ends_with. apply bool_decide_eq_true.
    rewrite Hout. by exists l.
  - unfold FileUtil.isTypeScriptFile in Hjs.
    apply orb_false_elim in Hjs as [H1 H2].
    unfold FileUtil.replace_ts_extension at 1. by rewrite H1, H2.
Qed.

End output_of_sources.

Lemma X5_getOutputPath_witness :
  FileUtil.isTypeScriptFile "/p/src/app.test.tsx" = true
  /\ let outputPath := FileUtil.getOutputPath "/p/src/app.test.tsx" None in
     outputPath <> "/p/src/app.test.tsx"
     /\ FileUtil.ends_with ".js" outputPath = true
     /\ FileUtil.isTypeScriptFile outputPath = false
     /\ FileUtil.getOutputPath outputPath None = outputPath.
Proof.
  split; [vm_compute; reflexivity|].
  apply (X5_getOutputPath_of_a_source "/p/src/app.test.tsx").
  vm_compute; reflexivity.
Defined.

(** ** Normalized diagnostics and their summary *)

Section diagnostics_more.
Context {E : ts.Engine}.

(** X6. The summary of two sequences put together is the sum of their
    summaries, counter by counter: what is counted does not depend on the
    order or the grouping of the diagnostics. *)
Theorem X6_getDiagnosticSummary_is_additive (ds1 ds2 : list ts.Diagnostic) :
  let s := Diagnostics.getDiagnosticSummary (ds1 ++ ds2) in
  let s1 := Diagnostics.getDiagnosticSummary ds1 in
  let s2 := Diagnostics.getDiagnosticSummary ds2 in
  errorCount s = (errorCount s1 + errorCount s2)%nat
  /\ warningCount s = (warningCount s1 + warningCount s2)%nat
  /\ infoCount s = (infoCount s1 + infoCount s2)%nat.
Proof.
  cbn zeta.
  destruct (getDiagnosticSummary_categories (ds1 ++ ds2)) as (He & Hw & Hi).
  destruct (getDiagnosticSummary_categories ds1) as (He1 & Hw1 & Hi1).
  destruct (getDiagnosticSummary_categories ds2) as (He2 & Hw2 & Hi2).
  cbn zeta in *. rewrite He, Hw, Hi, He1, Hw1, Hi1, He2, Hw2, Hi2.
  unfold category_count. rewrite !filter_app, !length_app. lia.
Qed.

(** X7. A record of [formatDiagnostic] has its position either unknown,
    line and column both 0, which is the case exactly when the diagnostic
    has no file or no start, or 1-based, line and column both at least 1. *)
Theorem X7_formatDiagnostic_position (d : ts.Diagnostic) :
  let n := Diagnostics.formatDiagnostic d in
  (line n = 0%nat <-> ts.file d = None \/ ts.start d = None)
  /\ (line n = 0%nat <-> column n = 0%nat)
  /\ (line n <> 0%nat -> (1 <= line n)%nat /\ (1 <= column n)%nat).
Proof.
  cbn zeta. unfold Diagnostics.formatDiagnostic, Diagnostics.position. simpl.
  destruct (ts.file d) as [f|], (ts.start d) as [st|]; simpl;
    repeat split; intros; try lia; auto; try (destruct H; discriminate).
Qed.

End diagnostics_more.

(** ** Results of the type check *)

Section check_results.
Context {E : ts.Engine} {R : Runtime}.

Lemma normalized_count_none (s : Severity) ds :
  normalized_count s ds = 0%nat
  <-> Forall (fun n => severity n <> s) (map Diagnostics.formatDiagnostic ds).
Proof.
  unfold normalized_count. induction ds as [|d ds IH]; simpl.
  - split; [constructor|done].
  - rewrite filter_cons, Forall_cons. case_decide as Hd; simpl.
    + split; [lia|]. intros [Hne _]. contradiction.
    + rewrite IH. tauto.
Qed.

Lemma typeCheckResult_success ds :
  Forall (fun d => known_category (ts.category d)) ds ->
  TypeCheckResult.success (TypeChecker.typeCheckResult ds) = true
  <-> Forall (fun n => severity n <> error)
        (TypeCheckResult.diagnostics (TypeChecker.typeCheckResult ds)).
Proof.
  intros Hknown. unfold TypeChecker.typeCheckResult. simpl.
  rewrite bool_decide_eq_true, <- normalized_count_none.
  destruct (getDiagnosticSummary_categories ds) as (He & _).
  destruct (normalized_count_categories ds) as (Ne & _).
  cbn zeta in He. rewrite He, Ne, (foreign_count_known ds Hknown). lia.
Qed.

(** X8. [checkSingleFile] always resolves. When the categories the engine
    reports are of the enum, its result has [success] true exactly when none
    of its diagnostics has severity error, and the three counters of its
    summary add up to the number of its diagnostics. *)
Theorem X8_checkSingleFile_success
    (options : TypeCheckOptions.t) (fs : filesystem) :
  Forall (fun d => known_category (ts.category d))
    (ts.getPreEmitDiagnostics
       [path_resolve (TypeCheckOptions.filePath options)]
       (TypeChecker.effectiveOptions options fs
          (path_resolve (TypeCheckOptions.filePath options))) fs) ->
  exists result,
    TypeChecker.checkSingleFile options fs = Resolved result
    /\ (TypeCheckResult.success result = true
        <-> Forall (fun n => severity n <> error)
              (TypeCheckResult.diagnostics result))
    /\ (errorCount (TypeCheckResult.summary result)
        + warningCount (TypeCheckResult.summary result)
        + infoCount (TypeCheckResult.summary result))%nat
       = length (TypeCheckResult.diagnostics result).
Proof.
  intros Hknown. eexists. split; [reflexivity|].
  split; [by apply typeCheckResult_success|].
  unfold TypeChecker.typeCheckResult. simpl. rewrite length_map.
  set (ds := ts.getPreEmitDiagnostics _ _ _) in *.
  pose proof (getDiagnosticSummary_total ds) as Ht.
  cbn zeta in Ht. rewrite <- Ht, (foreign_count_known _ Hknown). lia.
Qed.

(** X9. When the configuration of the project parses with errors,
    [checkProject] returns them, normalized, with [success] false, whatever
    their categories; the request fields are not looked at. *)
Theorem X9_checkProject_configuration_errors
    (options : TypeCheckOptions.t) (fs : filesystem) (config : jsobj) :
  let projectPath := path_resolve (TypeCheckOptions.filePath options) in
  let parsedConfig := ts.parseJsonConfigFileContent config fs projectPath in
  ts.readConfigFile fs (Path.join projectPath "tsconfig.json") = inl config ->
  ts.errors parsedConfig <> [] ->
  TypeChecker.checkProject options fs
  = Resolved
      {| TypeCheckResult.success := false;
         TypeCheckResult.diagnostics :=
           map Diagnostics.formatDiagnostic (ts.errors parsedConfig);
         TypeCheckResult.summary :=
           Diagnostics.getDiagnosticSummary (ts.errors parsedConfig) |}.
Proof.
  intros projectPath parsedConfig Hread Herrors.
  destruct (readConfigFile_inl _ _ _ Hread) as [content Hcontent].
  unfold TypeChecker.checkProject. fold projectPath.
  unfold FileUtil.fileExists. rewrite bool_decide_eq_true_2 by eauto.
  change (negb true) with false. cbv iota. rewrite Hread. fold parsedConfig.
  by destruct (ts.errors parsedConfig).
Qed.

(** X10. [checkProject] changes two options of the parsed configuration at
    most: [strict], to the value of the request when it has one, and
    [skipLibCheck], to the negation of [includeDeclarations] when the
    request has one. Every other option reaches the engine as parsed. *)
Theorem X10_checkProject_overrides
    (options : TypeCheckOptions.t) (parsed : jsobj) :
  let effective := TypeChecker.projectOptions options parsed in
  (forall k, k <> "strict" -> k <> "skipLibCheck" ->
             effective !! k = parsed !! k)
  /\ effective !! "strict"
     = match TypeCheckOptions.strict options with
       | Some b => Some (JBool b)
       | None => parsed !! "strict"
       end
  /\ effective !! "skipLibCheck"
     = match TypeCheckOptions.includeDeclarations options with
       | Some b => Some (JBool (negb b))
       | None => parsed !! "skipLibCheck"
       end.
Proof.
  cbn zeta. unfold TypeChecker.projectOptions.
  destruct (TypeCheckOptions.strict options),
    (TypeCheckOptions.includeDeclarations options);
    repeat split; intros; by simplify_map_eq.
Qed.

End check_results.

Lemma X8_checkSingleFile_witness :
  let E := Scenario.noisy in
  let R := Sample.runtime in
  let options := Sample.checkRequest "/p/a.ts" None in
  Forall (fun d => known_category (ts.category d))
    (ts.getPreEmitDiagnostics
       [path_resolve (TypeCheckOptions.filePath options)]
       (TypeChecker.effectiveOptions options Sample.project
          (path_resolve (TypeCheckOptions.filePath options))) Sample.project)
  /\ exists result,
       TypeChecker.checkSingleFile options Sample.project = Resolved result
       /\ (TypeCheckResult.success result = true
           <-> Forall (fun n => severity n <> error)
                 (TypeCheckResult.diagnostics result))
       /\ (errorCount (TypeCheckResult.summary result)
           + warningCount (TypeCheckResult.summary result)
           + infoCount (TypeCheckResult.summary result))%nat
          = length (TypeCheckResult.diagnostics result).
Proof.
  assert (Forall (fun d => known_category (ts.category d))
            (ts.getPreEmitDiagnostics (Engine:=Scenario.noisy)
               [path_resolve (R:=Sample.runtime) "/p/a.ts"]
               (TypeChecker.effectiveOptions (E:=Scenario.noisy)
                  (Sample.checkRequest "/p/a.ts" None) Sample.project
                  (path_resolve (R:=Sample.runtime) "/p/a.ts"))
               Sample.project)) as Hknown.
  { repeat constructor; vm_compute; tauto. }
  split; [exact Hknown|].
  exact (X8_checkSingleFile_success (E:=Scenario.noisy) (R:=Sample.runtime)
           (Sample.checkRequest "/p/a.ts" None) Sample.project Hknown).
Defined.

Lemma X9_checkProject_witness :
  let E := Scenario.noisy in
  let R := Sample.runtime in
  let fs : filesystem := <["/q/tsconfig.json" := File "{broken}"]> Sample.bare in
  let options := Sample.checkRequest "/q" (Some true) in
  let config : jsobj := {["broken" := JBool true]} in
  (ts.readConfigFile fs (Path.join (path_resolve "/q") "tsconfig.json")
   = inl config
   /\ ts.errors (ts.parseJsonConfigFileContent config fs (path_resolve "/q"))
      <> [])
  /\ TypeChecker.checkProject options fs
     = Resolved
         {| TypeCheckResult.success := false;
            TypeCheckResult.diagnostics :=
              map Diagnostics.formatDiagnostic
                (ts.errors (ts.parseJsonConfigFileContent config fs
                              (path_resolve "/q")));
            TypeCheckResult.summary :=
              Diagnostics.getDiagnosticSummary
                (ts.errors (ts.parseJsonConfigFileContent config fs
                              (path_resolve "/q"))) |}.
Proof.
  split; [split; [vm_compute; reflexivity|vm_compute; discriminate]|].
  apply (X9_checkProject_configuration_errors (E:=Scenario.noisy)
           (R:=Sample.runtime) (Sample.checkRequest "/q" (Some true))
           (<["/q/tsconfig.json" := File "{broken}"]> Sample.bare)
           {["broken" := JBool true]});
    [vm_compute; reflexivity|vm_compute; discriminate].
Defined.

(** ** Creating, reading and validating a configuration *)

Section config_more.
Context {E : ts.Engine} {R : Runtime}.

Lemma fileExists_false fs p :
  FileUtil.fileExists fs p = false -> fs !! p = None.
Proof.
  unfold FileUtil.fileExists. intros H. apply bool_decide_eq_false in H.
  destruct (fs !! p); [|done]. exfalso. apply H. by eauto.
Qed.

Lemma js_get_object (o : jsobj) k :
  ConfigManager.js_get (JObj o) k = default JUndefined (o !! k).
Proof. reflexivity. Qed.

(** The validator reads [compilerOptions] through the recognized options
    only. *)
Lemma validate_compilerOptions_ext a b :
  (forall k, k ∈ recognizedOptions ->
             ConfigManager.js_get a k = ConfigManager.js_get b k) ->
  ConfigManager.validate_compilerOptions a
  = ConfigManager.validate_compilerOptions b.
Proof.
  intros Hsame. unfold ConfigManager.validate_compilerOptions.
  assert (forall k, k ∈ recognizedOptions ->
                    ConfigManager.js_get a k = ConfigManager.js_get b k)
    as H by done.
  rewrite (H "target"), (H "module"), (H "moduleResolution")
    by (vm_compute; set_solver).
  f_equal. f_equal. f_equal. simpl.
  rewrite (H "strict"), (H "esModuleInterop"), (H "skipLibCheck"),
    (H "forceConsistentCasingInFileNames"), (H "declaration"),
    (H "sourceMap"), (H "outDir"), (H "rootDir"), (H "baseUrl")
    by (vm_compute; set_solver).
  reflexivity.
Qed.

Lemma validate_compilerOptions_module co m :
  ConfigManager.js_get co "module" = JStr m ->
  m <> "" ->
  m ∉ ConfigManager.validModules ->
  ConfigManager.validate_compilerOptions co <> [].
Proof.
  intros Hm Hne Hnot. unfold ConfigManager.validate_compilerOptions.
  rewrite Hm. simpl.
  rewrite (bool_decide_eq_false_2 (m = "")) by done.
  rewrite (bool_decide_eq_false_2 (m ∈ ConfigManager.validModules)) by done.
  simpl. intros Hnil. apply app_eq_nil in Hnil as [_ Hnil]. discriminate Hnil.
Qed.

Lemma validateConfig_object (config : jsobj) :
  ConfigManager.validateConfig (JObj config)
  = let compilerOptions := js_prop config "compilerOptions" in
    let errors :=
      (if truthy compilerOptions then
         if negb (bool_decide (typeof compilerOptions = "object"))
         then ["compilerOptions must be an object"]
         else ConfigManager.validate_compilerOptions compilerOptions
       else [])
      ++ ConfigManager.validate_globs "include" (js_prop config "include")
      ++ ConfigManager.validate_globs "exclude" (js_prop config "exclude") in
    {| ConfigManager.isValid := bool_decide (length errors = 0%nat);
       ConfigManager.errors := errors |}.
Proof. reflexivity. Qed.

(** X11. [createTsConfig] never writes over anything: whatever was in the
    store before the call is there after it, for any path and options. On a
    directory that has a [tsconfig.json] it returns [success: false] and
    the store is the one before the call. *)
Theorem X11_createTsConfig_never_overwrites
    (projectPath : string) (options : option jsobj) (fs : filesystem) :
  let configPath := Path.join (path_resolve projectPath) "tsconfig.json" in
  let run := ConfigManager.createTsConfig projectPath options fs in
  (forall p node, fs !! p = Some node -> run.2 !! p = Some node)
  /\ (FileUtil.fileExists fs configPath = true ->
      run = (Resolved
               {| ConfigManager.CreateResult.success := false;
                  ConfigManager.CreateResult.message :=
                    "tsconfig.json already exists at this location";
                  ConfigManager.CreateResult.configPath := None |}, fs)).
Proof.
  intros configPath run. subst run. unfold ConfigManager.createTsConfig.
  fold configPath. split.
  - intros p node Hp.
    destruct (FileUtil.fileExists fs configPath) eqn:Hex; [done|].
    apply fileExists_false in Hex. unfold FileUtil.writeFile.
    rewrite Hex. simpl. rewrite lookup_insert_ne; [done|].
    intros <-. congruence.
  - by intros ->.
Qed.

(** X12. In a directory that is there and has no configuration,
    [createTsConfig] succeeds for any options, without validating them, and
    writes one file: the defaults with the options of the caller on top. In
    it every option of the caller has the caller's value, every other
    option of [compilerOptions] its default, and [include] and [exclude] are
    the fixed lists. *)
Theorem X12_createTsConfig_writes_defaults_under_options
    (projectPath : string) (options : jsobj) (fs : filesystem) :
  let configPath := Path.join (path_resolve projectPath) "tsconfig.json" in
  let written := ConfigManager.defaultConfig options in
  writes_in_place fs configPath ->
  FileUtil.fileExists fs configPath = false ->
  ConfigManager.createTsConfig projectPath (Some options) fs
  = (Resolved
       {| ConfigManager.CreateResult.success := true;
          ConfigManager.CreateResult.message :=
            "TypeScript configuration created successfully";
          ConfigManager.CreateResult.configPath := Some configPath |},
     <[configPath := File (JSON_stringify (JObj written))]> fs)
  /\ (forall k v,
        options !! k = Some v ->
        ConfigManager.js_get (js_prop written "compilerOptions") k = v)
  /\ (forall k,
        options !! k = None ->
        ConfigManager.js_get (js_prop written "compilerOptions") k
        = ConfigManager.js_get
            (js_prop (ConfigManager.defaultConfig ∅) "compilerOptions") k)
  /\ written !! "include" = Some (JArr [JStr "src/**/*"])
  /\ written !! "exclude" = Some (JArr [JStr "node_modules"; JStr "dist"]).
Proof.
  intros configPath written _ Hfresh. split; [|split; [|split; [|done]]].
  - unfold ConfigManager.createTsConfig. fold configPath. rewrite Hfresh.
    unfold FileUtil.writeFile. by rewrite (fileExists_false _ _ Hfresh).
  - intros k v Hk. subst written.
    change (js_prop (ConfigManager.defaultConfig options) "compilerOptions")
      with (JObj (obj_assign
                    (own_props (js_prop (ConfigManager.defaultConfig ∅)
                                  "compilerOptions")) options)).
    by rewrite js_get_object, obj_assign_lookup, Hk.
  - intros k Hk. subst written.
    change (js_prop (ConfigManager.defaultConfig options) "compilerOptions")
      with (JObj (obj_assign
                    (own_props (js_prop (ConfigManager.defaultConfig ∅)
                                  "compilerOptions")) options)).
    rewrite js_get_object, obj_assign_lookup, Hk. reflexivity.
Qed.

(** X13. A configuration as [createTsConfig] writes it cannot be updated
    as long as [module] is left alone: its default ["commonjs"] is not in
    the list of the validator, so [updateTsConfig] fails the validation and
    leaves the file. *)
Theorem X13_a_created_configuration_fails_the_update
    (created : jsobj) (options : TsConfigUpdateOptions.t) (fs : filesystem) :
  ts.readConfigFile fs
    (path_resolve (TsConfigUpdateOptions.configPath options))
  = inl (ConfigManager.defaultConfig created) ->
  created !! "module" = None ->
  TsConfigUpdateOptions.options options !! "module" = None ->
  exists msg,
    ConfigManager.updateTsConfig options fs
    = (Resolved {| ConfigManager.success := false;
                   ConfigManager.message := msg;
                   ConfigManager.updatedConfig := None |}, fs).
Proof.
  intros Hread Hcreated Hupdate.
  assert (ConfigManager.isValid
            (ConfigManager.validateConfig
               (JObj (ConfigManager.mergeConfig
                        (ConfigManager.defaultConfig created)
                        (TsConfigUpdateOptions.options options)))) = false)
    as Hinvalid.
  { unfold ConfigManager.validateConfig.
    rewrite js_get_merged_compilerOptions.
    set (co := obj_assign _ _).
    assert (ConfigManager.js_get (JObj co) "module" = JStr "commonjs") as Hm.
    { rewrite js_get_object. subst co.
      rewrite obj_assign_lookup, Hupdate.
      change (js_prop (ConfigManager.defaultConfig created) "compilerOptions")
        with (JObj (obj_assign
                      (own_props (js_prop (ConfigManager.defaultConfig ∅)
                                    "compilerOptions")) created)).
      simpl own_props. by rewrite obj_assign_lookup, Hcreated. }
    simpl. apply bool_decide_eq_false. intros Hlen.
    apply length_zero_iff_nil, app_eq_nil in Hlen as [Hco _].
    revert Hco.
    apply (validate_compilerOptions_module _ "commonjs"); [done|done|].
    compute_done. }
  eexists. by apply updateTsConfig_invalid.
Qed.

(** X14. The validator passes over what it does not know: adding to
    [compilerOptions] an option outside its list, or to the configuration a
    key other than [compilerOptions], [include] and [exclude], changes
    neither the verdict nor the messages. *)
Theorem X14_validateConfig_ignores_unknown_keys
    (config compilerOptions : jsobj) (k : string) (v : jsval) :
  (k ∉ recognizedOptions ->
   ConfigManager.validateConfig
     (JObj (<["compilerOptions" := JObj (<[k := v]> compilerOptions)]> config))
   = ConfigManager.validateConfig
       (JObj (<["compilerOptions" := JObj compilerOptions]> config)))
  /\ (k ∉ ["compilerOptions"; "include"; "exclude"] ->
      ConfigManager.validateConfig (JObj (<[k := v]> config))
      = ConfigManager.validateConfig (JObj config)).
Proof.
  split; intros Hk.
  - rewrite !validateConfig_object. cbn zeta. unfold js_prop.
    rewrite !lookup_insert_eq, !lookup_insert_ne by done. simpl.
    rewrite (validate_compilerOptions_ext (JObj (<[k:=v]> compilerOptions))
               (JObj compilerOptions)); [done|].
    intros k' Hk'. rewrite !js_get_object, lookup_insert_ne; [done|].
    intros ->. contradiction.
  - rewrite !validateConfig_object. cbn zeta. unfold js_prop.
    rewrite !not_elem_of_cons in Hk. destruct Hk as (? & ? & ? & _).
    by rewrite !lookup_insert_ne by done.
Qed.

(** X15. What a configuration that passes the validator guarantees for an
    object [compilerOptions]: a [target], [module] or [moduleResolution]
    that is truthy is a string of the list for it, each of the six boolean
    options is a boolean or absent, each of the three path options a string
    or absent. *)
Theorem X15_validateConfig_is_sound (config compilerOptions : jsobj) :
  config !! "compilerOptions" = Some (JObj compilerOptions) ->
  ConfigManager.isValid (ConfigManager.validateConfig (JObj config)) = true ->
  (forall v, compilerOptions !! "target" = Some v -> truthy v = true ->
             exists s, v = JStr s /\ s ∈ ConfigManager.validTargets)
  /\ (forall v, compilerOptions !! "module" = Some v -> truthy v = true ->
                exists s, v = JStr s /\ s ∈ ConfigManager.validModules)
  /\ (forall v, compilerOptions !! "moduleResolution" = Some v ->
                truthy v = true ->
                exists s, v = JStr s /\ s ∈ ConfigManager.validResolutions)
  /\ (forall k v, k ∈ ConfigManager.booleanOptions ->
                  compilerOptions !! k = Some v ->
                  v = JUndefined \/ exists b, v = JBool b)
  /\ (forall k v, k ∈ ConfigManager.stringOptions ->
                  compilerOptions !! k = Some v ->
                  v = JUndefined \/ exists s, v = JStr s).
Proof.
  intros Hco. rewrite validateConfig_object. cbn zeta.
  assert (js_prop config "compilerOptions" = JObj compilerOptions) as ->
    by (unfold js_prop; by rewrite Hco).
  simpl. intros Hvalid. apply bool_decide_eq_true, length_zero_iff_nil in Hvalid.
  apply app_eq_nil in Hvalid as [Hvalid _].
  unfold ConfigManager.validate_compilerOptions in Hvalid.
  apply app_eq_nil in Hvalid as [Ht Hvalid].
  apply app_eq_nil in Hvalid as [Hm Hvalid].
  apply app_eq_nil in Hvalid as [Hr Hvalid].
  apply app_eq_nil in Hvalid as [Hb Hs].
  assert (forall (l : list string) key v (msg : list string),
            compilerOptions !! key = Some v -> truthy v = true ->
            (if truthy (ConfigManager.js_get (JObj compilerOptions) key)
                && negb (ConfigManager.includes l
                           (ConfigManager.js_get (JObj compilerOptions) key))
             then msg else []) = [] ->
            msg <> [] ->
            exists s, v = JStr s /\ s ∈ l) as Henum.
  { intros l key v msg Hv Htruthy. rewrite js_get_object, Hv. simpl.
    rewrite Htruthy. simpl.
    destruct v; simpl; try congruence.
    case_bool_decide; [eauto|simpl; congruence]. }
  split; [|split; [|split; [|split]]].
  - intros v Hv Htruthy. by apply (Henum _ "target" v _ Hv Htruthy Ht).
  - intros v Hv Htruthy. by apply (Henum _ "module" v _ Hv Htruthy Hm).
  - intros v Hv Htruthy.
    by apply (Henum _ "moduleResolution" v _ Hv Htruthy Hr).
  - intros k v Hk Hv.
    assert (forall x, x ∈ ConfigManager.booleanOptions ->
              (let v := ConfigManager.js_get (JObj compilerOptions) x in
               if negb (ConfigManager.is_undefined v)
                  && negb (bool_decide (typeof v = "boolean"))
               then [x +:+ " must be a boolean value"] else []) = [])
      as Hall.
    { intros x Hx. apply list_elem_of_In in Hx.
      destruct (List.in_split _ _ Hx) as (l1 & l2 & Hsplit).
      rewrite Hsplit, flat_map_app in Hb.
      apply app_eq_nil in Hb as [_ Hb]. simpl in Hb.
      by apply app_eq_nil in Hb as [Hb _]. }
    specialize (Hall k Hk). cbn zeta in Hall.
    rewrite js_get_object, Hv in Hall. simpl in Hall.
    destruct v; simpl in Hall; eauto; discriminate.
  - intros k v Hk Hv.
    assert (forall x, x ∈ ConfigManager.stringOptions ->
              (let v := ConfigManager.js_get (JObj compilerOptions) x in
               if negb (ConfigManager.is_undefined v)
                  && negb (bool_decide (typeof v = "string"))
               then [x +:+ " must be a string value"] else []) = [])
      as Hall.
    { intros x Hx. apply list_elem_of_In in Hx.
      destruct (List.in_split _ _ Hx) as (l1 & l2 & Hsplit).
      rewrite Hsplit, flat_map_app in Hs.
      apply app_eq_nil in Hs as [_ Hs]. simpl in Hs.
      by apply app_eq_nil in Hs as [Hs _]. }
    specialize (Hall k Hk). cbn zeta in Hall.
    rewrite js_get_object, Hv in Hall. simpl in Hall.
    destruct v; simpl in Hall; eauto; discriminate.
Qed.

End config_more.

Lemma X11_createTsConfig_witness :
  let R := Sample.runtime in
  let options : option jsobj := Some {["target" := JStr "ES5"]} in
  FileUtil.fileExists Sample.project
    (Path.join (path_resolve "/p") "tsconfig.json") = true
  /\ ConfigManager.createTsConfig "/p" options Sample.project
     = (Resolved
          {| ConfigManager.CreateResult.success := false;
             ConfigManager.CreateResult.message :=
               "tsconfig.json already exists at this location";
             ConfigManager.CreateResult.configPath := None |},
        Sample.project)
  /\ (ConfigManager.createTsConfig "/d" options Sample.bare).2 !! "/d/b.ts"
     = Some (File "export {};").
Proof.
  split; [vm_compute; reflexivity|]. split.
  - apply (X11_createTsConfig_never_overwrites (R:=Sample.runtime) "/p"
             (Some {["target" := JStr "ES5"]}) Sample.project).
    vm_compute; reflexivity.
  - apply (X11_createTsConfig_never_overwrites (R:=Sample.runtime) "/d"
             (Some {["target" := JStr "ES5"]}) Sample.bare).
    vm_compute; reflexivity.
Defined.

Lemma X12_createTsConfig_witness :
  let R := Sample.runtime in
  let options : jsobj :=
    {["target" := JStr "ES1999"; "lib" := JArr [JStr "DOM"]]} in
  let written := ConfigManager.defaultConfig options in
  (writes_in_place Sample.bare (Path.join (path_resolve "/d") "tsconfig.json")
   /\ FileUtil.fileExists Sample.bare
        (Path.join (path_resolve "/d") "tsconfig.json") = false)
  /\ ConfigManager.createTsConfig "/d" (Some options) Sample.bare
     = (Resolved
          {| ConfigManager.CreateResult.success := true;
             ConfigManager.CreateResult.message :=
               "TypeScript configuration created successfully";
             ConfigManager.CreateResult.configPath :=
               Some "/d/tsconfig.json" |},
        <["/d/tsconfig.json" := File (JSON_stringify (JObj written))]>
          Sample.bare)
  /\ ConfigManager.js_get (js_prop written "compilerOptions") "target"
     = JStr "ES1999"
  /\ ConfigManager.js_get (js_prop written "compilerOptions") "strict"
     = JBool true.
Proof.
  assert (writes_in_place (R:=Sample.runtime) Sample.bare
            (Path.join (path_resolve (R:=Sample.runtime) "/d")
               "tsconfig.json")) as Hplace
    by (split; vm_compute; reflexivity).
  assert (FileUtil.fileExists Sample.bare
            (Path.join (path_resolve (R:=Sample.runtime) "/d")
               "tsconfig.json") = false) as Hfresh
    by (vm_compute; reflexivity).
  destruct (X12_createTsConfig_writes_defaults_under_options
              (R:=Sample.runtime) "/d"
              {["target" := JStr "ES1999"; "lib" := JArr [JStr "DOM"]]}
              Sample.bare Hplace Hfresh)
    as (Hcall & Hgiven & Hothers & _).
  split; [by split|].
  split; [exact Hcall|]. split.
  - apply Hgiven. vm_compute; reflexivity.
  - rewrite Hothers; vm_compute; reflexivity.
Defined.

Lemma X13_created_configuration_witness :
  let E := Scenario.rereading in
  let R := Sample.runtime in
  let fs := snd (ConfigManager.createTsConfig "/d" None Sample.bare) in
  let update :=
    {| TsConfigUpdateOptions.configPath := "/d/tsconfig.json";
       TsConfigUpdateOptions.options := {["strict" := JBool false]} |} in
  (ts.readConfigFile fs (path_resolve "/d/tsconfig.json")
   = inl (ConfigManager.defaultConfig ∅)
   /\ (∅ : jsobj) !! "module" = None
   /\ TsConfigUpdateOptions.options update !! "module" = None)
  /\ exists msg,
       ConfigManager.updateTsConfig update fs
       = (Resolved {| ConfigManager.success := false;
                      ConfigManager.message := msg;
                      ConfigManager.updatedConfig := None |}, fs).
Proof.
  split; [repeat split; vm_compute; reflexivity|].
  apply (X13_a_created_configuration_fails_the_update (E:=Scenario.rereading)
           (R:=Sample.runtime) ∅
           {| TsConfigUpdateOptions.configPath := "/d/tsconfig.json";
              TsConfigUpdateOptions.options := {["strict" := JBool false]} |}
           (snd (ConfigManager.createTsConfig (R:=Sample.runtime) "/d" None
                   Sample.bare)));
    vm_compute; reflexivity.
Defined.

Lemma X14_validateConfig_witness :
  let compilerOptions : jsobj := {["target" := JStr "ES5"]} in
  (("jsx" ∉ recognizedOptions)
   /\ ("files" ∉ ["compilerOptions"; "include"; "exclude"]))
  /\ ConfigManager.validateConfig
       (JObj (<["compilerOptions" :=
                  JObj (<["jsx" := JNum 7]> compilerOptions)]> Sample.config))
     = ConfigManager.validateConfig
         (JObj (<["compilerOptions" := JObj compilerOptions]> Sample.config))
  /\ ConfigManager.validateConfig (JObj (<["files" := JNum 7]> Sample.config))
     = ConfigManager.validateConfig (JObj Sample.config).
Proof.
  split; [split; compute_done|].
  destruct (X14_validateConfig_ignores_unknown_keys Sample.config
              {["target" := JStr "ES5"]} "jsx" (JNum 7)) as [Hoption _].
  destruct (X14_validateConfig_ignores_unknown_keys Sample.config
              {["target" := JStr "ES5"]} "files" (JNum 7)) as [_ Hkey].
  split; [apply Hoption|apply Hkey]; compute_done.
Defined.

Lemma X15_validateConfig_witness :
  let compilerOptions : jsobj :=
    list_to_map [("target", JStr "ES5"); ("strict", JBool true);
                 ("sourceMap", JBool false)] in
  (Sample.config !! "compilerOptions" = Some (JObj compilerOptions)
   /\ ConfigManager.isValid (ConfigManager.validateConfig (JObj Sample.config))
      = true)
  /\ (exists s, JStr "ES5" = JStr s /\ s ∈ ConfigManager.validTargets)
  /\ (JBool true = JUndefined \/ exists b, JBool true = JBool b).
Proof.
  pose (compilerOptions :=
          (list_to_map [("target", JStr "ES5"); ("strict", JBool true);
                        ("sourceMap", JBool false)] : jsobj)).
  assert (Sample.config !! "compilerOptions" = Some (JObj compilerOptions))
    as Hco by (vm_compute; reflexivity).
  assert (ConfigManager.isValid
            (ConfigManager.validateConfig (JObj Sample.config)) = true)
    as Hvalid by (vm_compute; reflexivity).
  destruct (X15_validateConfig_is_sound Sample.config compilerOptions
              Hco Hvalid) as (Htarget & _ & _ & Hbool & _).
  split; [split; vm_compute; reflexivity|]. split.
  - apply Htarget; vm_compute; reflexivity.
  - apply (Hbool "strict"); [compute_done|vm_compute; reflexivity].
Defined.

Section config_calls.
Context {E : ts.Engine} {R : Runtime}.

Lemma mergeConfig_twice config first second :
  ConfigManager.mergeConfig (ConfigManager.mergeConfig config first) second
  = ConfigManager.mergeConfig config (obj_assign first second).
Proof.
  unfold ConfigManager.mergeConfig at 1.
  unfold js_prop at 1. rewrite mergeConfig_compilerOptions. simpl.
  unfold ConfigManager.mergeConfig. rewrite insert_insert_eq.
  unfold obj_assign. by rewrite (assoc_L (∪)).
Qed.

(** X16. Two updates in a row are one update with both sets of options,
    those of the second on top: when the first is written and the engine
    reads it back as written, the second update gives the result and the
    store that the single update gives on the store before the first. *)
Theorem X16_updates_compose
    (first second : TsConfigUpdateOptions.t) (fs : filesystem)
    (config : jsobj) :
  let configPath := path_resolve (TsConfigUpdateOptions.configPath first) in
  let merged :=
    ConfigManager.mergeConfig config (TsConfigUpdateOptions.options first) in
  let fs1 := (ConfigManager.updateTsConfig first fs).2 in
  let both :=
    {| TsConfigUpdateOptions.configPath :=
         TsConfigUpdateOptions.configPath first;
       TsConfigUpdateOptions.options :=
         obj_assign (TsConfigUpdateOptions.options first)
           (TsConfigUpdateOptions.options second) |} in
  TsConfigUpdateOptions.configPath second
  = TsConfigUpdateOptions.configPath first ->
  ts.readConfigFile fs configPath = inl config ->
  ConfigManager.isValid (ConfigManager.validateConfig (JObj merged)) = true ->
  ts.readConfigFile fs1 configPath = inl merged ->
  ConfigManager.isValid
    (ConfigManager.validateConfig
       (JObj (ConfigManager.mergeConfig merged
                (TsConfigUpdateOptions.options second)))) = true ->
  ConfigManager.updateTsConfig second fs1
  = ConfigManager.updateTsConfig both fs.
Proof.
  intros configPath merged fs1 both Hpath Hread Hvalid Hread1 Hvalid2.
  rewrite (updateTsConfig_valid second fs1 merged)
    by (by rewrite ?Hpath).
  rewrite (updateTsConfig_valid both fs config); [|done|].
  - simpl. rewrite Hpath. fold configPath. fold merged.
    rewrite <- mergeConfig_twice. fold merged. f_equal.
    subst fs1. rewrite (updateTsConfig_valid first fs config) by done.
    simpl. fold configPath. by rewrite insert_insert_eq.
  - simpl. rewrite <- mergeConfig_twice. by fold merged.
Qed.


End config_calls.

Lemma X16_updates_witness :
  let R := Sample.runtime in
  let first :=
    {| TsConfigUpdateOptions.configPath := "/p/tsconfig.json";
       TsConfigUpdateOptions.options := {["strict" := JBool false]} |} in
  let second :=
    {| TsConfigUpdateOptions.configPath := "/p/tsconfig.json";
       TsConfigUpdateOptions.options :=
         {["strict" := JBool true; "target" := JStr "ES2017"]} |} in
  let merged :=
    ConfigManager.mergeConfig Sample.config
      (TsConfigUpdateOptions.options first) in
  let E :=
    Scenario.stored [(Sample.configText, Sample.config);
                     (JSON_stringify (JObj merged), merged)] in
  let fs1 := (ConfigManager.updateTsConfig first Sample.project).2 in
  let both :=
    {| TsConfigUpdateOptions.configPath := "/p/tsconfig.json";
       TsConfigUpdateOptions.options :=
         obj_assign (TsConfigUpdateOptions.options first)
           (TsConfigUpdateOptions.options second) |} in
  (ts.readConfigFile Sample.project (path_resolve "/p/tsconfig.json")
   = inl Sample.config
   /\ ConfigManager.isValid (ConfigManager.validateConfig (JObj merged)) = true
   /\ ts.readConfigFile fs1 (path_resolve "/p/tsconfig.json") = inl merged
   /\ ConfigManager.isValid
        (ConfigManager.validateConfig
           (JObj (ConfigManager.mergeConfig merged
                    (TsConfigUpdateOptions.options second)))) = true)
  /\ ConfigManager.updateTsConfig second fs1
     = ConfigManager.updateTsConfig both Sample.project.
Proof.
  split; [repeat split; vm_compute; reflexivity|].
  apply (X16_updates_compose
           (E:=Scenario.stored
                 [(Sample.configText, Sample.config);
                  (@JSON_stringify Sample.runtime
                     (JObj (ConfigManager.mergeConfig Sample.config
                              {["strict" := JBool false]})),
                   ConfigManager.mergeConfig Sample.config
                     {["strict" := JBool false]})])
           (R:=Sample.runtime)
           {| TsConfigUpdateOptions.configPath := "/p/tsconfig.json";
              TsConfigUpdateOptions.options := {["strict" := JBool false]} |}
           {| TsConfigUpdateOptions.configPath := "/p/tsconfig.json";
              TsConfigUpdateOptions.options :=
                {["strict" := JBool true; "target" := JStr "ES2017"]} |}
           Sample.project Sample.config);
    vm_compute; reflexivity.
Defined.


(** ** What a compilation writes *)

Section compile_effects.
Context {E : ts.Engine} {R : Runtime}.

(** The loop that writes the files, when it comes to its end. *)
Lemma writeFiles_resolved files : forall fs fs' u,
  Compiler.writeFiles fs files = (Resolved u, fs') ->
  NoDup (map path files) ->
  (forall f, f ∈ files -> fs' !! path f = Some (File (content f)))
  /\ (forall p, p ∉ map path files -> fs' !! p = fs !! p).
Proof.
  induction files as [|f rest IH]; intros fs fs' u Hwrite Hnodup.
  - injection Hwrite as _ <-. split; [|done].
    intros f Hf. by apply not_elem_of_nil in Hf.
  - simpl in Hwrite. unfold FileUtil.writeFile in Hwrite.
    apply NoDup_cons in Hnodup as [Hfresh Hnodup].
    assert (Compiler.writeFiles (<[path f := File (content f)]> fs) rest
            = (Resolved u, fs')) as Hrest
      by (destruct (fs !! path f) as [[]|]; done).
    destruct (IH _ _ _ Hrest Hnodup) as [Hin Hout]. split.
    + intros f' [->|Hf']%elem_of_cons; [|by apply Hin].
      rewrite (Hout _ Hfresh). apply lookup_insert_eq.
    + intros p Hp. simpl in Hp. apply not_elem_of_cons in Hp as [Hne Hp].
      rewrite (Hout _ Hp). by apply lookup_insert_ne.
Qed.

(** The source map lies beside the output. *)
Lemma dirname_append_map p :
  Path.endsWithSlash p = false ->
  Path.dirname (p +:+ ".map") = Path.dirname p.
Proof.
  unfold Path.endsWithSlash, Path.dirname. rewrite chars_app.
  destruct (Path.chars p) as [|c0 rest]; [done|].
  intros Hlast. cbn [app]. rewrite rev_app_distr.
  change (rev (Path.chars ".map"))
    with ["p"%char; "a"%char; "m"%char; "."%char].
  cbn [app Path.drop_while].
  change (bool_decide ("p"%char = Path.slash)) with false.
  change (bool_decide ("a"%char = Path.slash)) with false.
  change (bool_decide ("m"%char = Path.slash)) with false.
  change (bool_decide ("."%char = Path.slash)) with false.
  cbn [negb Path.drop_while].
  change (bool_decide ("p"%char = Path.slash)) with false.
  change (bool_decide ("a"%char = Path.slash)) with false.
  change (bool_decide ("m"%char = Path.slash)) with false.
  change (bool_decide ("."%char = Path.slash)) with false.
  cbn [negb].
  destruct (rev rest) as [|x back] eqn:Hrev; [done|].
  assert (rest = rev back ++ [x]) as ->
    by (by rewrite <- (rev_involutive rest), Hrev).
  rewrite app_comm_cons, last_snoc in Hlast.
  apply bool_decide_eq_false in Hlast.
  cbn [Path.drop_while].
  rewrite !(bool_decide_eq_false_2 (x = Path.slash)) by done.
  cbn [negb Path.drop_while].
  by rewrite (bool_decide_eq_false_2 (x = Path.slash)).
Qed.

Lemma dirname_of_map p :
  path_resolve p = p -> Path.dirname (p +:+ ".map") = Path.dirname p.
Proof.
  intros Hp. destruct (Path.endsWithSlash p) eqn:Hs.
  - rewrite <- Hp in Hs. apply resolve_endsWithSlash in Hs.
    fold (path_resolve p) in Hs. rewrite Hp in Hs. by subst p.
  - by apply dirname_append_map.
Qed.

(** X18. Where the output path is written in place, a [compileSingleFile]
    that returns has written what it returns: the result lists one or two
    files, the first at the output path and all of them in its directory,
    each of them is in the store with the content listed, the store is
    otherwise as before, and [output] is the content of the first. This
    holds whether [success] is true or not. *)
Theorem X18_compileSingleFile_writes_what_it_returns
    (options : CompileOptions.t) (fs fs' : filesystem) (requested : string)
    (result : CompilationResult.t) :
  let outputPath :=
    FileUtil.getOutputPath (path_resolve requested)
      (CompileOptions.outputDir options) in
  CompileOptions.filePath options = Some requested ->
  writes_in_place fs outputPath ->
  Compiler.compileSingleFile options fs = (Resolved result, fs') ->
  exists files,
    CompilationResult.files result = Some files
    /\ (1 <= length files <= 2)%nat
    /\ path <$> head files = Some outputPath
    /\ (forall f, f ∈ files -> fs !! Path.dirname (path f) = Some Dir)
    /\ (forall f, f ∈ files -> fs' !! path f = Some (File (content f)))
    /\ (forall p, p ∉ map path files -> fs' !! p = fs !! p)
    /\ CompilationResult.output result = content <$> head files.
Proof.
  intros outputPath Hfile [Hresolved Hdir]. unfold Compiler.compileSingleFile.
  rewrite Hfile.
  destruct (negb _); [discriminate|].
  destruct (FileUtil.readFile _ _) as [sourceCode|]; [|discriminate].
  cbv zeta. fold outputPath.
  set (out := ts.transpileModule _ _ _).
  set (files := _ :: _).
  assert ((1 <= length files <= 2)%nat /\ NoDup (map path files))
    as [Hlen Hnodup].
  { subst files.
    destruct (truthy_str (ts.sourceMapText out)) as [sourceMapText|];
      [destruct (CompileOptions.sourceMap options) as [[]|]|]; simpl;
      (split; [lia|]); repeat constructor;
      rewrite ?elem_of_cons; try (by intros []);
      try apply not_elem_of_nil.
    intros [Heq|[]%not_elem_of_nil]. symmetry in Heq.
    by apply append_map_ne in Heq. }
  assert (forall f, f ∈ files ->
                    Path.dirname (path f) = Path.dirname outputPath)
    as Hbeside.
  { subst files. intros f Hf.
    destruct (truthy_str (ts.sourceMapText out)) as [sourceMapText|];
      [destruct (CompileOptions.sourceMap options) as [[]|]|];
      repeat (apply elem_of_cons in Hf as [->|Hf]); try done;
      try (by apply not_elem_of_nil in Hf).
    simpl. by apply dirname_of_map. }
  destruct (Compiler.writeFiles fs files) as [[[]|e] fs1] eqn:Hwrite;
    [|discriminate].
  intros [= <- <-]. exists files.
  destruct (writeFiles_resolved _ _ _ _ Hwrite Hnodup) as [Hin Hout].
  repeat split; try lia; try done.
  intros f Hf. by rewrite (Hbeside f Hf).
Qed.

(** X19. Where the output path is written in place, a [compileSingleFile]
    that throws has changed the store in one case only: a source map was
    asked for, the output was written at the output path, and the path of
    the map is a directory. *)
Theorem X19_compileSingleFile_rejected
    (options : CompileOptions.t) (fs fs' : filesystem) (requested e : string) :
  let outputPath :=
    FileUtil.getOutputPath (path_resolve requested)
      (CompileOptions.outputDir options) in
  CompileOptions.filePath options = Some requested ->
  writes_in_place fs outputPath ->
  Compiler.compileSingleFile options fs = (Rejected e, fs') ->
  fs' = fs
  \/ exists text,
       CompileOptions.sourceMap options = Some true
       /\ fs !! (outputPath +:+ ".map") = Some Dir
       /\ fs' = <[outputPath := File text]> fs.
Proof.
  intros outputPath Hfile _. unfold Compiler.compileSingleFile.
  rewrite Hfile.
  destruct (negb _); [intros [= _ <-]; by left|].
  destruct (FileUtil.readFile _ _) as [sourceCode|];
    [|intros [= _ <-]; by left].
  cbv zeta. fold outputPath.
  set (out := ts.transpileModule _ _ _).
  destruct (truthy_str (ts.sourceMapText out)) as [sourceMapText|];
    [destruct (CompileOptions.sourceMap options) as [[]|]|]; simpl;
    unfold FileUtil.writeFile;
    destruct (fs !! outputPath) as [[]|] eqn:Hout; try discriminate;
    try (intros [= _ <-]; by left).
  all: rewrite lookup_insert_ne by apply not_eq_sym, append_map_ne;
    destruct (fs !! (outputPath +:+ ".map")) as [[]|] eqn:Hmap;
    try discriminate;
    intros [= _ <-]; right; by eauto.
Qed.

(** X20. When the configuration of the project parses with errors,
    [compileProject] returns one diagnostic for each, all of them at
    [tsconfig.json:0:0] and with severity [error] whatever the category,
    and neither emits nor writes. *)
Theorem X20_compileProject_configuration_errors
    (options : CompileOptions.t) (fs : filesystem) (requested : string)
    (config : jsobj) :
  let projectPath := path_resolve requested in
  let tsConfigPath := Path.join projectPath "tsconfig.json" in
  let parsedConfig := ts.parseJsonConfigFileContent config fs projectPath in
  CompileOptions.projectPath options = Some requested ->
  ts.readConfigFile fs tsConfigPath = inl config ->
  ts.errors parsedConfig <> [] ->
  exists errors,
    Compiler.compileProject options fs
    = (Resolved {| CompilationResult.success := false;
                   CompilationResult.output := None;
                   CompilationResult.files := None;
                   CompilationResult.errors := Some errors |}, fs)
    /\ length errors = length (ts.errors parsedConfig)
    /\ Forall (fun e => file e = tsConfigPath
                        /\ line e = 0%nat /\ column e = 0%nat
                        /\ severity e = error) errors.
Proof.
  intros projectPath tsConfigPath parsedConfig Hproject Hread Herrors.
  destruct (readConfigFile_inl _ _ _ Hread) as [text Htext].
  unfold Compiler.compileProject. rewrite Hproject.
  fold projectPath. fold tsConfigPath.
  unfold FileUtil.fileExists. rewrite bool_decide_eq_true_2 by eauto.
  change (negb true) with false. cbv iota. rewrite Hread.
  fold parsedConfig.
  destruct (ts.errors parsedConfig) as [|d ds] eqn:Hds; [done|].
  eexists. split; [reflexivity|]. split.
  - by rewrite length_map.
  - apply Forall_forall. intros e He.
    apply list_elem_of_fmap in He as (d' & -> & _). done.
Qed.

(** X21. A request with [watch] and a [filePath] registers a watcher and
    returns [success: true] at once: the file is not compiled, the store is
    not touched, the file need not exist, and a [projectPath] in the request
    is not looked at. *)
Theorem X21_a_watch_request_only_registers
    (options : CompileOptions.t) (self : Compiler.TypeScriptCompiler)
    (fs : filesystem) (requested : string) :
  CompileOptions.watch options = Some true ->
  CompileOptions.filePath options = Some requested ->
  requested <> "" ->
  Compiler.compileFile options self fs
  = (Resolved
       {| CompilationResult.success := true;
          CompilationResult.output :=
            Some ("Watch mode started for " +:+ path_resolve requested
                  +:+ ". Press Ctrl+C to stop.");
          CompilationResult.files := None;
          CompilationResult.errors := None |},
     (Compiler.setupWatchMode options self).2, fs)
  /\ Compiler.watcherMap (Compiler.setupWatchMode options self).2
       !! path_resolve requested
     = Some (length (Compiler.watchers self)).
Proof.
  intros Hwatch Hfile Hne.
  unfold Compiler.compileFile, Compiler.setupWatchMode, truthy_str.
  rewrite Hwatch, Hfile, decide_False by done. simpl. split; [done|].
  rewrite lookup_insert_eq. f_equal.
  destruct (Compiler.watcherMap self !! _); [|done].
  unfold Compiler.close. by rewrite length_alter.
Qed.

(** X22. [watch] does nothing for a project: a request with [watch] and a
    [projectPath] but no [filePath] is compiled once as a project and no
    watcher is registered. *)
Theorem X22_watch_is_ignored_for_a_project
    (options : CompileOptions.t) (self : Compiler.TypeScriptCompiler)
    (fs : filesystem) (requested : string) :
  truthy_str (CompileOptions.filePath options) = None ->
  CompileOptions.projectPath options = Some requested ->
  requested <> "" ->
  Compiler.compileFile options self fs
  = ((Compiler.compileProject options fs).1, self,
     (Compiler.compileProject options fs).2).
Proof.
  intros Hfile Hproject Hne. unfold Compiler.compileFile.
  rewrite Hfile, Hproject. unfold truthy_str. rewrite decide_False by done.
  destruct (Compiler.compileProject options fs) as [promise fs'].
  by destruct (CompileOptions.watch options) as [[]|].
Qed.

End compile_effects.

Lemma X18_compileSingleFile_witness :
  let E := Scenario.mapping in
  let R := Sample.runtime in
  let options := Sample.compileRequest "/d/b.ts" (Some true) in
  let outputPath :=
    FileUtil.getOutputPath (path_resolve "/d/b.ts")
      (CompileOptions.outputDir options) in
  (CompileOptions.filePath options = Some "/d/b.ts"
   /\ writes_in_place Sample.bare outputPath)
  /\ exists result fs',
       Compiler.compileSingleFile options Sample.bare = (Resolved result, fs')
       /\ exists files,
            CompilationResult.files result = Some files
            /\ (1 <= length files <= 2)%nat
            /\ path <$> head files = Some outputPath
            /\ (forall f, f ∈ files ->
                          Sample.bare !! Path.dirname (path f) = Some Dir)
            /\ (forall f, f ∈ files ->
                          fs' !! path f = Some (File (content f)))
            /\ (forall p, p ∉ map path files -> fs' !! p = Sample.bare !! p)
            /\ CompilationResult.output result = content <$> head files.
Proof.
  intros E R options outputPath.
  assert (writes_in_place Sample.bare outputPath) as Hplace
    by (split; vm_compute; reflexivity).
  eassert (Compiler.compileSingleFile options Sample.bare
           = (Resolved _, _)) as Hrun by (vm_compute; reflexivity).
  split; [by split|].
  eexists _, _. split; [exact Hrun|].
  exact (X18_compileSingleFile_writes_what_it_returns (E:=Scenario.mapping)
           (R:=Sample.runtime) options Sample.bare _ "/d/b.ts" _
           eq_refl Hplace Hrun).
Defined.

Lemma X19_compileSingleFile_witness :
  let E := Scenario.mapping in
  let R := Sample.runtime in
  let options := Sample.compileRequest "/d/b.ts" (Some true) in
  let fs : filesystem := <["/d/b.js.map" := Dir]> Sample.bare in
  let outputPath :=
    FileUtil.getOutputPath (path_resolve "/d/b.ts")
      (CompileOptions.outputDir options) in
  (CompileOptions.filePath options = Some "/d/b.ts"
   /\ writes_in_place fs outputPath)
  /\ exists e fs',
       Compiler.compileSingleFile options fs = (Rejected e, fs')
       /\ fs' <> fs
       /\ (fs' = fs
           \/ exists text,
                CompileOptions.sourceMap options = Some true
                /\ fs !! (outputPath +:+ ".map") = Some Dir
                /\ fs' = <[outputPath := File text]> fs).
Proof.
  intros E R options fs outputPath.
  assert (writes_in_place fs outputPath) as Hplace
    by (split; vm_compute; reflexivity).
  eassert (Compiler.compileSingleFile options fs = (Rejected _, _)) as Hrun
    by (vm_compute; reflexivity).
  split; [by split|].
  eexists _, _. split; [exact Hrun|]. split; [vm_compute; discriminate|].
  exact (X19_compileSingleFile_rejected (E:=Scenario.mapping)
           (R:=Sample.runtime) options fs _ "/d/b.ts" _
           eq_refl Hplace Hrun).
Defined.

Lemma X20_compileProject_witness :
  let E := Scenario.noisy in
  let R := Sample.runtime in
  let fs : filesystem :=
    <["/q/tsconfig.json" := File "{broken}"]> Sample.bare in
  let options :=
    {| CompileOptions.filePath := None;
       CompileOptions.projectPath := Some "/q";
       CompileOptions.outputDir := None;
       CompileOptions.sourceMap := None;
       CompileOptions.watch := None |} in
  let config : jsobj := {["broken" := JBool true]} in
  (CompileOptions.projectPath options = Some "/q"
   /\ ts.readConfigFile fs (Path.join (path_resolve "/q") "tsconfig.json")
      = inl config
   /\ ts.errors (ts.parseJsonConfigFileContent config fs (path_resolve "/q"))
      <> [])
  /\ exists errors,
       Compiler.compileProject options fs
       = (Resolved {| CompilationResult.success := false;
                      CompilationResult.output := None;
                      CompilationResult.files := None;
                      CompilationResult.errors := Some errors |}, fs)
       /\ length errors
          = length (ts.errors (ts.parseJsonConfigFileContent config fs
                                 (path_resolve "/q")))
       /\ Forall (fun e => file e
                           = Path.join (path_resolve "/q") "tsconfig.json"
                           /\ line e = 0%nat /\ column e = 0%nat
                           /\ severity e = error) errors.
Proof.
  split; [split; [reflexivity|split;
                  [vm_compute; reflexivity|vm_compute; discriminate]]|].
  apply (X20_compileProject_configuration_errors (E:=Scenario.noisy)
           (R:=Sample.runtime)
           {| CompileOptions.filePath := None;
              CompileOptions.projectPath := Some "/q";
              CompileOptions.outputDir := None;
              CompileOptions.sourceMap := None;
              CompileOptions.watch := None |}
           (<["/q/tsconfig.json" := File "{broken}"]> Sample.bare) "/q"
           {["broken" := JBool true]});
    [reflexivity|vm_compute; reflexivity|vm_compute; discriminate].
Defined.

Lemma X21_watch_request_witness :
  let E := Sample.engine in
  let R := Sample.runtime in
  let options :=
    {| CompileOptions.filePath := Some "/d/missing.ts";
       CompileOptions.projectPath := Some "/p";
       CompileOptions.outputDir := None;
       CompileOptions.sourceMap := None;
       CompileOptions.watch := Some true |} in
  (CompileOptions.watch options = Some true
   /\ CompileOptions.filePath options = Some "/d/missing.ts"
   /\ "/d/missing.ts" <> ""
   /\ FileUtil.fileExists Sample.bare (path_resolve "/d/missing.ts") = false)
  /\ Compiler.compileFile options Compiler.new_compiler Sample.bare
     = (Resolved
          {| CompilationResult.success := true;
             CompilationResult.output :=
               Some ("Watch mode started for " +:+ path_resolve "/d/missing.ts"
                     +:+ ". Press Ctrl+C to stop.");
             CompilationResult.files := None;
             CompilationResult.errors := None |},
        (Compiler.setupWatchMode options Compiler.new_compiler).2,
        Sample.bare)
  /\ Compiler.watcherMap
       (Compiler.setupWatchMode options Compiler.new_compiler).2
       !! path_resolve "/d/missing.ts"
     = Some (length (Compiler.watchers Compiler.new_compiler)).
Proof.
  split; [repeat split; try discriminate; vm_compute; reflexivity|].
  apply (X21_a_watch_request_only_registers (E:=Sample.engine)
           (R:=Sample.runtime)
           {| CompileOptions.filePath := Some "/d/missing.ts";
              CompileOptions.projectPath := Some "/p";
              CompileOptions.outputDir := None;
              CompileOptions.sourceMap := None;
              CompileOptions.watch := Some true |}
           Compiler.new_compiler Sample.bare "/d/missing.ts");
    [reflexivity|reflexivity|discriminate].
Defined.

Lemma X22_watch_project_witness :
  let E := Sample.engine in
  let R := Sample.runtime in
  let options :=
    {| CompileOptions.filePath := None;
       CompileOptions.projectPath := Some "/p";
       CompileOptions.outputDir := None;
       CompileOptions.sourceMap := None;
       CompileOptions.watch := Some true |} in
  (truthy_str (CompileOptions.filePath options) = None
   /\ CompileOptions.projectPath options = Some "/p"
   /\ "/p" <> "")
  /\ Compiler.compileFile options Compiler.new_compiler Sample.project
     = ((Compiler.compileProject options Sample.project).1,
        Compiler.new_compiler,
        (Compiler.compileProject options Sample.project).2).
Proof.
  split; [repeat split; discriminate|].
  apply (X22_watch_is_ignored_for_a_project (E:=Sample.engine)
           (R:=Sample.runtime)
           {| CompileOptions.filePath := None;
              CompileOptions.projectPath := Some "/p";
              CompileOptions.outputDir := None;
              CompileOptions.sourceMap := None;
              CompileOptions.watch := Some true |}
           Compiler.new_compiler Sample.project "/p");
    [reflexivity|reflexivity|discriminate].
Defined.

(** ** The sessions of the watch mode *)

Section sessions.
Context {R : Runtime}.

Lemma registry_sound_setup options self :
  registry_sound self ->
  registry_sound (Compiler.setupWatchMode options self).2.
Proof.
  intros Hsound. unfold Compiler.setupWatchMode.
  destruct (CompileOptions.filePath options) as [requested|]; [|done].
  set (key := path_resolve requested).
  set (ws := match Compiler.watcherMap self !! key with
             | Some old => _ | None => _ end).
  intros key' handle. simpl. destruct (decide (key = key')) as [<-|Hne].
  - rewrite lookup_insert_eq. intros [= <-].
    exists {| Compiler.watched := key; Compiler.listener := options;
              Compiler.closed := false |}.
    split; [|done]. rewrite lookup_app_r by lia. by rewrite Nat.sub_diag.
  - rewrite lookup_insert_ne by done. intros Hkey'.
    destruct (Hsound _ _ Hkey') as (w & Hw & Hwatched & Hopen).
    exists w. split; [|done]. apply lookup_app_l_Some. subst ws.
    destruct (Compiler.watcherMap self !! key) as [old|] eqn:Hkey; [|done].
    rewrite close_lookup, decide_False; [done|].
    intros ->. destruct (Hsound _ _ Hkey) as (w' & Hw' & Hwatched' & _).
    congruence.
Qed.

Lemma registry_sound_stop filePath self :
  registry_sound self -> registry_sound (Compiler.stopWatching filePath self).
Proof.
  intros Hsound. unfold Compiler.stopWatching.
  destruct (truthy_str filePath) as [requested|]; [|done].
  destruct (Compiler.watcherMap self !! path_resolve requested)
    as [watcher|] eqn:Hkey; [|done].
  intros key handle. simpl. intros Hhandle.
  apply lookup_delete_Some in Hhandle as [Hne Hhandle].
  destruct (Hsound _ _ Hhandle) as (w & Hw & Hwatched & Hopen).
  exists w. split; [|done].
  rewrite close_lookup, decide_False; [done|].
  intros ->. destruct (Hsound _ _ Hkey) as (w' & Hw' & Hwatched' & _).
  congruence.
Qed.

Lemma registry_sound_run cs : registry_sound (run_calls cs).
Proof.
  unfold run_calls. induction cs as [|c cs IH] using rev_ind.
  - intros key handle Hkey. simpl in Hkey. by rewrite lookup_empty in Hkey.
  - rewrite foldl_app. simpl. destruct c; simpl.
    + by apply registry_sound_setup.
    + by apply registry_sound_stop.
Qed.

(** Closing a watcher of another path does not change who is live here. *)
Lemma live_on_close key handle ws w :
  ws !! handle = Some w ->
  Compiler.watched w <> key ->
  filter (fun w => Compiler.watched w = key /\ Compiler.closed w = false)
    (Compiler.close handle ws)
  = filter (fun w => Compiler.watched w = key /\ Compiler.closed w = false) ws.
Proof.
  unfold Compiler.close. revert handle.
  induction ws as [|x ws IH]; intros handle Hw Hne; [done|].
  destruct handle as [|handle]; simpl in *.
  - injection Hw as ->. rewrite !filter_cons.
    rewrite !decide_False; [done| |]; by intros [].
  - rewrite !filter_cons.
    destruct (decide _); [f_equal|]; apply (IH handle Hw Hne).
Qed.

Lemma watched_close handle ws :
  map Compiler.watched (Compiler.close handle ws) = map Compiler.watched ws.
Proof.
  unfold Compiler.close. revert handle.
  induction ws as [|x ws IH]; intros [|handle]; try done.
  simpl. f_equal. apply IH.
Qed.

Lemma live_on_unregistered key self :
  registry_ok self ->
  Compiler.watcherMap self !! key = None ->
  live_on key self = [].
Proof.
  intros Hok Hkey. apply filter_none.
  intros w [i Hi]%list_elem_of_lookup [Hwatched Hopen].
  pose proof (Hok _ _ Hi Hopen) as Hm. rewrite Hwatched in Hm. congruence.
Qed.

(** X23. In every state the instance can reach, the map and the watchers
    agree: a path has an entry in [watcherMap] exactly when it has a watcher
    that was not closed, and then it has one. No watcher is left running
    without an entry, and no entry is left without its watcher. *)
Theorem X23_registered_means_one_live_watcher (cs : list call) (key : string) :
  (is_Some (Compiler.watcherMap (run_calls cs) !! key)
   <-> length (live_on key (run_calls cs)) = 1%nat)
  /\ (Compiler.watcherMap (run_calls cs) !! key = None
      <-> live_on key (run_calls cs) = []).
Proof.
  pose proof (registry_ok_run cs) as Hok.
  pose proof (registry_sound_run cs) as Hsound.
  pose proof (live_on_at_most_one key _ Hok) as Hle.
  assert (is_Some (Compiler.watcherMap (run_calls cs) !! key)
          -> live_on key (run_calls cs) <> []) as Hlive.
  { intros [handle Hkey] Hnil.
    destruct (Hsound _ _ Hkey) as (w & Hw & Hwatched & Hopen).
    assert (w ∈ live_on key (run_calls cs)) as Hin.
    { apply list_elem_of_filter. split; [done|].
      by eapply list_elem_of_lookup_2. }
    rewrite Hnil in Hin. by apply not_elem_of_nil in Hin. }
  split; split.
  - intros Hsome. specialize (Hlive Hsome).
    destruct (live_on key (run_calls cs)) as [|? [|]]; simpl in *;
      done || lia.
  - intros Hone.
    destruct (Compiler.watcherMap (run_calls cs) !! key) eqn:Hkey; [by eauto|].
    rewrite (live_on_unregistered _ _ Hok Hkey) in Hone. discriminate Hone.
  - by apply live_on_unregistered.
  - intros Hnil.
    destruct (Compiler.watcherMap (run_calls cs) !! key) eqn:Hkey; [|done].
    exfalso. apply Hlive; by eauto.
Qed.

(** X24. After a registration the one live watcher of the path carries the
    request of that registration: a change of the file is compiled with the
    options of the latest [setupWatchMode], not with those of an earlier
    one. *)
Theorem X24_the_live_watcher_has_the_latest_request
    (cs : list call) (options : CompileOptions.t) (requested : string) :
  CompileOptions.filePath options = Some requested ->
  live_on (path_resolve requested) (run_calls (cs ++ [Watch options]))
  = [{| Compiler.watched := path_resolve requested;
        Compiler.listener := options;
        Compiler.closed := false |}].
Proof.
  intros Hfile.
  pose proof (live_on_after_setup options requested (run_calls cs) Hfile
                (registry_ok_run cs)) as Hone.
  unfold run_calls in *. rewrite foldl_app. simpl.
  revert Hone. unfold Compiler.setupWatchMode, live_on. rewrite Hfile. simpl.
  rewrite filter_app, filter_cons, decide_True by done.
  rewrite filter_nil, length_app. simpl.
  destruct (filter _ _); [done|simpl; lia].
Qed.

(** X25. [stopWatching(filePath)] ends the session of that path and no
    other: afterwards the path has no entry and no live watcher, and every
    other path has the entry and the live watchers it had. *)
Theorem X25_stopWatching_a_path_ends_that_session_only
    (cs : list call) (requested key : string) :
  let before := run_calls cs in
  let after := Compiler.stopWatching (Some requested) before in
  requested <> "" ->
  (Compiler.watcherMap after !! path_resolve requested = None
   /\ live_on (path_resolve requested) after = [])
  /\ (key <> path_resolve requested ->
      Compiler.watcherMap after !! key = Compiler.watcherMap before !! key
      /\ live_on key after = live_on key before).
Proof.
  intros before after Hne.
  pose proof (registry_ok_run cs) as Hok.
  pose proof (registry_sound_run cs) as Hsound.
  pose proof (registry_ok_stop (Some requested) _ Hok) as Hok'.
  fold before in Hok, Hsound. fold before after in Hok'.
  assert (Compiler.watcherMap after !! path_resolve requested = None)
    as Hgone.
  { subst after. unfold Compiler.stopWatching, truthy_str.
    rewrite decide_False by done.
    destruct (Compiler.watcherMap before !! path_resolve requested) eqn:Hkey;
      [apply lookup_delete_eq|done]. }
  split; [split; [done|by apply live_on_unregistered]|].
  intros Hkey. subst after. unfold Compiler.stopWatching, truthy_str.
  rewrite decide_False by done.
  destruct (Compiler.watcherMap before !! path_resolve requested)
    as [handle|] eqn:Hentry; [|done].
  split; [by apply lookup_delete_ne|].
  destruct (Hsound _ _ Hentry) as (w & Hw & Hwatched & _).
  unfold live_on. simpl. apply (live_on_close _ _ _ w); congruence.
Qed.

(** X26. A registration for one path leaves the sessions of the other
    paths alone: their entries and their live watchers are the ones from
    before. *)
Theorem X26_setupWatchMode_leaves_other_paths
    (cs : list call) (options : CompileOptions.t) (requested key : string) :
  let before := run_calls cs in
  let after := (Compiler.setupWatchMode options before).2 in
  CompileOptions.filePath options = Some requested ->
  key <> path_resolve requested ->
  Compiler.watcherMap after !! key = Compiler.watcherMap before !! key
  /\ live_on key after = live_on key before.
Proof.
  intros before after Hfile Hkey.
  pose proof (registry_sound_run cs) as Hsound. fold before in Hsound.
  subst after. unfold Compiler.setupWatchMode. rewrite Hfile. simpl.
  split; [by apply lookup_insert_ne|].
  unfold live_on. simpl.
  rewrite filter_app, filter_cons, decide_False, filter_nil, app_nil_r
    by (simpl; intros []; congruence).
  destruct (Compiler.watcherMap before !! path_resolve requested)
    as [old|] eqn:Hentry; [|done].
  destruct (Hsound _ _ Hentry) as (w & Hw & Hwatched & _).
  apply (live_on_close _ _ _ w); congruence.
Qed.

(** X27. [stopWatching()] closes every watcher the instance ever made, the
    replaced ones included, and empties the map; none of them is dropped
    from the record. *)
Theorem X27_stopWatching_closes_every_watcher (cs : list call) :
  let after := Compiler.stopWatching None (run_calls cs) in
  Forall (fun w => Compiler.closed w = true) (Compiler.watchers after)
  /\ Compiler.watcherMap after = ∅
  /\ map Compiler.watched (Compiler.watchers after)
     = map Compiler.watched (Compiler.watchers (run_calls cs)).
Proof.
  intros after.
  pose proof (registry_ok_stop None _ (registry_ok_run cs)) as Hok.
  fold after in Hok. split; [|split; [done|]].
  - apply Forall_forall. intros w [i Hi]%list_elem_of_lookup.
    destruct (Compiler.closed w) eqn:Hclosed; [done|].
    pose proof (Hok _ _ Hi Hclosed) as Hentry. simpl in Hentry.
    by rewrite lookup_empty in Hentry.
  - subst after. simpl.
    generalize (map_to_list (Compiler.watcherMap (run_calls cs))).*2.
    intros handles. induction handles as [|h handles IH]; [done|].
    simpl. by rewrite watched_close.
Qed.

End sessions.

Lemma X24_latest_request_witness :
  let R := Sample.runtime in
  let earlier := Sample.watchRequest "/p/a.ts" in
  let latest := Sample.compileRequest "/p/a.ts" (Some true) in
  CompileOptions.filePath latest = Some "/p/a.ts"
  /\ live_on (path_resolve "/p/a.ts")
       (run_calls ([Watch earlier] ++ [Watch latest]))
     = [{| Compiler.watched := path_resolve "/p/a.ts";
           Compiler.listener := latest;
           Compiler.closed := false |}].
Proof.
  split; [reflexivity|].
  apply (X24_the_live_watcher_has_the_latest_request (R:=Sample.runtime)
           [Watch (Sample.watchRequest "/p/a.ts")]
           (Sample.compileRequest "/p/a.ts" (Some true)) "/p/a.ts").
  reflexivity.
Defined.

Lemma X25_stopWatching_witness :
  let R := Sample.runtime in
  let before :=
    run_calls [Watch (Sample.watchRequest "/p/a.ts");
               Watch (Sample.watchRequest "/p/b.ts")] in
  let after := Compiler.stopWatching (Some "/p/a.ts") before in
  ("/p/a.ts" <> "" /\ "/p/b.ts" <> path_resolve "/p/a.ts")
  /\ (Compiler.watcherMap after !! path_resolve "/p/a.ts" = None
      /\ live_on (path_resolve "/p/a.ts") after = [])
  /\ Compiler.watcherMap after !! "/p/b.ts"
     = Compiler.watcherMap before !! "/p/b.ts"
  /\ live_on "/p/b.ts" after = live_on "/p/b.ts" before.
Proof.
  split; [split; [discriminate|vm_compute; discriminate]|].
  destruct (X25_stopWatching_a_path_ends_that_session_only
              (R:=Sample.runtime)
              [Watch (Sample.watchRequest "/p/a.ts");
               Watch (Sample.watchRequest "/p/b.ts")] "/p/a.ts" "/p/b.ts")
    as [Hgone Hkept]; [discriminate|].
  split; [exact Hgone|]. apply Hkept. vm_compute; discriminate.
Defined.

Lemma X26_setupWatchMode_witness :
  let R := Sample.runtime in
  let before := run_calls [Watch (Sample.watchRequest "/p/a.ts")] in
  let options := Sample.watchRequest "/p/b.ts" in
  let after := (Compiler.setupWatchMode options before).2 in
  (CompileOptions.filePath options = Some "/p/b.ts"
   /\ "/p/a.ts" <> path_resolve "/p/b.ts")
  /\ Compiler.watcherMap after !! "/p/a.ts"
     = Compiler.watcherMap before !! "/p/a.ts"
  /\ live_on "/p/a.ts" after = live_on "/p/a.ts" before.
Proof.
  split; [split; [reflexivity|vm_compute; discriminate]|].
  apply (X26_setupWatchMode_leaves_other_paths (R:=Sample.runtime)
           [Watch (Sample.watchRequest "/p/a.ts")]
           (Sample.watchRequest "/p/b.ts") "/p/b.ts" "/p/a.ts");
    [reflexivity|vm_compute; discriminate].
Defined.

(** ** The syntax check *)

Section syntax.
Context {E : ts.Engine} {P : ts.Parser} {R : Runtime}.

Lemma Node_forall (Q : ts.Node -> Prop) :
  (forall kind pos children,
     Forall Q children -> Q (ts.MkNode kind pos children)) ->
  forall node, Q node.
Proof.
  intros Hnode. fix IH 1. intros [kind pos children]. apply Hnode.
  induction children as [|child children IHchildren]; constructor.
  - apply IH.
  - apply IHchildren.
Qed.

Lemma visit_length sourceFile node :
  length (TypeChecker.visit sourceFile node) = unknown_nodes node.
Proof.
  induction node as [kind pos children IH] using Node_forall. simpl.
  rewrite length_app. f_equal; [by destruct (decide _)|].
  induction IH as [|child children Hchild _ IHchildren]; [done|].
  simpl. rewrite length_app. by rewrite Hchild, IHchildren.
Qed.

Lemma visit_one_based sourceFile node :
  Forall (fun e => (1 <= TypeChecker.SyntaxError.line e)%nat
                   /\ (1 <= TypeChecker.SyntaxError.column e)%nat)
    (TypeChecker.visit sourceFile node).
Proof.
  induction node as [kind pos children IH] using Node_forall. simpl.
  apply Forall_app. split.
  - destruct (decide _); repeat constructor; simpl; lia.
  - induction IH as [|child children Hchild _ IHchildren]; simpl.
    + constructor.
    + apply Forall_app. by split.
Qed.

Lemma parserErrors_length ds :
  length (TypeChecker.parserErrors ds) = length (filter positioned ds).
Proof.
  unfold TypeChecker.parserErrors.
  induction ds as [|d ds IH]; [done|].
  simpl. rewrite length_app, filter_cons, IH.
  destruct (decide (positioned d)) as [[[f Hf] [start Hstart]]|Hnot].
  - by rewrite Hf, Hstart.
  - destruct (ts.file d) eqn:Hf, (ts.start d) eqn:Hstart; try done.
    exfalso. apply Hnot. unfold positioned. rewrite Hf, Hstart. by eauto.
Qed.

Lemma parserErrors_one_based ds :
  Forall (fun e => (1 <= TypeChecker.SyntaxError.line e)%nat
                   /\ (1 <= TypeChecker.SyntaxError.column e)%nat)
    (TypeChecker.parserErrors ds).
Proof.
  unfold TypeChecker.parserErrors.
  induction ds as [|d ds IH]; simpl; [constructor|].
  apply Forall_app. split; [|done].
  destruct (ts.file d), (ts.start d); repeat constructor; simpl; lia.
Qed.

(** X28. For a regular file [validateSyntax] returns, with one error for
    each node of kind [Unknown] in the tree and one for each diagnostic of
    the parser that has a file and a start. A diagnostic without a position
    is dropped and does not make the file invalid: [isValid] is true exactly
    when the tree has no unknown node and no diagnostic has a position.
    Every line and column reported is at least 1. *)
Theorem X28_validateSyntax_counts
    (filePath : string) (fs : filesystem) (sourceCode : string) :
  let resolvedPath := path_resolve filePath in
  let sourceFile := {| ts.fileName := resolvedPath; ts.text := sourceCode |} in
  let tree := ts.createSourceFile resolvedPath sourceCode in
  let syntacticDiagnostics :=
    ts.getSyntacticDiagnostics [resolvedPath] fs sourceFile in
  fs !! resolvedPath = Some (File sourceCode) ->
  exists result,
    TypeChecker.validateSyntax filePath fs = Resolved result
    /\ length (TypeChecker.SyntaxResult.errors result)
       = (unknown_nodes tree
          + length (filter positioned syntacticDiagnostics))%nat
    /\ (TypeChecker.SyntaxResult.isValid result = true
        <-> unknown_nodes tree = 0%nat
            /\ Forall (fun d => ~ positioned d) syntacticDiagnostics)
    /\ Forall (fun e => (1 <= TypeChecker.SyntaxError.line e)%nat
                        /\ (1 <= TypeChecker.SyntaxError.column e)%nat)
         (TypeChecker.SyntaxResult.errors result).
Proof.
  intros resolvedPath sourceFile tree syntacticDiagnostics Hfile.
  unfold TypeChecker.validateSyntax. fold resolvedPath.
  unfold FileUtil.fileExists, FileUtil.readFile.
  rewrite Hfile, bool_decide_eq_true_2 by eauto.
  change (negb true) with false. cbv iota zeta.
  fold sourceFile. fold tree. fold syntacticDiagnostics.
  eexists. split; [reflexivity|]. simpl.
  assert (length (TypeChecker.visit sourceFile tree
                  ++ TypeChecker.parserErrors syntacticDiagnostics)
          = (unknown_nodes tree
             + length (filter positioned syntacticDiagnostics))%nat) as Hlen
    by (by rewrite length_app, visit_length, parserErrors_length).
  split; [done|]. split.
  - rewrite bool_decide_eq_true, Hlen. split.
    + intros Hzero. split; [lia|].
      apply Forall_forall. intros d Hd Hpos.
      assert (d ∈ filter positioned syntacticDiagnostics) as Hin
        by (by apply list_elem_of_filter).
      destruct (filter positioned syntacticDiagnostics); [|simpl in *; lia].
      by apply not_elem_of_nil in Hin.
    + intros [-> Hnone]. rewrite filter_none; [done|].
      intros d Hd. by apply (proj1 (Forall_forall _ _) Hnone).
  - apply Forall_app. split;
      [apply visit_one_based|apply parserErrors_one_based].
Qed.

End syntax.

Lemma X28_validateSyntax_witness :
  let E := Sample.engine in
  let P := Scenario.parser in
  let R := Sample.runtime in
  let sourceFile :=
    {| ts.fileName := path_resolve "/p/bad.ts"; ts.text := "let # = @;" |} in
  Scenario.broken !! path_resolve "/p/bad.ts" = Some (File "let # = @;")
  /\ exists result,
       TypeChecker.validateSyntax "/p/bad.ts" Scenario.broken = Resolved result
       /\ length (TypeChecker.SyntaxResult.errors result)
          = (unknown_nodes
               (ts.createSourceFile (path_resolve "/p/bad.ts") "let # = @;")
             + length (filter positioned
                         (ts.getSyntacticDiagnostics
                            [path_resolve "/p/bad.ts"] Scenario.broken
                            sourceFile)))%nat
       /\ (TypeChecker.SyntaxResult.isValid result = true
           <-> unknown_nodes
                 (ts.createSourceFile (path_resolve "/p/bad.ts") "let # = @;")
               = 0%nat
               /\ Forall (fun d => ~ positioned d)
                    (ts.getSyntacticDiagnostics
                       [path_resolve "/p/bad.ts"] Scenario.broken sourceFile))
       /\ Forall (fun e => (1 <= TypeChecker.SyntaxError.line e)%nat
                           /\ (1 <= TypeChecker.SyntaxError.column e)%nat)
            (TypeChecker.SyntaxResult.errors result).
Proof.
  split; [vm_compute; reflexivity|].
  apply (X28_validateSyntax_counts (E:=Sample.engine) (P:=Scenario.parser)
           (R:=Sample.runtime) "/p/bad.ts" Scenario.broken "let # = @;").
  vm_compute; reflexivity.
Defined.
